(** * xcode-mcp: tool registry, protocol dispatcher and LangGraph agent

    A shallow embedding of [src/tool_registry.py], [src/unified_mcp_server.py],
    [src/langgraph_agent.py], and of the network adapters of
    [src/mcp_http_server.py] and [src/mcp_http_wrapper.py] with their
    authentication gate, with the properties of the dispatch and
    orchestration engine stated over it. *)

From Stdlib Require Import Floats Ascii.
From stdpp Require Import gmap strings list sorting fin_maps pretty.

Set Warnings "-register-all,-inexact-float".

(** ** Python values *)

(** The JSON-shaped values that travel through the server: tool arguments,
    tool results, request identifiers and rendered schemas.  A [JDict] keeps
    its items in insertion order, as a Python [dict] does. *)
Inductive JSON :=
| JNull
| JBool (b : bool)
| JInt (n : Z)
| JStr (s : string)
| JList (l : list JSON)
| JDict (d : list (string * JSON)).

(** A [dict] with string keys, in insertion order. *)
Abbreviation Dict V := (list (string * V)).

(** [d.get(k)] *)
Fixpoint dict_get {V} (k : string) (d : Dict V) : option V :=
  match d with
  | [] => None
  | (k', v) :: d' => if String.eqb k k' then Some v else dict_get k d'
  end.

(** [k in d] *)
Definition dict_mem {V} (k : string) (d : Dict V) : bool :=
  match dict_get k d with Some _ => true | None => false end.

(** [d[k] = v]: an existing key keeps its position, a new key goes last. *)
Fixpoint dict_set {V} (k : string) (v : V) (d : Dict V) : Dict V :=
  match d with
  | [] => [(k, v)]
  | (k', v') :: d' =>
      if String.eqb k k' then (k, v) :: d' else (k', v') :: dict_set k v d'
  end.

(** The keyword arguments of a tool call: the [arguments] object of a
    [tools/call] request, or the [args] of a model's tool call. *)
Abbreviation Args := (Dict JSON).

(** Python truthiness of a JSON value ([if not x], [x or y]). *)
Definition truthy (v : JSON) : bool :=
  match v with
  | JNull => false
  | JBool b => b
  | JInt n => negb (n =? 0)%Z
  | JStr s => negb (String.eqb s "")
  | JList l => match l with [] => false | _ => true end
  | JDict d => match d with [] => false | _ => true end
  end.

(** *** [json.dumps(..., sort_keys=True)]

    [sort_keys] orders the items of every dictionary, at every depth, by key
    before the value is written.  [sort_items] is that ordering and
    [canonical] applies it through a value. *)
Definition item_le {V} (a b : string * V) : Prop := String.le a.1 b.1.

Global Instance item_le_dec {V} (a b : string * V) : Decision (item_le a b).
Proof. unfold item_le, String.le. apply _. Defined.

Definition sort_items {V} (d : Dict V) : Dict V := merge_sort item_le d.

Fixpoint canonical (v : JSON) : JSON :=
  match v with
  | JList l => JList (map canonical l)
  | JDict d => JDict (sort_items (map (fun kv => (kv.1, canonical kv.2)) d))
  | _ => v
  end.

(** The items of an argument object as [sort_keys=True] writes them. *)
Definition canonical_args (a : Args) : Args :=
  sort_items (map (fun kv => (kv.1, canonical kv.2)) a).

(** Where the class of an exception stands in Python's hierarchy: under
    [Exception], which is all that [except Exception] catches;
    [KeyboardInterrupt]; or another class that derives from [BaseException]
    only ([SystemExit], [GeneratorExit], [asyncio.CancelledError]). *)
Inductive ExnBase :=
| Exception
| KeyboardInterrupt
| BaseException.

(** Outcome of a Python call: a returned value, or a raised exception kept
    by its place in the hierarchy, its class and its [str(e)]. *)
Record PyExn := { exn_base : ExnBase; exn_class : string; exn_str : string }.

(** [isinstance(e, Exception)] *)
Definition is_Exception (e : PyExn) : bool :=
  match exn_base e with
  | Exception => true
  | _ => false
  end.

Inductive PyResult (A : Type) :=
| Return (a : A)
| Raise (e : PyExn).
Arguments Return {A} a.
Arguments Raise {A} e.

(** ** The tool registry ([src/tool_registry.py]) *)

(** One call of a tool implementation: the tool's name and its keyword
    arguments. *)
Abbreviation Invocation := (string * Args)%type.

(** A tool implementation is a Python callable taking keyword arguments.
    Every implementation shells out to an external command, so what it
    returns may depend on what ran before it: its first argument is the
    sequence of implementation calls the process has made so far. *)
Definition Impl : Type := list Invocation -> Args -> PyResult JSON.

(** The value of a module attribute, as far as [callable(attr)] tells. *)
Inductive PyAttr :=
| Callable (f : Impl)
| NotCallable.

(** A module namespace: [dir(module)] lists its keys and [getattr] reads
    them. *)
Abbreviation PyModule := (gmap string PyAttr).

(** The sixteen implementation modules of package [xcode_tools]. *)
Module xcode_tools.
Record package := {
  project : PyModule;
  build : PyModule;
  testing : PyModule;
  simulator : PyModule;
  device : PyModule;
  swift : PyModule;
  git_ci : PyModule;
  diagnostics : PyModule;
  meta : PyModule;
  agentic : PyModule;
  applescript : PyModule;
  llm_config : PyModule;
  crash_reporting : PyModule;
  assets : PyModule;
  simulator_enhanced : PyModule;
  localization : PyModule
}.
End xcode_tools.

(** One entry of a tool's [parameters] list in the catalog. *)
Record Param := {
  param_name : string;
  param_type : option string;
  param_description : option string;
  param_required : option bool
}.

(** One entry of the catalog's [tools] list. *)
Record ToolDef := {
  td_name : option string;
  td_description : option string;
  td_parameters : list Param
}.

Record ToolRegistry := {
  tools : Dict ToolDef;
  implementations : gmap string Impl
}.

(** [ToolRegistry._load_tool_definitions]: entries without a name, or with
    an empty one, are dropped; a repeated name overwrites. *)
Definition _load_tool_definitions (schema_tools : list ToolDef) : Dict ToolDef :=
  foldl (fun tools tool_def =>
           match td_name tool_def with
           | Some tool_name =>
               if String.eqb tool_name "" then tools
               else dict_set tool_name tool_def tools
           | None => tools
           end) [] schema_tools.

(** The fixed order in which [_load_implementations] visits the modules. *)
Definition tool_modules (pkg : xcode_tools.package) : list PyModule :=
  [ xcode_tools.project pkg; xcode_tools.build pkg; xcode_tools.testing pkg;
    xcode_tools.simulator pkg; xcode_tools.device pkg; xcode_tools.swift pkg;
    xcode_tools.git_ci pkg; xcode_tools.diagnostics pkg; xcode_tools.meta pkg;
    xcode_tools.agentic pkg; xcode_tools.applescript pkg;
    xcode_tools.llm_config pkg; xcode_tools.crash_reporting pkg;
    xcode_tools.assets pkg; xcode_tools.simulator_enhanced pkg;
    xcode_tools.localization pkg ].

(** [not attr_name.startswith("_") and attr_name in self.tools] *)
Definition public_tool_name (tools : Dict ToolDef) (attr_name : string) : bool :=
  negb (String.prefix "_" attr_name) && dict_mem attr_name tools.

(** The body of the inner loop of [_load_implementations], for one
    attribute name of one module. *)
Definition bind_attr (tools : Dict ToolDef) (attr_name : string) (attr : PyAttr)
    (implementations : gmap string Impl) : gmap string Impl :=
  if public_tool_name tools attr_name then
    match attr with
    | Callable f => <[attr_name := f]> implementations
    | NotCallable => implementations
    end
  else implementations.

(** The inner loop: [for attr_name in dir(module)]. *)
Definition bind_module (tools : Dict ToolDef)
    (implementations : gmap string Impl) (module : PyModule) : gmap string Impl :=
  map_fold (bind_attr tools) implementations module.

(** [ToolRegistry._load_implementations]: [for module in tool_modules]. *)
Definition _load_implementations (tools : Dict ToolDef) (pkg : xcode_tools.package)
    (implementations : gmap string Impl) : gmap string Impl :=
  foldl (bind_module tools) implementations (tool_modules pkg).

(** [ToolRegistry.__init__], from the parsed catalog. *)
Definition ToolRegistry_init (schema_tools : list ToolDef) (pkg : xcode_tools.package)
    : ToolRegistry :=
  let tools := _load_tool_definitions schema_tools in
  {| tools := tools; implementations := _load_implementations tools pkg ∅ |}.

Definition get_tool_schema (reg : ToolRegistry) (tool_name : string) : option ToolDef :=
  dict_get tool_name (tools reg).

Definition get_tool_implementation (reg : ToolRegistry) (tool_name : string)
    : option Impl :=
  implementations reg !! tool_name.

Definition list_tools (reg : ToolRegistry) : list ToolDef := (tools reg).*2.

Definition register_implementation (reg : ToolRegistry) (tool_name : string)
    (func : Impl) : ToolRegistry :=
  {| tools := tools reg; implementations := <[tool_name := func]> (implementations reg) |}.

(** The dictionary [execute_tool] returns: [{"success": True, "result": r}]
    or [{"success": False, "error": msg}]. *)
Inductive ExecutionOutcome :=
| Success (result : JSON)
| Failure (error : string).

(** [ToolRegistry.execute_tool(tool_name, **kwargs)], with the call history
    threaded through: the outcome, and the history grown by the call when an
    implementation ran.  The [except Exception] around the call turns an
    exception of the implementation into a Failure; what is no [Exception]
    goes through to the caller. *)
Definition execute_tool (reg : ToolRegistry) (tool_name : string) (kwargs : Args)
    (history : list Invocation) : PyResult ExecutionOutcome * list Invocation :=
  match get_tool_implementation reg tool_name with
  | None => (Return (Failure ("Tool '" +:+ tool_name +:+ "' not implemented")), history)
  | Some impl =>
      match impl history kwargs with
      | Return result => (Return (Success result), history ++ [(tool_name, kwargs)])
      | Raise e =>
          (if is_Exception e then Return (Failure (exn_str e)) else Raise e,
           history ++ [(tool_name, kwargs)])
      end
  end.

(** What the binding pass would give under the first-match-wins rule of the
    design document: the callable of the earliest module that exports
    [tool_name] as a public callable. *)
Fixpoint first_match_binding (tools : Dict ToolDef) (modules : list PyModule)
    (tool_name : string) : option Impl :=
  match modules with
  | [] => None
  | m :: modules' =>
      match m !! tool_name with
      | Some (Callable f) =>
          if public_tool_name tools tool_name then Some f
          else first_match_binding tools modules' tool_name
      | _ => first_match_binding tools modules' tool_name
      end
  end.

(** ** The LangGraph agent ([src/langgraph_agent.py]) *)

(** An entry of [AIMessage.tool_calls], in LangChain's shape: a name, the
    arguments, and an identifier that may be missing.  With this shape the
    two fall-backs of [_tools_node] to an OpenAI-style ["function"] entry
    yield the same name and arguments (an empty name or an empty argument
    object falls back to an empty name and to [json.loads("{}")]). *)
Record ToolCall := {
  tc_name : string;
  tc_args : Args;
  tc_id : option string
}.

(** Conversation turns.  Only an [AIMessage] carries [tool_calls]. *)
Inductive Message :=
| HumanMessage (content : JSON)
| AIMessage (content : JSON) (tool_calls : list ToolCall) (function_calls : list JSON)
| ToolMessage (content : string) (tool_call_id : string).

(** The chat clients [_create_llm] constructs (temperature 0.7 throughout). *)
Inductive ChatModel :=
| ChatOllama (model : string)
| ChatOpenAI (model : string) (base_url : option string) (api_key : string).

(** What the process takes from outside the repository: the [json] module,
    the environment, the language model behind a chat client, [str] as an
    f-string applies it to a value, the formatting of a persona into a
    system prompt, the text of the error LangChain raises when a message is
    built from a content it does not accept, the keyword arguments with
    which a LangChain tool calls the function it was made from, and the
    LangGraph runtime, which stops a run that has not reached [END] after
    [recursion_limit] node executions by raising [GraphRecursionError].  The
    repository passes no run configuration, so the limit is whatever the
    runtime defaults to.

    [tool_input_kwargs]: a tool made by [@tool] validates its input against
    the argument schema it inferred from the function's signature and calls
    the function with the validated fields only.  The signature of
    [tool_wrapper] has the one parameter [**kwargs] and no named one: the
    entries of the input that name a tool parameter ([project_path],
    [scheme], ...) are not fields of that schema and are not passed on. *)
Class Platform := {
  json_dumps : JSON -> string;
  json_dumps_compact : JSON -> string;
  json_dumps_indent : JSON -> string;
  getenv : string -> option string;
  LANGGRAPH_AVAILABLE : bool;
  llm_invoke : ChatModel -> list string -> list Message -> PyResult Message;
  py_str : JSON -> string;
  persona_prompt : JSON -> PyResult string;
  message_validation_error : JSON -> string;
  tool_input_kwargs : Args -> PyResult Args;
  recursion_limit : nat;
  recursion_limit_message : string
}.

Definition ValueError (msg : string) : PyExn :=
  {| exn_base := Exception; exn_class := "ValueError"; exn_str := msg |}.
Definition ImportError (msg : string) : PyExn :=
  {| exn_base := Exception; exn_class := "ImportError"; exn_str := msg |}.
Definition TypeError (msg : string) : PyExn :=
  {| exn_base := Exception; exn_class := "TypeError"; exn_str := msg |}.
Definition IndexError (msg : string) : PyExn :=
  {| exn_base := Exception; exn_class := "IndexError"; exn_str := msg |}.
Definition RuntimeError (msg : string) : PyExn :=
  {| exn_base := Exception; exn_class := "RuntimeError"; exn_str := msg |}.
(** pydantic's [ValidationError] derives from [ValueError]. *)
Definition ValidationError (msg : string) : PyExn :=
  {| exn_base := Exception; exn_class := "ValidationError"; exn_str := msg |}.
(** [sys.exit(code)] *)
Definition SystemExit (code : Z) : PyExn :=
  {| exn_base := BaseException; exn_class := "SystemExit"; exn_str := pretty code |}.
(** LangGraph's [GraphRecursionError] derives from [RecursionError]. *)
Definition GraphRecursionError `{Platform} : PyExn :=
  {| exn_base := Exception; exn_class := "GraphRecursionError";
     exn_str := recursion_limit_message |}.

(** A LangChain tool as [make_tool] returns it.  The decorator [@tool] has
    made the tool before [make_tool] touches it: it took the tool's [name]
    from the function it decorates, which is called [tool_wrapper], and the
    [description] from that function's docstring.  The two assignments that
    follow set the attributes [__name__] and [__doc__] of the tool object;
    [name] and [description], which the model is shown and which
    [_tools_node] compares, stay as the decorator set them.  [Tool_func] is
    the implementation the closure calls. *)
Record Tool := {
  Tool_name : string;
  Tool_description : string;
  Tool_func : Impl;
  Tool__name__ : string;
  Tool__doc__ : string
}.

(** [tool.invoke(tool_args)]: the tool calls [tool_wrapper] with the keyword
    arguments it takes from its input; [tool_wrapper] calls the
    implementation with them and renders its result, unwrapping a
    ["result"] entry of a dictionary.  The implementation is the one the
    registry has under the name [make_tool] was given, and the call is
    entered in the history under that name. *)
Definition tool_invoke `{Platform} (t : Tool) (tool_args : Args)
    (history : list Invocation) : PyResult string * list Invocation :=
  match tool_input_kwargs tool_args with
  | Raise e => (Raise e, history)
  | Return kwargs =>
      (match Tool_func t history kwargs with
       | Return result =>
           Return (json_dumps_indent
                     match result with
                     | JDict d => default (JDict []) (dict_get "result" d)
                     | _ => result
                     end)
       | Raise e => Raise e
       end,
       history ++ [(Tool__name__ t, kwargs)])
  end.

Definition key_tools : list string :=
  [ "list_projects"; "check_xcode_cli"; "list_devices"; "list_schemes";
    "get_llm_status"; "build_project"; "run_tests"; "boot_simulator" ].

Definition make_tool (name : string) (func : Impl) (description : string) : Tool :=
  {| Tool_name := "tool_wrapper";
     Tool_description := "Tool wrapper for MCP tool execution.";
     Tool_func := func;
     Tool__name__ := name;
     Tool__doc__ := if String.eqb description "" then "Execute " +:+ name +:+ " tool"
                    else description |}.

(** [XcodeLangGraphAgent._create_tools] *)
Definition _create_tools (registry : ToolRegistry) : list Tool :=
  omap (fun tool_name =>
          match dict_get tool_name (tools registry) with
          | Some tool_def =>
              match get_tool_implementation registry tool_name with
              | Some tool_func =>
                  Some (make_tool tool_name tool_func
                          (default "" (td_description tool_def)))
              | None => None
              end
          | None => None
          end) key_tools.

(** [model.split(":", 1)] when the model contains a colon. *)
Fixpoint split_colon (s : string) : option (string * string) :=
  match s with
  | EmptyString => None
  | String c s' =>
      if Ascii.eqb c ":"%char then Some (EmptyString, s')
      else match split_colon s' with
           | Some (a, b) => Some (String c a, b)
           | None => None
           end
  end.

(** [XcodeLangGraphAgent._create_llm] *)
Definition _create_llm `{Platform} (model : string) : PyResult ChatModel :=
  let '(provider, model_name) := default ("ollama", model) (split_colon model) in
  if String.eqb provider "ollama" then Return (ChatOllama model_name)
  else if String.eqb provider "openai" then
    match getenv "OPENAI_API_KEY" with
    | Some api_key =>
        if String.eqb api_key "" then Raise (ValueError "OPENAI_API_KEY not set")
        else Return (ChatOpenAI model_name None api_key)
    | None => Raise (ValueError "OPENAI_API_KEY not set")
    end
  else if String.eqb provider "deepseek" then
    match getenv "DEEPSEEK_API_KEY" with
    | Some api_key =>
        if String.eqb api_key "" then Raise (ValueError "DEEPSEEK_API_KEY not set")
        else Return (ChatOpenAI model_name (Some "https://api.deepseek.com/v1") api_key)
    | None => Raise (ValueError "DEEPSEEK_API_KEY not set")
    end
  else Raise (ValueError ("Unknown provider: " +:+ provider)).

Record XcodeLangGraphAgent := {
  agent_registry : ToolRegistry;
  agent_model : string;
  agent_system_prompt : option string;
  agent_llm : ChatModel;
  agent_tools : list Tool
}.

(** [self.llm_with_tools.invoke(messages)]: the reasoning function. *)
Definition llm_with_tools `{Platform} (a : XcodeLangGraphAgent)
    (messages : list Message) : PyResult Message :=
  llm_invoke (agent_llm a) (Tool_name <$> agent_tools a) messages.

(** [XcodeLangGraphAgent.__init__], which [create_langgraph_agent] calls. *)
Definition create_langgraph_agent `{Platform} (registry : ToolRegistry)
    (model : JSON) (system_prompt : option string) : PyResult XcodeLangGraphAgent :=
  if negb LANGGRAPH_AVAILABLE then
    Raise (ImportError
             "LangGraph is not installed. Install with: pip install langgraph langchain langchain-core")
  else
    match model with
    | JStr model =>
        match _create_llm model with
        | Raise e => Raise e
        | Return llm =>
            Return {| agent_registry := registry;
                      agent_model := model;
                      agent_system_prompt := system_prompt;
                      agent_llm := llm;
                      agent_tools := _create_tools registry |}
        end
    | _ =>
        (* a model that is no string makes [_create_llm] raise; the text
           here stands for whichever message Python gives *)
        Raise (TypeError "model identifier is not a string")
    end.

(** An entry of [AgentState.tool_results]: [{"tool", "result", "success":
    True}] or [{"tool", "result": None, "error", "success": False}]. *)
Inductive ToolResult :=
| ToolSucceeded (tool : string) (result : string)
| ToolFailed (tool : string) (error : string).

Record AgentState := {
  messages : list Message;
  tool_results : list ToolResult;
  current_task : JSON;
  context : Args
}.

(** [XcodeLangGraphAgent._agent_node]: one call of the reasoning function;
    its answer goes last in [messages]. *)
Definition _agent_node `{Platform} (a : XcodeLangGraphAgent) (state : AgentState)
    : PyResult AgentState :=
  match llm_with_tools a (messages state) with
  | Raise e => Raise e
  | Return response =>
      Return {| messages := messages state ++ [response];
                tool_results := tool_results state;
                current_task := current_task state;
                context := context state |}
  end.

(** The [tool_calls] attribute as the two nodes test it: present and not
    empty. *)
Definition requested_tool_calls (m : Message) : list ToolCall :=
  match m with
  | AIMessage _ tool_calls _ => tool_calls
  | _ => []
  end.

(** What [_tools_node] mutates while it walks the requested calls: the
    message list and the result list. *)
Record ActState := {
  act_messages : list Message;
  act_tool_results : list ToolResult
}.

(** The body of [for tool_call in last_message.tool_calls]: the first tool
    whose [name] is the requested name is invoked, and the search ends
    there ([break]); a call no tool answers to passes without a trace.  The
    [except Exception] records a failure and adds no message; what is no
    [Exception] leaves the node. *)
Definition process_tool_call `{Platform} (agent_tools : list Tool) (s : ActState)
    (history : list Invocation) (tool_call : ToolCall)
    : PyResult ActState * list Invocation :=
  let tool_name := tc_name tool_call in
  let tool_args := tc_args tool_call in
  match find (fun tool => String.eqb (Tool_name tool) tool_name) agent_tools with
  | None => (Return s, history)
  | Some tool =>
      match tool_invoke tool tool_args history with
      | (Return result, history') =>
          let tool_results := act_tool_results s ++ [ToolSucceeded tool_name result] in
          let fresh := "call_" +:+ tool_name +:+ "_" +:+ pretty (length tool_results) in
          let tool_call_id :=
            match tc_id tool_call with
            | Some id => if String.eqb id "" then fresh else id
            | None => fresh
            end in
          (Return {| act_messages := act_messages s ++ [ToolMessage result tool_call_id];
                     act_tool_results := tool_results |},
           history')
      | (Raise e, history') =>
          if is_Exception e then
            (Return {| act_messages := act_messages s;
                       act_tool_results :=
                         act_tool_results s ++ [ToolFailed tool_name (exn_str e)] |},
             history')
          else (Raise e, history')
      end
  end.

(** [for tool_call in last_message.tool_calls] *)
Fixpoint process_tool_calls `{Platform} (agent_tools : list Tool) (s : ActState)
    (history : list Invocation) (tool_calls : list ToolCall)
    : PyResult ActState * list Invocation :=
  match tool_calls with
  | [] => (Return s, history)
  | tool_call :: tool_calls' =>
      match process_tool_call agent_tools s history tool_call with
      | (Return s', history') => process_tool_calls agent_tools s' history' tool_calls'
      | (Raise e, history') => (Raise e, history')
      end
  end.

(** [XcodeLangGraphAgent._tools_node] *)
Definition _tools_node `{Platform} (a : XcodeLangGraphAgent) (state : AgentState)
    (history : list Invocation) : PyResult AgentState * list Invocation :=
  match last (messages state) with
  | None => (Raise (IndexError "list index out of range"), history)
  | Some last_message =>
      match process_tool_calls (agent_tools a)
              {| act_messages := messages state;
                 act_tool_results := tool_results state |}
              history (requested_tool_calls last_message) with
      | (Return s, history') =>
          (Return {| messages := act_messages s;
                     tool_results := act_tool_results s;
                     current_task := current_task state;
                     context := context state |},
           history')
      | (Raise e, history') => (Raise e, history')
      end
  end.

Inductive Route := route_continue | route_end.

(** [XcodeLangGraphAgent._should_continue] *)
Definition _should_continue (state : AgentState) : Route :=
  match last (messages state) with
  | None => route_end
  | Some (AIMessage _ (_ :: _) _) => route_continue
  | Some (AIMessage _ [] (_ :: _)) => route_continue
  | Some _ => route_end
  end.

(** The graph of [_create_graph]: entry point [agent]; from [agent] the
    conditional edge of [_should_continue] to [tools] or to [END]; from
    [tools] back to [agent]. *)
Inductive Node := node_agent | node_tools.

Inductive Step :=
| Goto (node : Node) (state : AgentState) (history : list Invocation)
| Finished (state : AgentState) (history : list Invocation)
| Raised (e : PyExn) (history : list Invocation).

(** One node execution followed by its outgoing edge. *)
Definition graph_step `{Platform} (a : XcodeLangGraphAgent) (node : Node)
    (state : AgentState) (history : list Invocation) : Step :=
  match node with
  | node_agent =>
      match _agent_node a state with
      | Raise e => Raised e history
      | Return state' =>
          match _should_continue state' with
          | route_continue => Goto node_tools state' history
          | route_end => Finished state' history
          end
      end
  | node_tools =>
      match _tools_node a state history with
      | (Raise e, history') => Raised e history'
      | (Return state', history') => Goto node_agent state' history'
      end
  end.

(** The graph followed for at most [n] node executions: still at a [Goto]
    when [END] has not been reached by then. *)
Fixpoint graph_steps `{Platform} (n : nat) (a : XcodeLangGraphAgent) (node : Node)
    (state : AgentState) (history : list Invocation) : Step :=
  match n with
  | O => Goto node state history
  | S n' =>
      match graph_step a node state history with
      | Goto node' state' history' => graph_steps n' a node' state' history'
      | done => done
      end
  end.

(** [self.graph.ainvoke(initial_state)] under the runtime's step limit. *)
Definition graph_invoke `{Platform} (a : XcodeLangGraphAgent) (state : AgentState)
    (history : list Invocation) : PyResult AgentState * list Invocation :=
  match graph_steps recursion_limit a node_agent state history with
  | Finished state' history' => (Return state', history')
  | Raised e history' => (Raise e, history')
  | Goto _ _ history' => (Raise GraphRecursionError, history')
  end.

(** The contents LangChain accepts for a message: a string, or a list of
    strings and dictionaries. *)
Definition valid_message_content (c : JSON) : bool :=
  match c with
  | JStr _ => true
  | JList l =>
      forallb (fun x => match x with JStr _ | JDict _ => true | _ => false end) l
  | _ => false
  end.

(** [XcodeLangGraphAgent.run_sync] where no event loop is running:
    [asyncio.run] takes the coroutine of [run] to its end.  The initial
    state is built around [HumanMessage(content=prompt)] and handed to the
    graph. *)
Definition run_sync `{Platform} (a : XcodeLangGraphAgent) (prompt : JSON)
    (history : list Invocation) : PyResult AgentState * list Invocation :=
  if valid_message_content prompt then
    graph_invoke a
      {| messages := [HumanMessage prompt];
         tool_results := [];
         current_task := prompt;
         context := [] |}
      history
  else (Raise (ValidationError (message_validation_error prompt)), history).

(** ** The unified MCP server ([src/unified_mcp_server.py]) *)

(** A JSON-RPC response as [send_response] writes it: the [id] entry when
    the request had one, and either a [result] or an [error]. *)
Record RpcError := {
  code : Z;
  message : string
}.

Inductive Payload :=
| ResultOf (result : JSON)
| ErrorOf (error : RpcError).

Record Response := {
  response_id : option JSON;
  payload : Payload
}.

(** The server object together with the part of the process it acts on: the
    module-level agent singleton, the clock behind [time.time()] (the
    readings it will give, and how many were taken), the responses written
    so far, the implementation calls made so far, and whether the code runs
    inside a coroutine of a running [asyncio] event loop, as the handlers
    of the FastAPI application do and the stdio loop does not.  Clock
    readings are what [time.time()] returns: binary64 floating-point
    numbers, in seconds. *)
Record UnifiedMCPServer := {
  registry : ToolRegistry;
  initialized : bool;
  langgraph_enabled : bool;
  _tool_cache : gmap string (float * JSON);
  _response_cache : gmap string (float * JSON);
  _langgraph_agent : option XcodeLangGraphAgent;
  clock : nat -> float;
  ticks : nat;
  stdout : list Response;
  history : list Invocation;
  event_loop_running : bool
}.

(** [self._cache_ttl = 300]: five minutes. *)
Definition _cache_ttl : float := 300%float.

(** [now - cached_time < self._cache_ttl], in floating-point arithmetic. *)
Definition cache_entry_is_fresh (now cached_time : float) : bool :=
  PrimFloat.ltb (PrimFloat.sub now cached_time) _cache_ttl.

Definition set_initialized (b : bool) (s : UnifiedMCPServer) : UnifiedMCPServer :=
  {| registry := registry s; initialized := b;
     langgraph_enabled := langgraph_enabled s;
     _tool_cache := _tool_cache s; _response_cache := _response_cache s;
     _langgraph_agent := _langgraph_agent s;
     clock := clock s; ticks := ticks s; stdout := stdout s; history := history s;
     event_loop_running := event_loop_running s |}.

Definition set_tool_cache (c : gmap string (float * JSON)) (s : UnifiedMCPServer)
    : UnifiedMCPServer :=
  {| registry := registry s; initialized := initialized s;
     langgraph_enabled := langgraph_enabled s;
     _tool_cache := c; _response_cache := _response_cache s;
     _langgraph_agent := _langgraph_agent s;
     clock := clock s; ticks := ticks s; stdout := stdout s; history := history s;
     event_loop_running := event_loop_running s |}.

Definition set_response_cache (c : gmap string (float * JSON)) (s : UnifiedMCPServer)
    : UnifiedMCPServer :=
  {| registry := registry s; initialized := initialized s;
     langgraph_enabled := langgraph_enabled s;
     _tool_cache := _tool_cache s; _response_cache := c;
     _langgraph_agent := _langgraph_agent s;
     clock := clock s; ticks := ticks s; stdout := stdout s; history := history s;
     event_loop_running := event_loop_running s |}.

Definition set_langgraph_agent (a : option XcodeLangGraphAgent) (s : UnifiedMCPServer)
    : UnifiedMCPServer :=
  {| registry := registry s; initialized := initialized s;
     langgraph_enabled := langgraph_enabled s;
     _tool_cache := _tool_cache s; _response_cache := _response_cache s;
     _langgraph_agent := a;
     clock := clock s; ticks := ticks s; stdout := stdout s; history := history s;
     event_loop_running := event_loop_running s |}.

Definition set_ticks (n : nat) (s : UnifiedMCPServer) : UnifiedMCPServer :=
  {| registry := registry s; initialized := initialized s;
     langgraph_enabled := langgraph_enabled s;
     _tool_cache := _tool_cache s; _response_cache := _response_cache s;
     _langgraph_agent := _langgraph_agent s;
     clock := clock s; ticks := n; stdout := stdout s; history := history s;
     event_loop_running := event_loop_running s |}.

Definition set_stdout (out : list Response) (s : UnifiedMCPServer) : UnifiedMCPServer :=
  {| registry := registry s; initialized := initialized s;
     langgraph_enabled := langgraph_enabled s;
     _tool_cache := _tool_cache s; _response_cache := _response_cache s;
     _langgraph_agent := _langgraph_agent s;
     clock := clock s; ticks := ticks s; stdout := out; history := history s;
     event_loop_running := event_loop_running s |}.

Definition set_history (h : list Invocation) (s : UnifiedMCPServer) : UnifiedMCPServer :=
  {| registry := registry s; initialized := initialized s;
     langgraph_enabled := langgraph_enabled s;
     _tool_cache := _tool_cache s; _response_cache := _response_cache s;
     _langgraph_agent := _langgraph_agent s;
     clock := clock s; ticks := ticks s; stdout := stdout s; history := h;
     event_loop_running := event_loop_running s |}.

Definition set_event_loop_running (b : bool) (s : UnifiedMCPServer) : UnifiedMCPServer :=
  {| registry := registry s; initialized := initialized s;
     langgraph_enabled := langgraph_enabled s;
     _tool_cache := _tool_cache s; _response_cache := _response_cache s;
     _langgraph_agent := _langgraph_agent s;
     clock := clock s; ticks := ticks s; stdout := stdout s; history := history s;
     event_loop_running := b |}.

(** Server code runs in a state-and-exception monad over that record. *)
Definition M (A : Type) : Type := UnifiedMCPServer -> PyResult A * UnifiedMCPServer.

Definition ret {A} (a : A) : M A := fun s => (Return a, s).

Definition bind {A B} (m : M A) (k : A -> M B) : M B :=
  fun s => match m s with
           | (Return a, s') => k a s'
           | (Raise e, s') => (Raise e, s')
           end.

Definition raise {A} (e : PyExn) : M A := fun s => (Raise e, s).

(** [try: body except Exception as e: handler(e)]: an exception that is
    no [Exception] is not caught. *)
Definition try_except {A} (body : M A) (handler : PyExn -> M A) : M A :=
  fun s => match body s with
           | (Return a, s') => (Return a, s')
           | (Raise e, s') => if is_Exception e then handler e s' else (Raise e, s')
           end.

Definition get {A} (f : UnifiedMCPServer -> A) : M A := fun s => (Return (f s), s).

Definition modify (f : UnifiedMCPServer -> UnifiedMCPServer) : M unit :=
  fun s => (Return tt, f s).

Notation "'do' x <- m ; k" := (bind m (fun x => k))
  (at level 10, x name, m at level 99, k at level 200).
Notation "m ;; k" := (bind m (fun _ => k))
  (at level 100, k at level 200, right associativity).

(** [time.time()] *)
Definition time_time : M float :=
  fun s => (Return (clock s (ticks s)), set_ticks (S (ticks s)) s).

(** [UnifiedMCPServer.send_response(id, result, error)].  An error object is
    never empty, so [if error] holds whenever one is given. *)
Definition send_response (id : option JSON) (result : JSON) (error : option RpcError)
    : M unit :=
  modify (fun s =>
    set_stdout (stdout s ++ [ {| response_id := id;
                                 payload := match error with
                                            | Some e => ErrorOf e
                                            | None => ResultOf result
                                            end |} ]) s).

Definition send_result (id : option JSON) (result : JSON) : M unit :=
  send_response id result None.

Definition send_error (id : option JSON) (code : Z) (message : string) : M unit :=
  send_response id JNull (Some {| code := code; message := message |}).

(** [UnifiedMCPServer.handle_initialize] *)
Definition handle_initialize (request_id : option JSON) : M unit :=
  modify (set_initialized true) ;;
  do enabled <- get langgraph_enabled ;
  do reg <- get registry ;
  let capabilities :=
    [("tools", JDict [("listChanged", JBool false)])] ++
    (if enabled
     then [("experimental", JDict [("subagentic", JBool true); ("workflows", JBool true)])]
     else []) in
  send_result request_id
    (JDict
       [ ("protocolVersion", JStr "2024-11-05");
         ("capabilities", JDict capabilities);
         ("serverInfo",
          JDict
            [ ("name", JStr "xcode-mcp-unified");
              ("version", JStr "2.0.0");
              ("features",
               JDict
                 [ ("direct_tools", JInt (Z.of_nat (length (tools reg))));
                   ("langgraph_enabled", JBool enabled);
                   ("subagentic_tools", JInt (if enabled then 3 else 0)) ]) ]) ]).

Definition JStrs (l : list string) : JSON := JList (JStr <$> l).

(** The property definition [_get_tool_schema_enhanced] builds for one
    parameter. *)
Definition prop_def (param : Param) : JSON :=
  let param_name := param_name param in
  JDict
    ([ ("type", JStr (default "string" (param_type param)));
       ("description",
        JStr (default (param_name +:+ " parameter") (param_description param))) ] ++
     (if String.eqb param_name "project_path"
      then [("examples", JStrs ["/path/to/MyApp.xcodeproj"; "./MyApp.xcodeproj"])]
      else if String.eqb param_name "scheme"
      then [("examples", JStrs ["MyApp"; "MyAppTests"])]
      else if String.eqb param_name "device_name"
      then [("examples", JStrs ["iPhone 15 Pro"; "iPad Pro"])]
      else if String.eqb param_name "bundle_id"
      then [("examples", JStrs ["com.example.MyApp"])]
      else if String.eqb param_name "configuration"
      then [("enum", JStrs ["Debug"; "Release"])]
      else [])).

(** The schema [_get_tool_schema_enhanced] renders when it has no live
    cached one. *)
Definition render_tool_schema (tool_def : ToolDef) : JSON :=
  let params := td_parameters tool_def in
  let properties :=
    foldl (fun props param => dict_set (param_name param) (prop_def param) props)
      [] params in
  let required :=
    param_name <$> filter (fun param => default true (param_required param) = true) params in
  JDict
    [ ("name", match td_name tool_def with Some n => JStr n | None => JNull end);
      ("description", JStr (default "" (td_description tool_def)));
      ("inputSchema",
       JDict ([ ("type", JStr "object"); ("properties", JDict properties) ] ++
              match required with
              | [] => []
              | _ => [("required", JStrs required)]
              end)) ].

(** [UnifiedMCPServer._get_tool_schema_enhanced] *)
Definition _get_tool_schema_enhanced (tool_def : ToolDef) : M JSON :=
  let cache_key := "schema_" +:+ default "None" (td_name tool_def) in
  let render :=
    let tool_schema := render_tool_schema tool_def in
    do now <- time_time ;
    modify (fun s => set_tool_cache (<[cache_key := (now, tool_schema)]> (_tool_cache s)) s) ;;
    ret tool_schema in
  do cache <- get _tool_cache ;
  match cache !! cache_key with
  | Some (cached_time, cached_schema) =>
      do now <- time_time ;
      if cache_entry_is_fresh now cached_time then ret cached_schema else render
  | None => render
  end.

(** [for x in xs: acc.append(f(x))] *)
Fixpoint mapM {A B} (f : A -> M B) (xs : list A) : M (list B) :=
  match xs with
  | [] => ret []
  | x :: xs' => do y <- f x ; do ys <- mapM f xs' ; ret (y :: ys)
  end.

(** The three orchestration tools [handle_tools_list] adds to the listing. *)
Definition langgraph_tool_schemas : list JSON :=
  [ JDict
      [ ("name", JStr "langgraph_agent");
        ("description",
         JStr "LangGraph subagentic agent for complex Xcode development workflows. Handles multi-step tasks, reasoning, and tool orchestration with state management.");
        ("inputSchema",
         JDict
           [ ("type", JStr "object");
             ("properties",
              JDict
                [ ("prompt",
                   JDict
                     [ ("type", JStr "string");
                       ("description",
                        JStr "Natural language prompt describing the task or question. Be specific about what you want to accomplish.");
                       ("minLength", JInt 10);
                       ("maxLength", JInt 2000);
                       ("examples",
                        JStrs
                          [ "List all Xcode projects and check if Xcode CLI is installed";
                            "Set up my development environment: verify Xcode CLI, list projects, check simulators" ]) ]);
                  ("model",
                   JDict
                     [ ("type", JStr "string");
                       ("description",
                        JStr "Optional model override. Format: 'provider:model' (e.g., 'ollama:qwen3-coder:30b', 'deepseek:deepseek-coder')");
                       ("default", JStr "ollama:qwen3-coder:30b");
                       ("examples",
                        JStrs [ "ollama:qwen3-coder:30b"; "deepseek:deepseek-coder"; "openai:gpt-4" ]) ]);
                  ("persona",
                   JDict
                     [ ("type", JStr "object");
                       ("description",
                        JStr "Optional persona configuration (see persona_schemas.json)");
                       ("properties",
                        JDict
                          [ ("id", JDict [("type", JStr "string")]);
                            ("role", JDict [("type", JStr "string")]);
                            ("expertise",
                             JDict [ ("type", JStr "array");
                                     ("items", JDict [("type", JStr "string")]) ]) ]) ]) ]);
             ("required", JStrs ["prompt"]) ]) ];
    JDict
      [ ("name", JStr "langgraph_workflow");
        ("description",
         JStr "Execute a multi-step Xcode workflow using LangGraph state machine. Automatically orchestrates multiple tools in sequence.");
        ("inputSchema",
         JDict
           [ ("type", JStr "object");
             ("properties",
              JDict
                [ ("workflow",
                   JDict
                     [ ("type", JStr "string");
                       ("description",
                        JStr "Workflow description. List steps clearly (e.g., '1. Clean build, 2. Build project, 3. Run tests, 4. Generate report')");
                       ("minLength", JInt 10);
                       ("maxLength", JInt 1000);
                       ("examples",
                        JStrs
                          [ "Build project, run tests, generate report";
                            "1. Clean build 2. Build MyApp scheme 3. Run all tests 4. Generate coverage report" ]) ]);
                  ("context",
                   JDict
                     [ ("type", JStr "object");
                       ("description",
                        JStr "Additional context for the workflow (project paths, scheme names, etc.)");
                       ("additionalProperties", JBool true);
                       ("examples",
                        JList
                          [ JDict [ ("project_path", JStr "/path/to/project.xcodeproj");
                                    ("scheme", JStr "MyApp") ];
                            JDict [ ("workspace_path", JStr "/path/to/workspace.xcworkspace") ] ]) ]);
                  ("persona",
                   JDict
                     [ ("type", JStr "object");
                       ("description", JStr "Optional persona configuration") ]) ]);
             ("required", JStrs ["workflow"]) ]) ];
    JDict
      [ ("name", JStr "langgraph_status");
        ("description",
         JStr "Get status of LangGraph agent, available workflows, and system capabilities");
        ("inputSchema",
         JDict [ ("type", JStr "object"); ("properties", JDict []) ]) ] ].

(** [UnifiedMCPServer.handle_tools_list] *)
Definition handle_tools_list (request_id : option JSON) : M unit :=
  do reg <- get registry ;
  do schemas <- mapM _get_tool_schema_enhanced (list_tools reg) ;
  do enabled <- get langgraph_enabled ;
  send_result request_id
    (JDict [("tools", JList (schemas ++ if enabled then langgraph_tool_schemas else []))]).

(** The [params] object of a [tools/call] request. *)
Record Params := {
  params_name : option string;
  params_arguments : option Args
}.

(** Passing [**arguments] to [execute_tool(self, tool_name, **kwargs)]: the
    call itself raises [TypeError] when an argument is named like one of the
    two parameters already given by position (message as of Python 3.10). *)
Definition bind_kwargs (arguments : Args) : PyResult Args :=
  match find (fun kv => String.eqb kv.1 "self" || String.eqb kv.1 "tool_name") arguments with
  | Some kv =>
      Raise (TypeError ("ToolRegistry.execute_tool() got multiple values for argument '"
                        +:+ kv.1 +:+ "'"))
  | None => Return arguments
  end.

(** [self.registry.execute_tool(tool_name, **arguments)] *)
Definition call_execute_tool (tool_name : string) (arguments : Args)
    : M ExecutionOutcome :=
  match bind_kwargs arguments with
  | Raise e => raise e
  | Return kwargs =>
      fun s =>
        let '(outcome, h) := execute_tool (registry s) tool_name kwargs (history s) in
        (outcome, set_history h s)
  end.

(** [f"tool_{tool_name}_{json.dumps(arguments, sort_keys=True)}"] *)
Definition response_cache_key `{Platform} (tool_name : string) (arguments : Args)
    : string :=
  "tool_" +:+ tool_name +:+ "_" +:+ json_dumps (JDict (canonical_args arguments)).

Definition lift {A} (r : PyResult A) : M A := fun s => (r, s).

(** [_get_langgraph_agent(model)]: the lazily created module-level agent.
    The flag it tests is the one [_check_langgraph] set when the server was
    constructed, kept here as [langgraph_enabled]. *)
Definition _get_langgraph_agent `{Platform} (model : JSON)
    : M (option XcodeLangGraphAgent) :=
  do available <- get langgraph_enabled ;
  do current <- get _langgraph_agent ;
  match current with
  | Some a => ret (Some a)
  | None =>
      if available then
        try_except
          (do reg <- get registry ;
           do a <- lift (create_langgraph_agent reg model None) ;
           modify (set_langgraph_agent (Some a)) ;;
           ret (Some a))
          (fun _ => ret None)
      else ret None
  end.

(** [asyncio.run(coroutine)]: called from a coroutine of a running event
    loop it raises at once, and the coroutine it was given is never run. *)
Definition asyncio_run {A} (coroutine : M A) : M A :=
  fun s =>
    if event_loop_running s then
      (Raise (RuntimeError "asyncio.run() cannot be called from a running event loop"), s)
    else coroutine s.

(** [agent.run_sync(prompt)] as the dispatcher calls it, on the process's
    call history. *)
Definition agent_run_sync `{Platform} (a : XcodeLangGraphAgent) (prompt : JSON)
    : M AgentState :=
  asyncio_run
    (fun s => let '(r, h) := run_sync a prompt (history s) in (r, set_history h s)).

Definition message_content (m : Message) : JSON :=
  match m with
  | HumanMessage c => c
  | AIMessage c _ _ => c
  | ToolMessage c _ => JStr c
  end.

Definition message_class (m : Message) : string :=
  match m with
  | HumanMessage _ => "HumanMessage"
  | AIMessage _ _ _ => "AIMessage"
  | ToolMessage _ _ => "ToolMessage"
  end.

Definition tool_result_json (r : ToolResult) : JSON :=
  match r with
  | ToolSucceeded tool result =>
      JDict [("tool", JStr tool); ("result", JStr result); ("success", JBool true)]
  | ToolFailed tool error =>
      JDict [("tool", JStr tool); ("result", JNull); ("error", JStr error);
             ("success", JBool false)]
  end.

Definition tool_result_success (r : ToolResult) : bool :=
  match r with ToolSucceeded _ _ => true | ToolFailed _ _ => false end.

Definition text_content (text : string) : JSON :=
  JDict [("content", JList [JDict [("type", JStr "text"); ("text", JStr text)]])].

(** The agent a [langgraph_agent] or [langgraph_workflow] call runs: a fresh
    one under a persona, the shared one otherwise. *)
Definition agent_for `{Platform} (model persona_config : JSON)
    : M XcodeLangGraphAgent :=
  do agent <-
    (if truthy persona_config then
       do system_prompt <- lift (persona_prompt persona_config) ;
       do reg <- get registry ;
       do a <- lift (create_langgraph_agent reg model (Some system_prompt)) ;
       ret (Some a)
     else _get_langgraph_agent model) ;
  match agent with
  | Some a => ret a
  | None => raise (ValueError "LangGraph agent could not be created")
  end.

(** [json.dumps] of the final state inside the workflow answer: a message
    object is not serializable, so it raises as soon as there is one. *)
Definition dump_workflow_answer `{Platform} (workflow : JSON) (result : AgentState)
    : PyResult string :=
  match messages result with
  | m :: _ =>
      Raise (TypeError ("Object of type " +:+ message_class m +:+ " is not JSON serializable"))
  | [] =>
      Return
        (json_dumps_compact
           (JDict
              [ ("workflow", workflow);
                ("result",
                 JDict [ ("messages", JList []);
                         ("tool_results", JList (tool_result_json <$> tool_results result));
                         ("current_task", current_task result);
                         ("context", JDict (context result)) ]);
                ("steps_executed", JInt (Z.of_nat (length (tool_results result))));
                ("success", JBool (forallb tool_result_success (tool_results result))) ]))
  end.

(** [UnifiedMCPServer._handle_langgraph_tool] *)
Definition _handle_langgraph_tool `{Platform} (tool_name : string) (arguments : Args)
    (request_id : option JSON) : M unit :=
  try_except
    (if String.eqb tool_name "langgraph_agent" then
       let prompt := default JNull (dict_get "prompt" arguments) in
       if negb (truthy prompt) then raise (ValueError "prompt is required")
       else
         let model := default (JStr "ollama:qwen3-coder:30b") (dict_get "model" arguments) in
         let persona_config := default JNull (dict_get "persona" arguments) in
         do agent <- agent_for model persona_config ;
         do result <- agent_run_sync agent prompt ;
         let response_text :=
           match last (messages result) with
           | Some final_message => message_content final_message
           | None => JStr ""
           end in
         send_result request_id
           (text_content
              (json_dumps_compact
                 (JDict
                    [ ("response", response_text);
                      ("tool_results", JList (tool_result_json <$> tool_results result));
                      ("messages_count", JInt (Z.of_nat (length (messages result))));
                      ("steps_executed", JInt (Z.of_nat (length (tool_results result)))) ])))
     else if String.eqb tool_name "langgraph_workflow" then
       let workflow := default JNull (dict_get "workflow" arguments) in
       if negb (truthy workflow) then raise (ValueError "workflow is required")
       else
         let context := default (JDict []) (dict_get "context" arguments) in
         let persona_config := default JNull (dict_get "persona" arguments) in
         do agent <- agent_for (JStr "ollama:qwen3-coder:30b") persona_config ;
         let workflow_prompt :=
           "Execute this Xcode development workflow:
" +:+ py_str workflow +:+ "

Context: " +:+ json_dumps_compact context +:+ "

Break this down into steps and execute them using the available tools. Provide clear progress updates." in
         do result <- agent_run_sync agent (JStr workflow_prompt) ;
         do text <- lift (dump_workflow_answer workflow result) ;
         send_result request_id (text_content text)
     else if String.eqb tool_name "langgraph_status" then
       do agent <- _get_langgraph_agent (JStr "ollama:qwen3-coder:30b") ;
       do reg <- get registry ;
       do enabled <- get langgraph_enabled ;
       send_result request_id
         (text_content
            (json_dumps_compact
               (JDict
                  [ ("agent_type", JStr "LangGraph");
                    ("model",
                     JStr match agent with
                          | Some a => agent_model a
                          | None => "not_initialized"
                          end);
                    ("available_tools", JInt (Z.of_nat (length (tools reg))));
                    ("langgraph_tools",
                     JInt match agent with
                          | Some a => Z.of_nat (length (agent_tools a))
                          | None => 0
                          end);
                    ("graph_compiled",
                     JBool match agent with Some _ => true | None => false end);
                    ("capabilities",
                     JStrs [ "Multi-step task execution"; "State management";
                             "Tool orchestration"; "Reasoning and planning" ]);
                    ("langgraph_enabled", JBool enabled) ])))
     else send_error request_id (-32601) ("Unknown LangGraph tool: " +:+ tool_name))
    (fun e => send_error request_id (-32000) ("Tool execution failed: " +:+ exn_str e)).

(** The direct-tool part of [handle_tools_call], from [# Execute tool] on. *)
Definition execute_and_respond `{Platform} (tool_name : string) (arguments : Args)
    (cache_key : string) (request_id : option JSON) : M unit :=
  do result <- call_execute_tool tool_name arguments ;
  match result with
  | Failure error => send_error request_id (-32000) error
  | Success result =>
      let response := text_content (json_dumps_compact result) in
      do now <- time_time ;
      modify (fun s =>
                set_response_cache (<[cache_key := (now, response)]> (_response_cache s)) s) ;;
      send_result request_id response
  end.

(** [UnifiedMCPServer.handle_tools_call] *)
Definition handle_tools_call `{Platform} (params : Params) (request_id : option JSON)
    : M unit :=
  let tool_name := default "" (params_name params) in
  let arguments := default [] (params_arguments params) in
  if String.eqb tool_name "" then
    send_error request_id (-32602) "Invalid params: tool name required"
  else if String.prefix "langgraph_" tool_name then
    do enabled <- get langgraph_enabled ;
    if negb enabled then
      send_error request_id (-32001)
        "LangGraph not available. Install with: pip install langgraph langchain"
    else _handle_langgraph_tool tool_name arguments request_id
  else
    let cache_key := response_cache_key tool_name arguments in
    do cache <- get _response_cache ;
    match cache !! cache_key with
    | Some (cached_time, cached_result) =>
        do now <- time_time ;
        if cache_entry_is_fresh now cached_time
        then send_result request_id cached_result
        else execute_and_respond tool_name arguments cache_key request_id
    | None => execute_and_respond tool_name arguments cache_key request_id
    end.

(** A JSON-RPC request as [handle_request] reads it. *)
Record Request := {
  req_method : option string;
  req_params : option Params;
  req_id : option JSON
}.

(** [method == name], for a method that may be missing. *)
Definition is_method (method : option string) (name : string) : bool :=
  match method with
  | Some m => String.eqb m name
  | None => false
  end.

(** [UnifiedMCPServer.handle_request] *)
Definition handle_request `{Platform} (request : Request) : M unit :=
  let method := req_method request in
  let params := default {| params_name := None; params_arguments := None |}
                  (req_params request) in
  let request_id := req_id request in
  if is_method method "initialize" then handle_initialize request_id
  else if is_method method "tools/list" then
    do ready <- get initialized ;
    if negb ready then send_error request_id (-32002) "Server not initialized"
    else handle_tools_list request_id
  else if is_method method "tools/call" then
    do ready <- get initialized ;
    if negb ready then send_error request_id (-32002) "Server not initialized"
    else handle_tools_call params request_id
  else if is_method method "notifications/initialized" then ret tt
  else send_error request_id (-32601) ("Method not found: " +:+ default "None" method).

(** A line of standard input as the loop of [run] meets it. *)
Inductive Line :=
| Blank
| Malformed (why : string)
| Parsed (request : Request).

(** The body of [for line in sys.stdin] in [UnifiedMCPServer.run]: the
    request is handled under [except Exception]. *)
Definition run_line `{Platform} (line : Line) : M unit :=
  match line with
  | Blank => ret tt
  | Malformed why => send_error None (-32700) ("Parse error: " +:+ why)
  | Parsed request =>
      try_except (handle_request request)
        (fun e => send_error None (-32603) ("Internal error: " +:+ exn_str e))
  end.

(** [for line in sys.stdin] over the lines of one session: an exception
    that leaves the body ends the loop. *)
Fixpoint run_loop `{Platform} (lines : list Line) : M unit :=
  match lines with
  | [] => ret tt
  | line :: lines' => run_line line ;; run_loop lines'
  end.

(** [UnifiedMCPServer.run]: the loop sits inside
    [except KeyboardInterrupt: pass] and an [except Exception] that ends in
    [sys.exit(1)]; any other exception leaves [run] as it is. *)
Definition run `{Platform} (lines : list Line) : M unit :=
  fun s =>
    match run_loop lines s with
    | (Return _, s') => (Return tt, s')
    | (Raise e, s') =>
        match exn_base e with
        | KeyboardInterrupt => (Return tt, s')
        | Exception => (Raise (SystemExit 1), s')
        | BaseException => (Raise e, s')
        end
    end.

(** [UnifiedMCPServer.__init__] in a fresh process, outside any event
    loop. *)
Definition UnifiedMCPServer_init (reg : ToolRegistry) (langgraph : bool)
    (clock : nat -> float) : UnifiedMCPServer :=
  {| registry := reg; initialized := false; langgraph_enabled := langgraph;
     _tool_cache := ∅; _response_cache := ∅; _langgraph_agent := None;
     clock := clock; ticks := 0; stdout := []; history := [];
     event_loop_running := false |}.

(** ** The API-key gate ([src/mcp_http_server.py]) *)

(** [str.lower()] on the ASCII letters, which is all that matters for the
    comparison with ["true"]. *)
Definition ascii_lower (c : ascii) : ascii :=
  let n := nat_of_ascii c in
  if (65 <=? n)%nat && (n <=? 90)%nat then ascii_of_nat (n + 32) else c.

Fixpoint str_lower (s : string) : string :=
  match s with
  | EmptyString => EmptyString
  | String c s' => String (ascii_lower c) (str_lower s')
  end.

(** The module-level configuration: [API_KEY] and [REQUIRE_AUTH]. *)
Record AuthConfig := {
  API_KEY : string;
  REQUIRE_AUTH : bool
}.

(** The configuration as the module reads it from the environment. *)
Definition load_auth_config (getenv : string -> option string) : AuthConfig :=
  {| API_KEY := default "" (getenv "MCP_API_KEY");
     REQUIRE_AUTH :=
       String.eqb (str_lower (default "false" (getenv "MCP_REQUIRE_AUTH"))) "true" |}.

(** A request passes, or is turned away with an HTTP status (or a WebSocket
    close code) and a reason. *)
Inductive Access :=
| Allowed
| Rejected (status : Z) (detail : string).

(** [verify_api_key], the dependency of [POST /mcp]. *)
Definition verify_api_key (cfg : AuthConfig) (x_api_key : option string) : Access :=
  if negb (REQUIRE_AUTH cfg) then Allowed
  else if String.eqb (API_KEY cfg) "" then Allowed
  else
    match x_api_key with
    | None => Rejected 401 "API key required"
    | Some key =>
        if String.eqb key "" then Rejected 401 "API key required"
        else if negb (String.eqb key (API_KEY cfg)) then Rejected 403 "Invalid API key"
        else Allowed
    end.

(** The check at the head of [websocket_endpoint], on the [api_key] query
    parameter. *)
Definition websocket_auth (cfg : AuthConfig) (api_key : option string) : Access :=
  if REQUIRE_AUTH cfg && negb (String.eqb (API_KEY cfg) "") then
    match api_key with
    | Some key =>
        if String.eqb key (API_KEY cfg) then Allowed
        else Rejected 1008 "Invalid API key"
    | None => Rejected 1008 "Invalid API key"
    end
  else Allowed.

(** The routes of the FastAPI application. *)
Inductive Endpoint :=
| GET_root
| GET_health
| GET_tools
| POST_mcp
| WS_ws.

(** Whether a request reaches its handler: only [/mcp] depends on
    [verify_api_key], only [/ws] checks the query parameter. *)
Definition authorize (cfg : AuthConfig) (endpoint : Endpoint) (presented : option string)
    : Access :=
  match endpoint with
  | POST_mcp => verify_api_key cfg presented
  | WS_ws => websocket_auth cfg presented
  | _ => Allowed
  end.

(** ** Vocabulary of the statements *)

(** A reasoning function that asks for at least one tool call whenever it
    is consulted. *)
Definition keeps_calling `{Platform} (a : XcodeLangGraphAgent) : Prop :=
  forall messages, exists content tool_call tool_calls function_calls,
    llm_with_tools a messages =
      Return (AIMessage content (tool_call :: tool_calls) function_calls).

(** The result [handle_tools_call] would serve from its cache for
    [cache_key] if asked now: the entry under the key, when it is younger
    than the TTL at the next clock reading. *)
Definition live_entry (s : UnifiedMCPServer) (cache_key : string) : option JSON :=
  match _response_cache s !! cache_key with
  | Some (cached_time, cached_result) =>
      if cache_entry_is_fresh (clock s (ticks s)) cached_time
      then Some cached_result else None
  | None => None
  end.

(** A computation leaves a component of the server as it found it. *)
Definition preserves {A B} (f : UnifiedMCPServer -> A) (m : M B) : Prop :=
  forall s, f (m s).2 = f s.

(** A component that the bookkeeping of a request (clock readings, written
    responses, call history, the agent singleton, the schema cache) does
    not touch. *)
Record stable {A} (f : UnifiedMCPServer -> A) : Prop := {
  stable_ticks : forall n s, f (set_ticks n s) = f s;
  stable_stdout : forall out s, f (set_stdout out s) = f s;
  stable_history : forall h s, f (set_history h s) = f s;
  stable_agent : forall a s, f (set_langgraph_agent a s) = f s;
  stable_tool_cache : forall c s, f (set_tool_cache c s) = f s
}.

(** The error response of a request. *)
Definition error_response (id : option JSON) (code : Z) (message : string) : Response :=
  {| response_id := id; payload := ErrorOf {| code := code; message := message |} |}.

Definition result_response (id : option JSON) (result : JSON) : Response :=
  {| response_id := id; payload := ResultOf result |}.


(** ** Vocabulary of the statements on the registry and the agent *)

(** The requested call is one some tool answers to: its name is the [name]
    of one of the agent's tools. *)
Definition names_wrapped_tool (agent_tools : list Tool) (tool_call : ToolCall) : bool :=
  bool_decide (tc_name tool_call ∈ Tool_name <$> agent_tools).

(** The requested call goes by the one name the tools made by [make_tool]
    answer to. *)
Definition names_tool_wrapper (tool_call : ToolCall) : bool :=
  String.eqb (tc_name tool_call) "tool_wrapper".

(** Nothing the tools are invoked with makes them raise what [except
    Exception] does not catch: neither the tool when it reads its input nor
    the implementation it calls. *)
Definition tools_raise_Exceptions_only `{Platform} (agent_tools : list Tool) : Prop :=
  (forall tool_args e, tool_input_kwargs tool_args = Raise e -> is_Exception e = true) /\
  Forall (fun tool => forall history kwargs e,
            Tool_func tool history kwargs = Raise e -> is_Exception e = true)
    agent_tools.

(** The implementation call a requested tool call leads to: the call of
    the implementation behind the first tool that answers to the requested
    name, with the keyword arguments the tool takes from the requested
    arguments; none when no tool answers to the name or the tool refuses its
    input. *)
Definition invocation_of `{Platform} (agent_tools : list Tool) (tool_call : ToolCall)
    : option Invocation :=
  match find (fun tool => String.eqb (Tool_name tool) (tc_name tool_call)) agent_tools with
  | Some tool =>
      match tool_input_kwargs (tc_args tool_call) with
      | Return kwargs => Some (Tool__name__ tool, kwargs)
      | Raise _ => None
      end
  | None => None
  end.

(** The ["tool"] entry of a result record. *)
Definition result_tool (r : ToolResult) : string :=
  match r with
  | ToolSucceeded tool _ => tool
  | ToolFailed tool _ => tool
  end.

(** A key tool that [_create_tools] wraps: in the catalog and bound. *)
Definition wrappable (registry : ToolRegistry) (tool_name : string) : bool :=
  dict_mem tool_name (tools registry) &&
  bool_decide (is_Some (get_tool_implementation registry tool_name)).

(** A later state of a run keeps what an earlier one had: messages and
    result records are only ever appended, the task and the context stay. *)
Definition extends_state (state state' : AgentState) : Prop :=
  messages state `prefix_of` messages state' /\
  tool_results state `prefix_of` tool_results state' /\
  current_task state' = current_task state /\
  context state' = context state.

(** An implementation call that some requested tool call leads to. *)
Definition led_to `{Platform} (a : XcodeLangGraphAgent) (inv : Invocation) : Prop :=
  exists tool_call, invocation_of (agent_tools a) tool_call = Some inv.

(** The implementation calls made by the time a run stands at a step. *)
Definition step_history (step : Step) : list Invocation :=
  match step with
  | Goto _ _ history => history
  | Finished _ history => history
  | Raised _ history => history
  end.

(** ** Vocabulary of the statements on the dispatcher *)

(** What a computation writes.  From any server state, and whatever has been
    written before ([out]), the computation ends the same way and appends the
    same responses [new]; [Q] says what the outcome and the responses are. *)
Definition emits {A} (Q : PyResult A -> list Response -> Prop) (m : M A) : Prop :=
  forall s, exists res s0 new,
    (forall out, m (set_stdout out s) = (res, set_stdout (out ++ new) s0)) /\
    Q res new.

(** It writes nothing. *)
Definition quiet {A} (m : M A) : Prop := emits (fun _ new => new = []) m.

(** It writes nothing and does not raise. *)
Definition calm {A} (m : M A) : Prop :=
  emits (fun res new => new = [] /\ exists a, res = Return a) m.

(** When it returns it has written one response, with the request's id;
    when it raises it has written nothing. *)
Definition one_reply (request_id : option JSON) (res : PyResult unit)
    (new : list Response) : Prop :=
  match res with
  | Return _ => exists r, new = [r] /\ response_id r = request_id
  | Raise _ => new = []
  end.

(** It returns, having written one response with the request's id. *)
Definition sure_reply (request_id : option JSON) (res : PyResult unit)
    (new : list Response) : Prop :=
  res = Return tt /\ exists r, new = [r] /\ response_id r = request_id.

(** When it returns it has written one response, with the request's id;
    it raises nothing that is an [Exception], and when it raises it has
    written nothing. *)
Definition reply_or_interrupt (request_id : option JSON) (res : PyResult unit)
    (new : list Response) : Prop :=
  match res with
  | Return _ => exists r, new = [r] /\ response_id r = request_id
  | Raise e => is_Exception e = false /\ new = []
  end.

(** The lines of input that [run] answers: all but blank lines and the
    [notifications/initialized] notification. *)
Definition expects_response (line : Line) : bool :=
  match line with
  | Blank => false
  | Malformed _ => true
  | Parsed request => negb (is_method (req_method request) "notifications/initialized")
  end.

(** An entry of a JSON value, by the keys that lead to it. *)
Fixpoint json_path (path : list string) (v : JSON) : option JSON :=
  match path with
  | [] => Some v
  | k :: path' =>
      match v with
      | JDict d =>
          match dict_get k d with
          | Some v' => json_path path' v'
          | None => None
          end
      | _ => None
      end
  end.

(** Every key the two caches hold in [s] is still held in [s']. *)
Definition keeps_cache_entries (s s' : UnifiedMCPServer) : Prop :=
  dom (_response_cache s) ⊆ dom (_response_cache s') /\
  dom (_tool_cache s) ⊆ dom (_tool_cache s').

(** ** The network adapters ([src/mcp_http_wrapper.py], [src/mcp_http_server.py]) *)

(** A coroutine of the FastAPI application: whatever its body calls finds
    the event loop running. *)
Definition in_event_loop {A} (body : M A) : M A :=
  fun s =>
    let '(res, s') := body (set_event_loop_running true s) in
    (res, set_event_loop_running (event_loop_running s) s').

(** [create_network_mcp_server] puts [MCPResponseCapture.capture_response] in
    the place of the server's [send_response]: the same response object is
    built, but it is handed to the callback the request handler has set
    instead of being written, and [capture_callback] keeps the last response
    it is handed.  The handlers above append what they send to [stdout]; so a
    handler run on the network server starts from an empty output, the last
    response found there afterwards is the captured one, and the output of
    the process is what it was. *)
Definition with_capture {A} (handler : M A) : M (A * option Response) :=
  fun s =>
    match handler (set_stdout [] s) with
    | (Return a, s') => (Return (a, last (stdout s')), set_stdout (stdout s) s')
    | (Raise e, s') => (Raise e, set_stdout (stdout s) s')
    end.

(** The request [mcp_http] works on, [request.dict(exclude_none=True)] of
    the [MCPRequest] model: a method, the params when there are any, and an
    id that is a string when there is one. *)
Record MCPRequest := {
  mcp_method : string;
  mcp_params : option Params;
  mcp_id : option string
}.

(** A reply of [POST /mcp]: the HTTP status and the JSON-RPC object in the
    body.  In the objects [mcp_http] builds itself a missing id is written
    as [null]; both are [None] here. *)
Record HttpReply := {
  status_code : Z;
  content : Response
}.

(** [{"jsonrpc": "2.0", "result": {"status": "processed"}, "id": request_id}] *)
Definition processed (request_id : option JSON) : Response :=
  result_response request_id (JDict [("status", JStr "processed")]).

(** The tail of both adapters: the captured response, or the fallback. *)
Definition captured_or_processed (request_id : option JSON) (handler : M unit)
    : M Response :=
  do r <- with_capture handler ;
  ret (default (processed request_id) r.2).

(** [mcp_http], the coroutine that handles [POST /mcp], behind
    [verify_api_key]. *)
Definition mcp_http `{Platform} (request : MCPRequest) : M HttpReply :=
  let method := mcp_method request in
  let params := default {| params_name := None; params_arguments := None |}
                  (mcp_params request) in
  let request_id := JStr <$> mcp_id request in
  let ok (handler : M unit) : M HttpReply :=
    do response <- captured_or_processed request_id handler ;
    ret {| status_code := 200; content := response |} in
  in_event_loop (try_except
    (if String.eqb method "initialize" then ok (handle_initialize request_id)
     else if String.eqb method "tools/list" then
       do ready <- get initialized ;
       if negb ready then
         ret {| status_code := 400;
                content := error_response request_id (-32002) "Server not initialized" |}
       else ok (handle_tools_list request_id)
     else if String.eqb method "tools/call" then
       do ready <- get initialized ;
       if negb ready then
         ret {| status_code := 400;
                content := error_response request_id (-32002) "Server not initialized" |}
       else ok (handle_tools_call params request_id)
     else if String.eqb method "notifications/initialized" then
       ret {| status_code := 200; content := result_response None JNull |}
     else
       ret {| status_code := 404;
              content := error_response request_id (-32601)
                           ("Method not found: " +:+ method) |})
    (fun e =>
       ret {| status_code := 500;
              content := error_response request_id (-32603)
                           ("Internal error: " +:+ exn_str e) |})).

(** The same request as the stdio loop would read it. *)
Definition request_of (request : MCPRequest) : Request :=
  {| req_method := Some (mcp_method request);
     req_params := mcp_params request;
     req_id := JStr <$> mcp_id request |}.

(** The coroutine [MCPWebSocketHandler.handle_message]: the objects it
    sends with [websocket.send_json] for one message.  A message is read by
    [json.loads], as a line of standard input is; the empty text does not
    parse. *)
Definition handle_message `{Platform} (message : Line) : M (list Response) :=
  match message with
  | Blank | Malformed _ => ret [error_response None (-32700) "Parse error"]
  | Parsed request =>
      let method := req_method request in
      let params := default {| params_name := None; params_arguments := None |}
                      (req_params request) in
      let request_id := req_id request in
      let sent (handler : M unit) : M (list Response) :=
        do response <- captured_or_processed request_id handler ;
        ret [response] in
      in_event_loop (try_except
        (if is_method method "initialize" then sent (handle_initialize request_id)
         else if is_method method "tools/list" then
           do ready <- get initialized ;
           if negb ready then
             ret [error_response request_id (-32002) "Server not initialized"]
           else sent (handle_tools_list request_id)
         else if is_method method "tools/call" then
           do ready <- get initialized ;
           if negb ready then
             ret [error_response request_id (-32002) "Server not initialized"]
           else sent (handle_tools_call params request_id)
         else if is_method method "notifications/initialized" then sent (ret tt)
         else
           ret [error_response request_id (-32601)
                  ("Method not found: " +:+ default "None" method)])
        (fun e =>
           ret [error_response None (-32603) ("Internal error: " +:+ exn_str e)]))
  end.

(** The answer of [GET /]: whether the service says a key is required. *)
Definition root_authentication (cfg : AuthConfig) : string :=
  if REQUIRE_AUTH cfg && negb (String.eqb (API_KEY cfg) "") then "required"
  else "optional".

(** A computation moves the server along a relation, however it ends. *)
Definition advances {A} (R : relation UnifiedMCPServer) (m : M A) : Prop :=
  forall s, R s (m s).2.

(** The ["name"] entries of a listing of tool schemas. *)
Definition advertised_names (listing : list JSON) : list JSON :=
  omap (json_path ["name"]) listing.

(** The entry [GET /tools] builds for one tool of the catalog. *)
Definition tools_endpoint_entry (tool_def : ToolDef) : JSON :=
  let properties :=
    foldl (fun props param =>
             dict_set (param_name param)
               (JDict [ ("type", JStr (default "string" (param_type param)));
                        ("description", JStr (default "" (param_description param))) ])
               props)
      [] (td_parameters tool_def) in
  JDict
    [ ("name", match td_name tool_def with Some n => JStr n | None => JNull end);
      ("description", JStr (default "" (td_description tool_def)));
      ("inputSchema",
       JDict [ ("type", JStr "object"); ("properties", JDict properties);
               ("additionalProperties", JBool true) ]) ].

(** The three entries [GET /tools] adds when LangGraph is there. *)
Definition tools_endpoint_langgraph : list JSON :=
  [ JDict
      [ ("name", JStr "langgraph_query");
        ("description", JStr "Execute a natural language query using LangGraph agent");
        ("inputSchema",
         JDict
           [ ("type", JStr "object");
             ("properties",
              JDict [ ("prompt", JDict [("type", JStr "string")]);
                      ("model", JDict [("type", JStr "string")]);
                      ("persona", JDict [("type", JStr "object")]) ]);
             ("required", JStrs ["prompt"]) ]) ];
    JDict
      [ ("name", JStr "langgraph_workflow");
        ("description", JStr "Execute a multi-step Xcode workflow using LangGraph");
        ("inputSchema",
         JDict
           [ ("type", JStr "object");
             ("properties",
              JDict [ ("workflow", JDict [("type", JStr "string")]);
                      ("context", JDict [("type", JStr "object")]);
                      ("persona", JDict [("type", JStr "object")]) ]);
             ("required", JStrs ["workflow"]) ]) ];
    JDict
      [ ("name", JStr "langgraph_status");
        ("description", JStr "Get LangGraph agent status");
        ("inputSchema",
         JDict [ ("type", JStr "object"); ("properties", JDict []) ]) ] ].

(** [list_tools] of [src/mcp_http_server.py], the handler of [GET /tools]. *)
Definition http_list_tools (s : UnifiedMCPServer) : JSON :=
  let listing :=
    (tools_endpoint_entry <$> list_tools (registry s)) ++
    (if langgraph_enabled s then tools_endpoint_langgraph else []) in
  JDict
    [ ("tools", JList listing);
      ("count", JInt (Z.of_nat (length listing)));
      ("direct_tools", JInt (Z.of_nat (length (tools (registry s)))));
      ("langgraph_tools", JInt (if langgraph_enabled s then 3 else 0)) ].


(** A computation that does not look at whether an event loop is running:
    it does in a coroutine what it does outside. *)
Definition oblivious {A} (m : M A) : Prop :=
  forall b s,
    m (set_event_loop_running b s) = ((m s).1, set_event_loop_running b (m s).2).

(** A [tools/call] of one of the two tools that run the agent. *)
Definition calls_the_agent (request : Request) : bool :=
  let tool_name :=
    default "" (params_name (default {| params_name := None; params_arguments := None |}
                               (req_params request))) in
  is_method (req_method request) "tools/call" &&
  (String.eqb tool_name "langgraph_agent" || String.eqb tool_name "langgraph_workflow").
(** * Worked instances *)

(** Small concrete catalogs, modules and servers on which the definitions
    above are run. *)
Module Demo.

Definition impl_returning (v : JSON) : Impl := fun _ _ => Return v.
Definition impl_raising (msg : string) : Impl := fun _ _ => Raise (RuntimeError msg).

(** The user presses Ctrl-C while the implementation waits for its
    subprocess. *)
Definition interrupt : PyExn :=
  {| exn_base := KeyboardInterrupt; exn_class := "KeyboardInterrupt"; exn_str := "" |}.
Definition impl_interrupted : Impl := fun _ _ => Raise interrupt.

(** An implementation whose command fails the second time the process
    calls a tool, and only then. *)
Definition impl_failing_once (v : JSON) (e : PyExn) : Impl :=
  fun history _ => if (length history =? 1)%nat then Raise e else Return v.

Definition tool (name : string) : ToolDef :=
  {| td_name := Some name; td_description := Some ("Runs " +:+ name);
     td_parameters := [] |}.

Definition catalog : list ToolDef :=
  [ tool "list_projects"; tool "check_xcode_cli"; tool "boot_simulator";
    tool "build_project"; tool "archive_project" ].

Definition empty_package : xcode_tools.package :=
  {| xcode_tools.project := ∅; xcode_tools.build := ∅; xcode_tools.testing := ∅;
     xcode_tools.simulator := ∅; xcode_tools.device := ∅; xcode_tools.swift := ∅;
     xcode_tools.git_ci := ∅; xcode_tools.diagnostics := ∅; xcode_tools.meta := ∅;
     xcode_tools.agentic := ∅; xcode_tools.applescript := ∅;
     xcode_tools.llm_config := ∅; xcode_tools.crash_reporting := ∅;
     xcode_tools.assets := ∅; xcode_tools.simulator_enhanced := ∅;
     xcode_tools.localization := ∅ |}.

(** [boot_simulator] is exported by [simulator] and again, later in the
    order, by [simulator_enhanced]. *)
Definition boot_plain : Impl := impl_returning (JStr "booted by simulator").
Definition boot_enhanced : Impl := impl_returning (JStr "booted by simulator_enhanced").

Definition package : xcode_tools.package :=
  {| xcode_tools.project :=
       {[ "list_projects" := Callable (impl_returning (JList []));
          "Path" := NotCallable ]};
     xcode_tools.build :=
       {[ "build_project" := Callable (impl_raising "xcodebuild failed") ]};
     xcode_tools.testing := ∅;
     xcode_tools.simulator := {[ "boot_simulator" := Callable boot_plain ]};
     xcode_tools.device := ∅; xcode_tools.swift := ∅;
     xcode_tools.git_ci := ∅; xcode_tools.diagnostics := ∅;
     xcode_tools.meta :=
       {[ "check_xcode_cli" :=
            Callable (impl_returning (JDict [("installed", JBool true)])) ]};
     xcode_tools.agentic := ∅; xcode_tools.applescript := ∅;
     xcode_tools.llm_config := ∅; xcode_tools.crash_reporting := ∅;
     xcode_tools.assets := ∅;
     xcode_tools.simulator_enhanced := {[ "boot_simulator" := Callable boot_enhanced ]};
     xcode_tools.localization := ∅ |}.

Definition registry : ToolRegistry := ToolRegistry_init catalog package.

(** The same registry after [list_projects] has been replaced by an
    implementation that fails once. *)
Definition flaky_registry : ToolRegistry :=
  register_implementation registry "list_projects"
    (impl_failing_once (JList [])
       {| exn_base := Exception; exn_class := "PermissionError";
          exn_str := "[Errno 13] Permission denied" |}).

(** The same registry with a [list_projects] that returns what the
    implementation of the repository returns where it finds no project. *)
Definition impl_listing : Impl :=
  impl_returning
    (JDict [("projects", JList []); ("workspaces", JList []); ("count", JInt 0)]).

Definition listing_registry : ToolRegistry :=
  register_implementation registry "list_projects" impl_listing.

(** The same registry with a [boot_simulator] that is interrupted. *)
Definition interrupted_registry : ToolRegistry :=
  register_implementation registry "boot_simulator" impl_interrupted.

(** A stand-in for the [json] module, enough to run the definitions. *)
Fixpoint render (v : JSON) : string :=
  match v with
  | JNull => "null"
  | JBool b => if b then "true" else "false"
  | JInt n => pretty n
  | JStr s => "'" +:+ s +:+ "'"
  | JList l =>
      "[" +:+ (fix items (l : list JSON) : string :=
                 match l with
                 | [] => ""
                 | x :: l' => render x +:+ "," +:+ items l'
                 end) l +:+ "]"
  | JDict d =>
      "{" +:+ (fix items (d : list (string * JSON)) : string :=
                 match d with
                 | [] => ""
                 | kv :: d' => kv.1 +:+ ":" +:+ render kv.2 +:+ "," +:+ items d'
                 end) d +:+ "}"
  end.

Definition call (name id : string) : ToolCall :=
  {| tc_name := name; tc_args := []; tc_id := Some id |}.

Definition ConnectionError (msg : string) : PyExn :=
  {| exn_base := Exception; exn_class := "ConnectionError"; exn_str := msg |}.

(** Reasoning functions, chosen by the model name: one that asks for one
    call of [tool_wrapper], the name every tool it was bound to goes by, on
    every turn; one that asks once for three calls under the names of three
    key tools, and then answers; one that asks once for three calls of
    [tool_wrapper], and then answers; one that asks for a call and fails on
    its next turn; any other model fails at once. *)
Definition llm (model : ChatModel) (bound : list string) (messages : list Message)
    : PyResult Message :=
  match model with
  | ChatOllama "looping" =>
      Return (AIMessage (JStr "") [call "tool_wrapper" "call_1"] [])
  | ChatOllama "three_calls" =>
      match messages with
      | [_] =>
          Return (AIMessage (JStr "")
                    [ call "list_projects" "c1"; call "build_project" "c2";
                      call "check_xcode_cli" "c3" ] [])
      | _ => Return (AIMessage (JStr "done") [] [])
      end
  | ChatOllama "three_wrapper_calls" =>
      match messages with
      | [_] =>
          Return (AIMessage (JStr "")
                    [ call "tool_wrapper" "c1"; call "tool_wrapper" "c2";
                      call "tool_wrapper" "c3" ] [])
      | _ => Return (AIMessage (JStr "done") [] [])
      end
  | ChatOllama "fails_later" =>
      match messages with
      | [_] => Return (AIMessage (JStr "") [call "tool_wrapper" "c1"] [])
      | _ => Raise (ConnectionError "connection refused")
      end
  | _ => Raise (ConnectionError "connection refused")
  end.

(** A tool made by [@tool] from [tool_wrapper] passes on no entry of its
    input but one called [kwargs]. *)
Definition wrapper_kwargs (tool_args : Args) : PyResult Args :=
  match dict_get "kwargs" tool_args with
  | Some v => Return [("kwargs", v)]
  | None => Return []
  end.

#[export] Instance platform : Platform :=
  {| json_dumps := render;
     json_dumps_compact := render;
     json_dumps_indent := render;
     getenv := fun _ => None;
     LANGGRAPH_AVAILABLE := true;
     llm_invoke := llm;
     py_str := render;
     persona_prompt := fun _ => Return "You are a generalist.";
     message_validation_error := fun _ => "Input should be a valid string";
     tool_input_kwargs := wrapper_kwargs;
     recursion_limit := 25;
     recursion_limit_message :=
       "Recursion limit of 25 reached without hitting a stop condition." |}.

Definition agent_on (registry : ToolRegistry) (model_name : string)
    : XcodeLangGraphAgent :=
  {| agent_registry := registry;
     agent_model := "ollama:" +:+ model_name;
     agent_system_prompt := None;
     agent_llm := ChatOllama model_name;
     agent_tools := _create_tools registry |}.

Definition agent (model_name : string) : XcodeLangGraphAgent :=
  agent_on registry model_name.

Definition initial_state (prompt : string) : AgentState :=
  {| messages := [HumanMessage (JStr prompt)];
     tool_results := [];
     current_task := JStr prompt;
     context := [] |}.

Fixpoint float_of_nat (n : nat) : float :=
  match n with
  | O => 0%float
  | S n' => PrimFloat.add (float_of_nat n') 1%float
  end.

(** A server whose clock advances by [seconds] between two readings. *)
Definition server_ticking (seconds : float) (langgraph : bool) : UnifiedMCPServer :=
  UnifiedMCPServer_init registry langgraph
    (fun n => PrimFloat.mul seconds (float_of_nat n)).

Definition server (langgraph : bool) : UnifiedMCPServer :=
  server_ticking 1%float langgraph.

(** A server whose clock gives the readings listed, and the last of them
    from then on. *)
Definition server_reading (readings : list float) (langgraph : bool)
    : UnifiedMCPServer :=
  UnifiedMCPServer_init registry langgraph
    (fun n => nth n readings (List.last readings 0%float)).

Definition tools_call (name : string) (arguments : Args) : Params :=
  {| params_name := Some name; params_arguments := Some arguments |}.

Definition request (method : string) (params : option Params) (id : Z) : Request :=
  {| req_method := Some method; req_params := params; req_id := Some (JInt id) |}.

End Demo.


(** A platform that differs from [Demo.platform] in one point: the system
    prompt it builds names the role of the persona. *)
Module DemoPersona.

Definition role_prompt (persona_config : JSON) : PyResult string :=
  match persona_config with
  | JDict d =>
      Return ("You are a " +:+
              match dict_get "role" d with
              | Some (JStr role) => role
              | _ => "generalist"
              end +:+ " specializing in iOS/macOS development.")
  | _ => Raise {| exn_base := Exception; exn_class := "AttributeError";
                  exn_str := "object has no attribute 'get'" |}
  end.

#[export] Instance platform_with_roles : Platform :=
  {| json_dumps := Demo.render;
     json_dumps_compact := Demo.render;
     json_dumps_indent := Demo.render;
     getenv := fun _ => None;
     LANGGRAPH_AVAILABLE := true;
     llm_invoke := Demo.llm;
     py_str := Demo.render;
     persona_prompt := role_prompt;
     message_validation_error := fun _ => "Input should be a valid string";
     tool_input_kwargs := Demo.wrapper_kwargs;
     recursion_limit := 25;
     recursion_limit_message :=
       "Recursion limit of 25 reached without hitting a stop condition." |}.

End DemoPersona.

(** A platform whose model answers in the older function-call format: a
    function call and no tool call on the first turn, a plain answer then. *)
Module DemoFunctionCalls.

Definition llm (model : ChatModel) (bound : list string) (messages : list Message)
    : PyResult Message :=
  match messages with
  | [_] =>
      Return (AIMessage (JStr "")
                [] [JDict [("name", JStr "list_projects"); ("arguments", JStr "{}")]])
  | _ => Return (AIMessage (JStr "done") [] [])
  end.

#[export] Instance platform_with_function_calls : Platform :=
  {| json_dumps := Demo.render;
     json_dumps_compact := Demo.render;
     json_dumps_indent := Demo.render;
     getenv := fun _ => None;
     LANGGRAPH_AVAILABLE := true;
     llm_invoke := llm;
     py_str := Demo.render;
     persona_prompt := fun _ => Return "You are a generalist.";
     message_validation_error := fun _ => "Input should be a valid string";
     tool_input_kwargs := Demo.wrapper_kwargs;
     recursion_limit := 25;
     recursion_limit_message :=
       "Recursion limit of 25 reached without hitting a stop condition." |}.

End DemoFunctionCalls.
(** * Properties *)

(** ** Authentication *)

(** C9: enforcement without a configured secret lets every request through;
    so does disabled enforcement, whatever key is presented; and a request is
    turned away only when enforcement is on, a secret is configured and the
    presented key is not that secret. *)
Theorem auth_gate_fail_open (cfg : AuthConfig) (endpoint : Endpoint)
    (presented : option string) :
  (REQUIRE_AUTH cfg = true -> API_KEY cfg = "" ->
     authorize cfg endpoint presented = Allowed) /\
  (REQUIRE_AUTH cfg = false -> authorize cfg endpoint presented = Allowed) /\
  (forall status detail,
     authorize cfg endpoint presented = Rejected status detail ->
     REQUIRE_AUTH cfg = true /\ API_KEY cfg <> "" /\ presented <> Some (API_KEY cfg)).
Proof.
  destruct cfg as [key req]; simpl.
  split; [|split].
  - intros -> ->. destruct endpoint; reflexivity.
  - intros ->. destruct endpoint; reflexivity.
  - intros status detail.
    destruct endpoint; simpl; try discriminate;
      unfold verify_api_key, websocket_auth; simpl;
      destruct req; simpl; try discriminate;
      destruct (String.eqb key "") eqn:Hk; simpl; try discriminate;
      apply String.eqb_neq in Hk;
      (destruct presented as [p|]; [|intros _; repeat split; congruence]).
    + destruct (String.eqb p "") eqn:Hp.
      * apply String.eqb_eq in Hp. subst p. intros _. repeat split; congruence.
      * destruct (String.eqb p key) eqn:Hpk; simpl; try discriminate.
        apply String.eqb_neq in Hpk. intros _. repeat split; congruence.
    + destruct (String.eqb p key) eqn:Hpk; try discriminate.
      apply String.eqb_neq in Hpk. intros _. repeat split; congruence.
Qed.

(** The check does turn requests away: on [/mcp] and on [/ws], with
    enforcement on and a secret configured, a missing or different key is
    rejected. *)
Lemma auth_gate_rejects_mismatch (cfg : AuthConfig) (presented : option string) :
  REQUIRE_AUTH cfg = true ->
  API_KEY cfg <> "" ->
  presented <> Some (API_KEY cfg) ->
  (exists status detail, authorize cfg POST_mcp presented = Rejected status detail) /\
  authorize cfg WS_ws presented = Rejected 1008 "Invalid API key".
Proof.
  destruct cfg as [key req]; simpl. intros -> Hkey Hpresented.
  unfold verify_api_key, websocket_auth; simpl.
  apply String.eqb_neq in Hkey. rewrite Hkey. simpl.
  destruct presented as [p|]; [|eauto].
  assert (Hp : String.eqb p key = false).
  { apply String.eqb_neq. congruence. }
  rewrite Hp. simpl. split; [|done].
  destruct (String.eqb p ""); eauto.
Qed.

(** The configuration read from an environment that switches enforcement
    on, in capitals, and sets no secret: every request passes. *)
Lemma auth_gate_without_secret_is_open :
  let cfg := load_auth_config
               (fun name => if String.eqb name "MCP_REQUIRE_AUTH" then Some "TRUE" else None) in
  REQUIRE_AUTH cfg = true /\
  authorize cfg POST_mcp None = Allowed /\
  authorize cfg WS_ws (Some "guess") = Allowed.
Proof. repeat split. Qed.

(** ** Binding implementations to catalog names *)

Lemma bind_module_lookup (tools : Dict ToolDef) (implementations : gmap string Impl)
    (module : PyModule) (k : string) :
  bind_module tools implementations module !! k =
    match module !! k with
    | Some (Callable f) =>
        if public_tool_name tools k then Some f else implementations !! k
    | _ => implementations !! k
    end.
Proof.
  unfold bind_module. revert k.
  apply (map_fold_weak_ind
           (fun r (m : PyModule) => forall k,
              r !! k = match m !! k with
                       | Some (Callable f) =>
                           if public_tool_name tools k then Some f
                           else implementations !! k
                       | _ => implementations !! k
                       end)).
  - intros k. by rewrite lookup_empty.
  - intros i x m r Hi IH k. unfold bind_attr.
    destruct (decide (i = k)) as [->|Hne].
    + rewrite lookup_insert_eq.
      specialize (IH k). rewrite Hi in IH.
      destruct (public_tool_name tools k), x; simpl;
        rewrite ?lookup_insert_eq; done.
    + rewrite lookup_insert_ne; [|done]. rewrite <- IH.
      destruct (public_tool_name tools i), x; simpl;
        rewrite ?lookup_insert_ne; done.
Qed.

(** The binding pass over a list of modules, read from its end: the last
    module that exports a name as a public callable decides. *)
Lemma bind_modules_lookup (tools : Dict ToolDef) (modules : list PyModule)
    (implementations : gmap string Impl) (k : string) :
  foldl (bind_module tools) implementations modules !! k =
    match first_match_binding tools (reverse modules) k with
    | Some f => Some f
    | None => implementations !! k
    end.
Proof.
  induction modules as [|m modules IH] using rev_ind; [done|].
  rewrite foldl_app, reverse_app. simpl.
  rewrite bind_module_lookup, IH.
  destruct (m !! k) as [[f|]|]; try done.
  by destruct (public_tool_name tools k).
Qed.

Lemma first_match_binding_app (tools : Dict ToolDef) (l1 l2 : list PyModule)
    (k : string) :
  first_match_binding tools (l1 ++ l2) k =
    match first_match_binding tools l1 k with
    | Some f => Some f
    | None => first_match_binding tools l2 k
    end.
Proof.
  induction l1 as [|m l1 IH]; [done|]. simpl.
  destruct (m !! k) as [[f|]|]; try done.
  by destruct (public_tool_name tools k).
Qed.

(** Said with the modules in their own order: a module's public callable
    stands in the registry whenever no module after it exports the name as a
    callable, whatever the modules before it export. *)
Lemma later_module_overrides (tools : Dict ToolDef) (before after : list PyModule)
    (m : PyModule) (implementations : gmap string Impl) (k : string) (f : Impl) :
  public_tool_name tools k = true ->
  m !! k = Some (Callable f) ->
  Forall (fun m' => forall g, m' !! k <> Some (Callable g)) after ->
  foldl (bind_module tools) implementations (before ++ m :: after) !! k = Some f.
Proof.
  intros Hpublic Hm Hafter.
  rewrite bind_modules_lookup, reverse_app, reverse_cons, <- app_assoc.
  rewrite first_match_binding_app.
  assert (Hnone : first_match_binding tools (reverse after) k = None).
  { apply Forall_reverse in Hafter.
    induction Hafter as [|m' l Hm' _ IH]; [done|]. simpl.
    destruct (m' !! k) as [[g|]|] eqn:E; try done. by destruct (Hm' g). }
  rewrite Hnone. simpl. by rewrite Hm, Hpublic.
Qed.

(** C1 (as the code has it): after registry construction a catalog name is
    bound to the callable of the LAST module, in the fixed module order, that
    exports it as a public callable; that is, to the first match of the
    order read backwards. *)
Theorem load_implementations_last_match_wins (schema_tools : list ToolDef)
    (pkg : xcode_tools.package) (tool_name : string) :
  get_tool_implementation (ToolRegistry_init schema_tools pkg) tool_name =
    first_match_binding (_load_tool_definitions schema_tools)
      (reverse (tool_modules pkg)) tool_name.
Proof.
  unfold get_tool_implementation, ToolRegistry_init, _load_implementations.
  cbn [implementations].
  rewrite bind_modules_lookup, lookup_empty.
  by destruct (first_match_binding _ _ _).
Qed.

(** C1 fails as stated: [boot_simulator] is exported by [simulator] and by
    [simulator_enhanced]; the registry binds the later module's callable,
    not the earlier one that first-match-wins would keep. *)
Lemma first_match_does_not_win :
  get_tool_implementation Demo.registry "boot_simulator"
    <> first_match_binding (tools Demo.registry) (tool_modules Demo.package)
         "boot_simulator".
Proof.
  vm_compute. intros H. injection H as H.
  apply (f_equal (fun f : Impl => f [] [])) in H. discriminate H.
Qed.

(** ** The orchestration loop *)

Section Orchestration.
Context `{Platform}.

Lemma find_tool_none (agent_tools : list Tool) (tool_name : string) :
  tool_name ∉ Tool_name <$> agent_tools ->
  find (fun tool => String.eqb (Tool_name tool) tool_name) agent_tools = None.
Proof.
  induction agent_tools as [|t ts IH]; [done|].
  intros Hnot. simpl.
  destruct (String.eqb (Tool_name t) tool_name) eqn:E.
  - apply String.eqb_eq in E. exfalso. apply Hnot. rewrite <- E. simpl. left.
  - apply IH. intros Hin. apply Hnot. simpl. by right.
Qed.

Lemma find_tool_some (agent_tools : list Tool) (tool_name : string) (tool : Tool) :
  find (fun tool => String.eqb (Tool_name tool) tool_name) agent_tools = Some tool ->
  tool ∈ agent_tools /\ Tool_name tool = tool_name.
Proof.
  intros Hfind. apply find_some in Hfind as [Hin E].
  apply String.eqb_eq in E. by rewrite list_elem_of_In.
Qed.

(** Every tool [_create_tools] makes goes by the name [tool_wrapper] and
    carries the docstring of [tool_wrapper] as its description; it calls the
    implementation the registry has bound to one of the key names, a name
    that is in the catalog, and that name is its [__name__]. *)
Lemma create_tools_made (registry : ToolRegistry) (tool : Tool) :
  tool ∈ _create_tools registry ->
  Tool_name tool = "tool_wrapper" /\
  Tool_description tool = "Tool wrapper for MCP tool execution." /\
  Tool__name__ tool ∈ key_tools /\
  dict_mem (Tool__name__ tool) (tools registry) = true /\
  get_tool_implementation registry (Tool__name__ tool) = Some (Tool_func tool).
Proof.
  unfold _create_tools. intros Hin.
  apply list_elem_of_omap in Hin as (n & Hn & Hmade).
  unfold dict_mem.
  destruct (dict_get n (tools registry)) as [tool_def|] eqn:Hdef; [|done].
  destruct (get_tool_implementation registry n) as [f|] eqn:Hf; [|done].
  injection Hmade as <-. cbn [make_tool Tool_name Tool_description Tool__name__ Tool_func].
  by rewrite Hdef.
Qed.

(** So the search of [_tools_node] stops at the first tool when it is asked
    for [tool_wrapper], and finds no tool under any other name. *)
Lemma find_created_tool (registry : ToolRegistry) (tool_name : string) :
  find (fun tool => String.eqb (Tool_name tool) tool_name) (_create_tools registry) =
    if String.eqb tool_name "tool_wrapper" then head (_create_tools registry) else None.
Proof.
  assert (Hall : forall tool, tool ∈ _create_tools registry ->
                   Tool_name tool = "tool_wrapper").
  { intros tool Hin. by apply create_tools_made in Hin as [-> _]. }
  destruct (String.eqb tool_name "tool_wrapper") eqn:E.
  - apply String.eqb_eq in E. subst tool_name.
    destruct (_create_tools registry) as [|tool l]; [done|].
    cbn [find head]. rewrite (Hall tool) by left. done.
  - apply find_tool_none. intros Hin.
    apply list_elem_of_fmap in Hin as (tool & -> & Hin).
    rewrite (Hall tool Hin) in E. discriminate E.
Qed.

(** A requested call that no tool answers to leaves no trace. *)
Lemma process_tool_call_skips (agent_tools : list Tool) (s : ActState)
    (history : list Invocation) (tool_call : ToolCall) :
  tc_name tool_call ∉ Tool_name <$> agent_tools ->
  process_tool_call agent_tools s history tool_call = (Return s, history).
Proof.
  intros Hnot. unfold process_tool_call. by rewrite (find_tool_none _ _ Hnot).
Qed.

(** The same at the level of the node: when none of the requested calls
    is one a tool answers to, [_tools_node] hands the state back as it got
    it. *)
Lemma tools_node_skips_unwrapped (a : XcodeLangGraphAgent) (state : AgentState)
    (history : list Invocation) (last_message : Message) :
  last (messages state) = Some last_message ->
  Forall (fun tool_call => tc_name tool_call ∉ Tool_name <$> agent_tools a)
    (requested_tool_calls last_message) ->
  _tools_node a state history = (Return state, history).
Proof.
  intros Hlast Hall. unfold _tools_node. rewrite Hlast.
  assert (Hloop : forall s,
            process_tool_calls (agent_tools a) s history
              (requested_tool_calls last_message) = (Return s, history)).
  { induction Hall as [|tc tcs Hnot _ IH]; [done|].
    intros s. cbn [process_tool_calls].
    by rewrite (process_tool_call_skips _ _ _ _ Hnot). }
  rewrite Hloop. simpl. by destruct state.
Qed.

(** What one requested call does when a tool answers to it and returns. *)
Lemma process_tool_call_returns (agent_tools : list Tool) (s : ActState)
    (history history' : list Invocation) (tool_call : ToolCall) (tool : Tool)
    (result : string) :
  find (fun tool => String.eqb (Tool_name tool) (tc_name tool_call)) agent_tools
    = Some tool ->
  tool_invoke tool (tc_args tool_call) history = (Return result, history') ->
  exists tool_call_id,
    process_tool_call agent_tools s history tool_call =
      (Return {| act_messages := act_messages s ++ [ToolMessage result tool_call_id];
                 act_tool_results :=
                   act_tool_results s ++ [ToolSucceeded (tc_name tool_call) result] |},
       history')
    /\ (forall id, tc_id tool_call = Some id -> id <> "" -> tool_call_id = id).
Proof.
  intros Hfind Hinvoke. unfold process_tool_call. rewrite Hfind, Hinvoke.
  eexists. split; [reflexivity|].
  intros id -> Hid. apply String.eqb_neq in Hid. by rewrite Hid.
Qed.

(** What one requested call does when a tool answers to it and raises an
    [Exception]: a failure record is appended, and the message list is left
    as it was, so no result message answers the call. *)
Lemma process_tool_call_raises (agent_tools : list Tool) (s : ActState)
    (history history' : list Invocation) (tool_call : ToolCall) (tool : Tool)
    (e : PyExn) :
  find (fun tool => String.eqb (Tool_name tool) (tc_name tool_call)) agent_tools
    = Some tool ->
  tool_invoke tool (tc_args tool_call) history = (Raise e, history') ->
  is_Exception e = true ->
  process_tool_call agent_tools s history tool_call =
    (Return {| act_messages := act_messages s;
               act_tool_results :=
                 act_tool_results s ++ [ToolFailed (tc_name tool_call) (exn_str e)] |},
     history').
Proof.
  intros Hfind Hinvoke He. unfold process_tool_call. by rewrite Hfind, Hinvoke, He.
Qed.

(** A tool that raises [Exception]s only, invoked. *)
Lemma tool_invoke_raises_Exception (agent_tools : list Tool) (tool : Tool)
    (tool_args : Args) (history history' : list Invocation) (e : PyExn) :
  tools_raise_Exceptions_only agent_tools ->
  tool ∈ agent_tools ->
  tool_invoke tool tool_args history = (Raise e, history') ->
  is_Exception e = true.
Proof.
  intros [Hinput Hfuncs] Hin. unfold tool_invoke.
  destruct (tool_input_kwargs tool_args) as [kwargs|e0] eqn:Hkwargs.
  - destruct (Tool_func tool history kwargs) as [result|e0] eqn:Hfunc; [done|].
    intros [= <- _]. rewrite Forall_forall in Hfuncs. by eapply Hfuncs.
  - intros [= <- _]. by eapply Hinput.
Qed.

(** With such tools the loop over the requested calls comes to its end. *)
Lemma process_tool_calls_return (agent_tools : list Tool) (s : ActState)
    (history : list Invocation) (tool_calls : list ToolCall) :
  tools_raise_Exceptions_only agent_tools ->
  exists s' history',
    process_tool_calls agent_tools s history tool_calls = (Return s', history').
Proof.
  intros Hsafe. revert s history.
  induction tool_calls as [|tc tcs IH]; intros s history; [simpl; eauto|].
  cbn [process_tool_calls]. unfold process_tool_call.
  destruct (find _ agent_tools) as [tool|] eqn:Hfind; [|apply IH].
  apply find_tool_some in Hfind as [Hin _].
  destruct (tool_invoke tool (tc_args tc) history) as [[result|e] history'] eqn:Hinvoke.
  - apply IH.
  - rewrite (tool_invoke_raises_Exception _ _ _ _ _ _ Hsafe Hin Hinvoke). apply IH.
Qed.

(** [_tools_node] does not raise once there is a last message and the
    tools raise [Exception]s only, and the graph goes back to the agent
    node. *)
Lemma tools_node_goes_back_to_agent (a : XcodeLangGraphAgent) (state : AgentState)
    (history : list Invocation) :
  tools_raise_Exceptions_only (agent_tools a) ->
  messages state <> [] ->
  exists state' history',
    graph_step a node_tools state history = Goto node_agent state' history' /\
    messages state' <> [].
Proof.
  intros Hsafe Hne. unfold graph_step, _tools_node.
  destruct (last (messages state)) as [m|] eqn:Hlast.
  - destruct (process_tool_calls_return (agent_tools a)
                {| act_messages := messages state;
                   act_tool_results := tool_results state |}
                history (requested_tool_calls m) Hsafe) as (s' & h' & Hloop).
    rewrite Hloop. eexists _, _. split; [reflexivity|]. cbn [messages].
    clear Hlast. revert Hloop. generalize (requested_tool_calls m).
    intros calls. revert h'.
    generalize history.
    assert (Hgen : forall calls s0 h0 h1,
              act_messages s0 <> [] ->
              process_tool_calls (agent_tools a) s0 h0 calls = (Return s', h1) ->
              act_messages s' <> []).
    { clear. induction calls as [|tc tcs IH]; intros s0 h0 h1 Hs0.
      - by intros [= <- _].
      - cbn [process_tool_calls]. unfold process_tool_call.
        destruct (find _ (agent_tools a)) as [tool|]; [|by apply IH].
        destruct (tool_invoke tool (tc_args tc) h0) as [[result|e] h2].
        + apply IH. cbn [act_messages]. by destruct (act_messages s0).
        + destruct (is_Exception e); [|done]. by apply IH. }
    intros h0 h1. by apply Hgen.
  - apply last_None in Hlast. done.
Qed.

Lemma graph_steps_add (n m : nat) (a : XcodeLangGraphAgent) (node : Node)
    (state : AgentState) (history : list Invocation) :
  graph_steps (n + m) a node state history =
    match graph_steps n a node state history with
    | Goto node' state' history' => graph_steps m a node' state' history'
    | done => done
    end.
Proof.
  revert node state history.
  induction n as [|n IH]; intros node state history; [done|].
  simpl. destruct (graph_step a node state history); auto.
Qed.

(** A reasoning function that asks for a tool call on every turn, with
    tools that raise [Exception]s only: the graph is still on its way after
    any number of node executions. *)
Lemma keeps_calling_never_ends (a : XcodeLangGraphAgent) (n : nat) (node : Node)
    (state : AgentState) (history : list Invocation) :
  keeps_calling a ->
  tools_raise_Exceptions_only (agent_tools a) ->
  (node = node_tools -> messages state <> []) ->
  exists node' state' history',
    graph_steps n a node state history = Goto node' state' history'.
Proof.
  intros Hcalls Hsafe. revert node state history.
  induction n as [|n IH]; intros node state history Hnode; [simpl; eauto|].
  simpl. destruct node.
  - unfold graph_step, _agent_node.
    destruct (Hcalls (messages state)) as (c & tc & tcs & fcs & ->).
    unfold _should_continue. simpl. rewrite last_snoc.
    apply IH. intros _. simpl. by destruct (messages state).
  - destruct (tools_node_goes_back_to_agent a state history Hsafe) as (st & h & -> & _);
      [by apply Hnode|].
    apply IH. done.
Qed.

(** A reasoning failure at the agent node ends the run at once, with the
    exception and without any further tool call. *)
Lemma reasoning_failure_stops_graph (a : XcodeLangGraphAgent) (k n : nat)
    (state0 state : AgentState) (history0 history : list Invocation) (e : PyExn) :
  graph_steps k a node_agent state0 history0 = Goto node_agent state history ->
  llm_with_tools a (messages state) = Raise e ->
  (k < n)%nat ->
  graph_steps n a node_agent state0 history0 = Raised e history.
Proof.
  intros Hreach Hfail Hlt.
  replace n with (k + S (n - S k))%nat by lia.
  rewrite graph_steps_add, Hreach. simpl.
  unfold graph_step, _agent_node. by rewrite Hfail.
Qed.

Lemma reasoning_failure_stops_run (a : XcodeLangGraphAgent) (prompt : JSON) (k : nat)
    (state : AgentState) (history0 history : list Invocation) (e : PyExn) :
  graph_steps k a node_agent
    {| messages := [HumanMessage prompt]; tool_results := [];
       current_task := prompt; context := [] |} history0
  = Goto node_agent state history ->
  llm_with_tools a (messages state) = Raise e ->
  (k < recursion_limit)%nat ->
  valid_message_content prompt = true ->
  run_sync a prompt history0 = (Raise e, history).
Proof.
  intros Hreach Hfail Hlt Hvalid. unfold run_sync, graph_invoke. rewrite Hvalid.
  by rewrite (reasoning_failure_stops_graph a k recursion_limit _ _ _ _ e Hreach Hfail Hlt).
Qed.

(** The outcome of a run is the outcome of its first [recursion_limit]
    node executions. *)
Lemma run_sync_outcome (a : XcodeLangGraphAgent) (prompt : JSON)
    (history : list Invocation) :
  valid_message_content prompt = true ->
  run_sync a prompt history =
    match graph_steps recursion_limit a node_agent
            {| messages := [HumanMessage prompt]; tool_results := [];
               current_task := prompt; context := [] |} history with
    | Finished state history' => (Return state, history')
    | Raised e history' => (Raise e, history')
    | Goto _ _ history' => (Raise GraphRecursionError, history')
    end.
Proof. intros Hvalid. unfold run_sync, graph_invoke. by rewrite Hvalid. Qed.

(** The agent node sends the run to [END] exactly when the answer carries
    neither tool calls nor function calls. *)
Lemma agent_turn_ends_iff_no_calls (a : XcodeLangGraphAgent) (state : AgentState)
    (history : list Invocation) (response : Message) :
  llm_with_tools a (messages state) = Return response ->
  (exists state', graph_step a node_agent state history = Finished state' history)
  <-> match response with
      | AIMessage _ [] [] => True
      | AIMessage _ _ _ => False
      | _ => True
      end.
Proof.
  intros Hresp. unfold graph_step, _agent_node, _should_continue.
  rewrite Hresp. simpl. rewrite last_snoc.
  destruct response as [c|c [|tc tcs] [|fc fcs]|c i]; simpl;
    (split; intros Hx; [try done; destruct Hx; discriminate | try done; eauto]).
Qed.

End Orchestration.

Section OrchestrationInstances.
#[local] Existing Instance Demo.platform.

(** C10 at a concrete Act step.  The demo registry has four of the eight
    key tools, and the agent wraps these four; but every one of the four
    tools goes by the name [tool_wrapper].  So a requested call named
    [tool_wrapper], which is none of the eight names, is not skipped: it runs
    the first wrapped implementation, [list_projects], and a result record
    and a result message are appended.  And a requested call named
    [build_project], which is one of the wrapped tools, is skipped without a
    trace, although [build_project] would have raised. *)
Theorem wrapped_tools_all_answer_to_tool_wrapper :
  Tool__name__ <$> _create_tools Demo.registry
  = ["list_projects"; "check_xcode_cli"; "build_project"; "boot_simulator"] /\
  Tool_name <$> _create_tools Demo.registry
  = ["tool_wrapper"; "tool_wrapper"; "tool_wrapper"; "tool_wrapper"] /\
  ("tool_wrapper" ∉ key_tools) /\
  process_tool_call (_create_tools Demo.registry)
    {| act_messages := [HumanMessage (JStr "build my app")]; act_tool_results := [] |}
    [] (Demo.call "tool_wrapper" "c1")
  = (Return {| act_messages := [HumanMessage (JStr "build my app"); ToolMessage "[]" "c1"];
               act_tool_results := [ToolSucceeded "tool_wrapper" "[]"] |},
     [("list_projects", [])]) /\
  process_tool_call (_create_tools Demo.registry)
    {| act_messages := [HumanMessage (JStr "build my app")]; act_tool_results := [] |}
    [] (Demo.call "build_project" "c2")
  = (Return {| act_messages := [HumanMessage (JStr "build my app")];
               act_tool_results := [] |},
     []).
Proof.
  split; [vm_compute; reflexivity|]. split; [vm_compute; reflexivity|].
  split.
  - unfold key_tools. intros Hin.
    repeat (apply elem_of_cons in Hin as [Hin|Hin]; [discriminate Hin|]).
    by apply elem_of_nil in Hin.
  - split; vm_compute; reflexivity.
Qed.

(** C7 at a concrete Act step.  The model asks for three calls of
    [tool_wrapper]; each runs [list_projects], whose second run raises.  All
    three calls are made in order, three results are recorded and the graph
    goes back to the agent node; but only the first and the third call get a
    result message, and nothing in [messages] answers call [c2].  And when
    the model asks for the three calls under the names of the key tools
    [list_projects], [build_project] and [check_xcode_cli], no tool is run,
    nothing is recorded and no message is added: the state that goes back
    to the agent node holds the prompt and the model's own answer. *)
Theorem raising_call_gets_no_result_message :
  (exists state,
     graph_steps 2 (Demo.agent_on Demo.flaky_registry "three_wrapper_calls") node_agent
       (Demo.initial_state "list my projects") []
     = Goto node_agent state
         [("list_projects", []); ("list_projects", []); ("list_projects", [])] /\
     tool_results state =
       [ ToolSucceeded "tool_wrapper" "[]";
         ToolFailed "tool_wrapper" "[Errno 13] Permission denied";
         ToolSucceeded "tool_wrapper" "[]" ] /\
     drop 2 (messages state) = [ToolMessage "[]" "c1"; ToolMessage "[]" "c3"]) /\
  (exists state,
     graph_steps 2 (Demo.agent "three_calls") node_agent
       (Demo.initial_state "build my app") []
     = Goto node_agent state [] /\
     tool_results state = [] /\
     drop 2 (messages state) = []).
Proof.
  split; eexists; (split; [vm_compute; reflexivity|]); split; reflexivity.
Qed.

End OrchestrationInstances.

(** ** The dispatcher *)

Section Dispatcher.
Context `{Platform}.

(** *** Which handler touches what *)

Lemma preserves_ret {A B} (f : UnifiedMCPServer -> A) (b : B) : preserves f (ret b).
Proof. by intros s. Qed.

Lemma preserves_raise {A B} (f : UnifiedMCPServer -> A) (e : PyExn) :
  preserves f (@raise B e).
Proof. by intros s. Qed.

Lemma preserves_get {A B} (f : UnifiedMCPServer -> A) (g : UnifiedMCPServer -> B) :
  preserves f (get g).
Proof. by intros s. Qed.

Lemma preserves_lift {A B} (f : UnifiedMCPServer -> A) (r : PyResult B) :
  preserves f (lift r).
Proof. by intros s. Qed.

Lemma preserves_modify {A} (f : UnifiedMCPServer -> A)
    (g : UnifiedMCPServer -> UnifiedMCPServer) :
  (forall s, f (g s) = f s) -> preserves f (modify g).
Proof. intros Hg s. apply Hg. Qed.

Lemma preserves_bind {A B C} (f : UnifiedMCPServer -> A) (m : M B) (k : B -> M C) :
  preserves f m -> (forall b, preserves f (k b)) -> preserves f (bind m k).
Proof.
  intros Hm Hk s. unfold bind. specialize (Hm s).
  destruct (m s) as [[b|e] s']; simpl in *; [|done].
  by rewrite (Hk b s').
Qed.

Lemma preserves_try_except {A B} (f : UnifiedMCPServer -> A) (body : M B)
    (handler : PyExn -> M B) :
  preserves f body -> (forall e, preserves f (handler e)) ->
  preserves f (try_except body handler).
Proof.
  intros Hm Hk s. unfold try_except. specialize (Hm s).
  destruct (body s) as [[b|e] s']; simpl in *; [done|].
  destruct (is_Exception e); [|done].
  by rewrite (Hk e s').
Qed.

Lemma preserves_time_time {A} (f : UnifiedMCPServer -> A) :
  stable f -> preserves f time_time.
Proof. intros Hf s. apply (stable_ticks f Hf). Qed.

Lemma preserves_send_response {A} (f : UnifiedMCPServer -> A) id result error :
  stable f -> preserves f (send_response id result error).
Proof. intros Hf s. apply (stable_stdout f Hf). Qed.

Lemma preserves_call_execute_tool {A} (f : UnifiedMCPServer -> A) tool_name arguments :
  stable f -> preserves f (call_execute_tool tool_name arguments).
Proof.
  intros Hf s. unfold call_execute_tool.
  destruct (bind_kwargs arguments); [|done].
  destruct (execute_tool _ _ _ _). apply (stable_history f Hf).
Qed.

Lemma preserves_agent_run_sync {A} (f : UnifiedMCPServer -> A) a prompt :
  stable f -> preserves f (agent_run_sync a prompt).
Proof.
  intros Hf s. unfold agent_run_sync, asyncio_run.
  destruct (event_loop_running s); [done|].
  destruct (run_sync _ _ _). apply (stable_history f Hf).
Qed.

Lemma preserves_mapM {A B C} (f : UnifiedMCPServer -> A) (g : B -> M C) (xs : list B) :
  (forall x, preserves f (g x)) -> preserves f (mapM g xs).
Proof.
  intros Hg. induction xs as [|x xs IH]; simpl.
  - apply preserves_ret.
  - apply preserves_bind; [apply Hg|]. intros y.
    apply preserves_bind; [apply IH|]. intros ys. apply preserves_ret.
Qed.

(** Closes the side condition of a setter from the stability at hand. *)
Ltac frame_setter :=
  intros;
  match goal with
  | Hf : stable ?f |- ?f (set_ticks _ _) = _ => apply (stable_ticks f Hf)
  | Hf : stable ?f |- ?f (set_stdout _ _) = _ => apply (stable_stdout f Hf)
  | Hf : stable ?f |- ?f (set_history _ _) = _ => apply (stable_history f Hf)
  | Hf : stable ?f |- ?f (set_langgraph_agent _ _) = _ => apply (stable_agent f Hf)
  | Hf : stable ?f |- ?f (set_tool_cache _ _) = _ => apply (stable_tool_cache f Hf)
  | Hc : forall c s, ?f (set_response_cache c s) = ?f s |- _ => apply Hc
  end.

(** Steps through a handler, one construct of the monad at a time. *)
Ltac frame :=
  repeat first
    [ match goal with
      | |- preserves _ _ => fail 1
      | |- forall _, _ => intro
      end
    | match goal with |- preserves _ (let _ := _ in _) => cbv zeta end
    | apply preserves_mapM
    | apply preserves_time_time; assumption
    | apply preserves_send_response; assumption
    | apply preserves_call_execute_tool; assumption
    | apply preserves_agent_run_sync; assumption
    | match goal with
      | |- preserves _ (match ?x with _ => _ end) => destruct x
      end
    | apply preserves_ret | apply preserves_raise | apply preserves_get
    | apply preserves_lift
    | apply preserves_modify; frame_setter
    | apply preserves_bind | apply preserves_try_except ].

Lemma preserves_handle_langgraph_tool {A} (f : UnifiedMCPServer -> A)
    tool_name arguments request_id :
  stable f -> preserves f (_handle_langgraph_tool tool_name arguments request_id).
Proof.
  intros Hf. unfold _handle_langgraph_tool, agent_for, _get_langgraph_agent,
    send_result, send_error.
  frame.
Qed.

Lemma preserves_handle_tools_list {A} (f : UnifiedMCPServer -> A) request_id :
  stable f -> preserves f (handle_tools_list request_id).
Proof.
  intros Hf. unfold handle_tools_list, _get_tool_schema_enhanced, send_result.
  frame.
Qed.

Lemma preserves_handle_tools_call {A} (f : UnifiedMCPServer -> A) params request_id :
  stable f -> (forall c s, f (set_response_cache c s) = f s) ->
  preserves f (handle_tools_call params request_id).
Proof.
  intros Hf Hcache.
  unfold handle_tools_call, execute_and_respond, send_result, send_error.
  frame.
Qed.

Lemma stable_initialized : stable initialized.
Proof. by split. Qed.

Lemma stable_response_cache : stable _response_cache.
Proof. by split. Qed.

Lemma stable_registry : stable registry.
Proof. by split. Qed.

(** *** Direct tool calls *)

(** [handle_tools_call] on an ordinary tool name: the cache lookup, then
    either the cached result or the execution. *)
Lemma handle_tools_call_ordinary (tool_name : string) (arguments : Args)
    (request_id : option JSON) (s : UnifiedMCPServer) :
  tool_name <> "" ->
  String.prefix "langgraph_" tool_name = false ->
  handle_tools_call
    {| params_name := Some tool_name; params_arguments := Some arguments |}
    request_id s =
  match _response_cache s !! response_cache_key tool_name arguments with
  | Some (cached_time, cached_result) =>
      if cache_entry_is_fresh (clock s (ticks s)) cached_time
      then (Return tt,
            set_stdout (stdout s ++ [result_response request_id cached_result])
              (set_ticks (S (ticks s)) s))
      else execute_and_respond tool_name arguments
             (response_cache_key tool_name arguments) request_id
             (set_ticks (S (ticks s)) s)
  | None =>
      execute_and_respond tool_name arguments
        (response_cache_key tool_name arguments) request_id s
  end.
Proof.
  intros Hname Hprefix. unfold handle_tools_call.
  cbn [params_name params_arguments default from_option id].
  apply String.eqb_neq in Hname. rewrite Hname, Hprefix.
  unfold bind at 1, get.
  destruct (_response_cache s !! response_cache_key tool_name arguments)
    as [[cached_time cached_result]|]; [|done].
  unfold bind at 1, time_time.
  by destruct (cache_entry_is_fresh (clock s (ticks s)) cached_time).
Qed.

Lemma handle_tools_call_langgraph (tool_name : string) (arguments : Args)
    (request_id : option JSON) (s : UnifiedMCPServer) :
  tool_name <> "" ->
  String.prefix "langgraph_" tool_name = true ->
  handle_tools_call
    {| params_name := Some tool_name; params_arguments := Some arguments |}
    request_id s =
  if langgraph_enabled s
  then _handle_langgraph_tool tool_name arguments request_id s
  else (Return tt,
        set_stdout
          (stdout s ++
           [error_response request_id (-32001)
              "LangGraph not available. Install with: pip install langgraph langchain"])
          s).
Proof.
  intros Hname Hprefix. unfold handle_tools_call.
  cbn [params_name params_arguments default from_option id].
  apply String.eqb_neq in Hname. rewrite Hname, Hprefix.
  unfold bind at 1, get. by destruct (langgraph_enabled s).
Qed.

Lemma execute_and_respond_failure (tool_name : string) (arguments kwargs : Args)
    (cache_key : string) (request_id : option JSON) (s : UnifiedMCPServer)
    (error : string) (h : list Invocation) :
  bind_kwargs arguments = Return kwargs ->
  execute_tool (registry s) tool_name kwargs (history s) = (Return (Failure error), h) ->
  execute_and_respond tool_name arguments cache_key request_id s =
    (Return tt,
     set_stdout (stdout s ++ [error_response request_id (-32000) error])
       (set_history h s)).
Proof.
  intros Hbind Hexec. unfold execute_and_respond, call_execute_tool, bind.
  by rewrite Hbind, Hexec.
Qed.

Lemma execute_and_respond_success (tool_name : string) (arguments kwargs : Args)
    (cache_key : string) (request_id : option JSON) (s : UnifiedMCPServer)
    (result : JSON) (h : list Invocation) :
  bind_kwargs arguments = Return kwargs ->
  execute_tool (registry s) tool_name kwargs (history s) = (Return (Success result), h) ->
  execute_and_respond tool_name arguments cache_key request_id s =
    (Return tt,
     set_stdout
       (stdout s ++ [result_response request_id (text_content (json_dumps_compact result))])
       (set_response_cache
          (<[cache_key := (clock s (ticks s), text_content (json_dumps_compact result))]>
             (_response_cache s))
          (set_ticks (S (ticks s)) (set_history h s)))).
Proof.
  intros Hbind Hexec. unfold execute_and_respond, call_execute_tool, bind.
  by rewrite Hbind, Hexec.
Qed.

Lemma execute_and_respond_interrupted (tool_name : string) (arguments kwargs : Args)
    (cache_key : string) (request_id : option JSON) (s : UnifiedMCPServer)
    (e : PyExn) (h : list Invocation) :
  bind_kwargs arguments = Return kwargs ->
  execute_tool (registry s) tool_name kwargs (history s) = (Raise e, h) ->
  execute_and_respond tool_name arguments cache_key request_id s =
    (Raise e, set_history h s).
Proof.
  intros Hbind Hexec. unfold execute_and_respond, call_execute_tool, bind.
  by rewrite Hbind, Hexec.
Qed.

Lemma execute_and_respond_unbound_kwargs (tool_name : string) (arguments : Args)
    (cache_key : string) (request_id : option JSON) (s : UnifiedMCPServer) (e : PyExn) :
  bind_kwargs arguments = Raise e ->
  execute_and_respond tool_name arguments cache_key request_id s = (Raise e, s).
Proof.
  intros Hbind. unfold execute_and_respond, call_execute_tool, bind.
  by rewrite Hbind.
Qed.

Lemma bind_kwargs_returns (arguments kwargs : Args) :
  bind_kwargs arguments = Return kwargs -> kwargs = arguments.
Proof.
  unfold bind_kwargs. destruct (find _ arguments); [done|]. by intros [= ->].
Qed.



(** Sorting by key forgets the order in which the items were given: two
    argument objects with the same items, each key once, have one canonical
    form and so one cache key. *)
Lemma item_le_transitive {V} : Transitive (@item_le V).
Proof. intros x y z. unfold item_le. apply transitivity. Qed.

Lemma item_le_total {V} : Total (@item_le V).
Proof. intros x y. unfold item_le. apply total, _. Qed.

Lemma same_key_same_item {V} (d : Dict V) (x y : string * V) :
  NoDup (d.*1) -> x ∈ d -> y ∈ d -> x.1 = y.1 -> x = y.
Proof.
  induction d as [|z d IH]; [by intros _ ?%elem_of_nil|].
  rewrite fmap_cons, NoDup_cons. intros [Hz Hd] Hx Hy Hk.
  apply elem_of_cons in Hx as [->|Hx], Hy as [->|Hy]; auto.
  - exfalso. apply Hz. rewrite Hk. by apply list_elem_of_fmap_2.
  - exfalso. apply Hz. rewrite <- Hk. by apply list_elem_of_fmap_2.
Qed.

Lemma sort_items_order_independent {V} (d1 d2 : Dict V) :
  NoDup (d1.*1) -> d1 ≡ₚ d2 -> sort_items d1 = sort_items d2.
Proof.
  intros Hnodup Hperm. unfold sort_items.
  pose proof (@item_le_transitive V). pose proof (@item_le_total V).
  apply (StronglySorted_unique_strong item_le).
  - intros x y Hx Hy Hxy Hyx.
    rewrite merge_sort_Permutation in Hx, Hy. rewrite <- Hperm in Hy.
    apply (same_key_same_item d1); [done..|].
    unfold item_le in *. by apply (anti_symm String.le).
  - by apply StronglySorted_merge_sort.
  - by apply StronglySorted_merge_sort.
  - by rewrite !merge_sort_Permutation.
Qed.

Lemma reordered_arguments_share_cache_key (tool_name : string) (a1 a2 : Args) :
  NoDup (a1.*1) -> a1 ≡ₚ a2 ->
  canonical_args a1 = canonical_args a2 /\
  response_cache_key tool_name a1 = response_cache_key tool_name a2.
Proof.
  intros Hnodup Hperm.
  assert (Hcanon : canonical_args a1 = canonical_args a2).
  { unfold canonical_args. apply sort_items_order_independent.
    - by rewrite <- list_fmap_compose.
    - by rewrite Hperm. }
  split; [done|]. unfold response_cache_key. by rewrite Hcanon.
Qed.




(** A computation that ran: what came of it and the state it left. *)
Lemma run_result {A} (m : M A) (s : UnifiedMCPServer) : m s = ((m s).1, (m s).2).
Proof. by destruct (m s). Qed.


(** C4: a direct [tools/call] that reaches execution and whose outcome is a
    Failure is answered with error code -32000 carrying the failure message,
    and the response cache is afterwards what it was before. *)
Theorem failure_is_reported_and_not_cached (tool_name : string)
    (arguments kwargs : Args) (request_id : option JSON) (s : UnifiedMCPServer)
    (error : string) (h : list Invocation) :
  tool_name <> "" ->
  String.prefix "langgraph_" tool_name = false ->
  live_entry s (response_cache_key tool_name arguments) = None ->
  bind_kwargs arguments = Return kwargs ->
  execute_tool (registry s) tool_name kwargs (history s) = (Return (Failure error), h) ->
  exists s',
    handle_tools_call
      {| params_name := Some tool_name; params_arguments := Some arguments |}
      request_id s = (Return tt, s') /\
    stdout s' = stdout s ++ [error_response request_id (-32000) error] /\
    _response_cache s' = _response_cache s.
Proof.
  intros Hname Hprefix Hlive Hbind Hexec.
  rewrite handle_tools_call_ordinary by done.
  unfold live_entry in Hlive.
  destruct (_response_cache s !! response_cache_key tool_name arguments)
    as [[cached_time cached_result]|].
  - destruct (cache_entry_is_fresh (clock s (ticks s)) cached_time); [done|].
    erewrite execute_and_respond_failure; [|exact Hbind|exact Hexec].
    eexists. split; [reflexivity|]. done.
  - erewrite execute_and_respond_failure; [|exact Hbind|exact Hexec].
    eexists. split; [reflexivity|]. done.
Qed.

(** C5 (as the code has it): for a name with no bound implementation
    [execute_tool] returns, without calling anything, the Failure whose
    message is the name between ["Tool '"] and ["' not implemented"]; and a
    [tools/call] naming such a tool, when the name is an ordinary one
    (neither empty nor prefixed [langgraph_]), the arguments bind and no live
    cache entry answers first, is answered with error -32000 and that
    message, with no implementation called and nothing cached. *)
Theorem unbound_tool_fails (reg : ToolRegistry) (tool_name : string) :
  get_tool_implementation reg tool_name = None ->
  (forall kwargs h,
     execute_tool reg tool_name kwargs h =
       (Return (Failure ("Tool '" +:+ tool_name +:+ "' not implemented")), h)) /\
  (forall s arguments kwargs request_id,
     registry s = reg ->
     tool_name <> "" ->
     String.prefix "langgraph_" tool_name = false ->
     live_entry s (response_cache_key tool_name arguments) = None ->
     bind_kwargs arguments = Return kwargs ->
     exists s',
       handle_tools_call
         {| params_name := Some tool_name; params_arguments := Some arguments |}
         request_id s = (Return tt, s') /\
       stdout s' =
         stdout s ++ [error_response request_id (-32000)
                        ("Tool '" +:+ tool_name +:+ "' not implemented")] /\
       history s' = history s /\
       _response_cache s' = _response_cache s).
Proof.
  intros Hunbound.
  assert (Hexec : forall kwargs h,
            execute_tool reg tool_name kwargs h =
              (Return (Failure ("Tool '" +:+ tool_name +:+ "' not implemented")), h)).
  { intros kwargs h. unfold execute_tool. by rewrite Hunbound. }
  split; [exact Hexec|].
  intros s arguments kwargs request_id <- Hname Hprefix Hlive Hbind.
  rewrite handle_tools_call_ordinary by done.
  unfold live_entry in Hlive.
  destruct (_response_cache s !! response_cache_key tool_name arguments)
    as [[cached_time cached_result]|].
  - destruct (cache_entry_is_fresh (clock s (ticks s)) cached_time); [done|].
    erewrite execute_and_respond_failure; [|exact Hbind|apply Hexec].
    eexists. split; [reflexivity|]. done.
  - erewrite execute_and_respond_failure; [|exact Hbind|apply Hexec].
    eexists. split; [reflexivity|]. done.
Qed.

(** A name that is not in the catalog gets no implementation bound. *)
Lemma absent_from_catalog_is_unbound (schema_tools : list ToolDef)
    (pkg : xcode_tools.package) (tool_name : string) :
  dict_mem tool_name (tools (ToolRegistry_init schema_tools pkg)) = false ->
  get_tool_implementation (ToolRegistry_init schema_tools pkg) tool_name = None.
Proof.
  unfold get_tool_implementation, ToolRegistry_init, _load_implementations.
  cbn [implementations tools]. intros Habsent.
  rewrite bind_modules_lookup, lookup_empty.
  assert (Hnone : forall modules,
            first_match_binding (_load_tool_definitions schema_tools) modules tool_name
            = None).
  { induction modules as [|m modules IH]; [done|]. simpl.
    unfold public_tool_name. rewrite Habsent, andb_false_r.
    by destruct (m !! tool_name) as [[f|]|]. }
  by rewrite Hnone.
Qed.




(** Between two such calls: no request changes the registry, and a request
    other than a direct call under the same key leaves the entry in place. *)
Lemma handle_request_keeps_registry (request : Request) (s : UnifiedMCPServer) :
  registry (handle_request request s).2 = registry s.
Proof.
  unfold handle_request.
  destruct (is_method (req_method request) "initialize"); [done|].
  destruct (is_method (req_method request) "tools/list").
  { unfold bind at 1, get. destruct (negb (initialized s)); [done|].
    apply preserves_handle_tools_list, stable_registry. }
  destruct (is_method (req_method request) "tools/call").
  { unfold bind at 1, get. destruct (negb (initialized s)); [done|].
    apply preserves_handle_tools_call; [apply stable_registry|done]. }
  by destruct (is_method (req_method request) "notifications/initialized").
Qed.

Lemma other_call_keeps_entry (tool_name : string) (arguments : Args)
    (request_id : option JSON) (s : UnifiedMCPServer) (cache_key : string) :
  response_cache_key tool_name arguments <> cache_key ->
  _response_cache
    (handle_tools_call
       {| params_name := Some tool_name; params_arguments := Some arguments |}
       request_id s).2 !! cache_key
  = _response_cache s !! cache_key.
Proof.
  intros Hother.
  assert (Hstable : stable (fun s => _response_cache s !! cache_key)) by by split.
  destruct (String.eqb tool_name "") eqn:Hname.
  { unfold handle_tools_call. cbn [params_name default from_option id].
    by rewrite Hname. }
  apply String.eqb_neq in Hname.
  destruct (String.prefix "langgraph_" tool_name) eqn:Hprefix.
  { rewrite handle_tools_call_langgraph by done.
    destruct (langgraph_enabled s); [|done].
    by apply (preserves_handle_langgraph_tool (fun s => _response_cache s !! cache_key)). }
  rewrite handle_tools_call_ordinary by done.
  assert (Hexec : forall s0,
            _response_cache
              (execute_and_respond tool_name arguments
                 (response_cache_key tool_name arguments) request_id s0).2 !! cache_key
            = _response_cache s0 !! cache_key).
  { intros s0.
    destruct (bind_kwargs arguments) as [kwargs|e] eqn:Hbind.
    2: { by rewrite (execute_and_respond_unbound_kwargs _ _ _ _ _ e Hbind). }
    destruct (execute_tool (registry s0) tool_name kwargs (history s0))
      as [[[result|error]|e] h] eqn:Hexec.
    - rewrite (execute_and_respond_success _ _ _ _ _ _ _ _ Hbind Hexec).
      cbn [snd _response_cache set_stdout set_response_cache set_ticks set_history].
      by rewrite lookup_insert_ne.
    - by rewrite (execute_and_respond_failure _ _ _ _ _ _ _ _ Hbind Hexec).
    - by rewrite (execute_and_respond_interrupted _ _ _ _ _ _ _ _ Hbind Hexec). }
  destruct (_response_cache s !! response_cache_key tool_name arguments)
    as [[cached_time cached_result]|]; [|apply Hexec].
  destruct (cache_entry_is_fresh (clock s (ticks s)) cached_time); [done|].
  by rewrite Hexec.
Qed.

(** *** The session lifecycle *)

Lemma handle_initialize_initializes (request_id : option JSON) (s : UnifiedMCPServer) :
  initialized (handle_initialize request_id s).2 = true.
Proof. reflexivity. Qed.

Lemma handle_request_keeps_initialized (request : Request) (s : UnifiedMCPServer) :
  initialized s = true -> initialized (handle_request request s).2 = true.
Proof.
  intros Hinit. unfold handle_request.
  destruct (is_method (req_method request) "initialize");
    [apply handle_initialize_initializes|].
  destruct (is_method (req_method request) "tools/list").
  { unfold bind at 1, get. rewrite Hinit. cbn [negb].
    rewrite preserves_handle_tools_list; [done|apply stable_initialized]. }
  destruct (is_method (req_method request) "tools/call").
  { unfold bind at 1, get. rewrite Hinit. cbn [negb].
    rewrite preserves_handle_tools_call; [done|apply stable_initialized|done]. }
  destruct (is_method (req_method request) "notifications/initialized"); done.
Qed.

Lemma run_line_keeps_initialized (line : Line) (s : UnifiedMCPServer) :
  initialized s = true -> initialized (run_line line s).2 = true.
Proof.
  intros Hinit. destruct line as [|why|request]; try done.
  unfold run_line, try_except.
  pose proof (handle_request_keeps_initialized request s Hinit) as Hkeep.
  destruct (handle_request request s) as [[[]|e] s']; [done|].
  by destruct (is_Exception e).
Qed.

Lemma run_loop_keeps_initialized (lines : list Line) (s : UnifiedMCPServer) :
  initialized s = true -> initialized (run_loop lines s).2 = true.
Proof.
  revert s. induction lines as [|line lines IH]; intros s Hinit; [done|].
  simpl. unfold bind.
  pose proof (run_line_keeps_initialized line s Hinit) as Hkeep.
  destruct (run_line line s) as [[[]|e] s']; [by apply IH|done].
Qed.

Lemma run_keeps_initialized (lines : list Line) (s : UnifiedMCPServer) :
  initialized s = true -> initialized (run lines s).2 = true.
Proof.
  intros Hinit. unfold run.
  pose proof (run_loop_keeps_initialized lines s Hinit) as Hkeep.
  destruct (run_loop lines s) as [[[]|e] s']; [done|].
  by destruct (exn_base e).
Qed.

(** C6: while the session is uninitialized, [tools/list] and [tools/call]
    are answered with error -32002 and nothing but the written response
    changes; no request other than [initialize] makes the session
    initialized, [initialize] does, and once initialized the session stays
    so, after any request and any sequence of input lines. *)
Theorem session_lifecycle (request : Request) (s : UnifiedMCPServer) :
  (initialized s = false ->
   is_method (req_method request) "tools/list" = true
     \/ is_method (req_method request) "tools/call" = true ->
   handle_request request s =
     (Return tt,
      set_stdout
        (stdout s ++ [error_response (req_id request) (-32002) "Server not initialized"])
        s)) /\
  (initialized s = false ->
   is_method (req_method request) "initialize" = false ->
   initialized (handle_request request s).2 = false) /\
  (is_method (req_method request) "initialize" = true ->
   initialized (handle_request request s).2 = true) /\
  (initialized s = true -> initialized (handle_request request s).2 = true) /\
  (forall lines, initialized s = true -> initialized (run lines s).2 = true).
Proof.
  repeat split.
  - intros Hinit Hmethod. unfold handle_request.
    destruct (req_method request) as [m|]; [|by destruct Hmethod]. simpl in Hmethod |- *.
    destruct (String.eqb m "initialize") eqn:E1.
    { apply String.eqb_eq in E1. subst m. by destruct Hmethod. }
    destruct (String.eqb m "tools/list") eqn:E2.
    { unfold bind, get. by rewrite Hinit. }
    destruct (String.eqb m "tools/call") eqn:E3; [|by destruct Hmethod].
    unfold bind, get. by rewrite Hinit.
  - intros Hinit Hmethod. unfold handle_request. rewrite Hmethod.
    destruct (is_method (req_method request) "tools/list").
    { unfold bind, get. by rewrite Hinit. }
    destruct (is_method (req_method request) "tools/call").
    { unfold bind, get. by rewrite Hinit. }
    by destruct (is_method (req_method request) "notifications/initialized").
  - intros Hmethod. unfold handle_request. rewrite Hmethod.
    apply handle_initialize_initializes.
  - apply handle_request_keeps_initialized.
  - intros lines. apply run_keeps_initialized.
Qed.

(** *** Orchestration calls *)

(** What keeps an agent from being made is always an [Exception]. *)
Lemma create_langgraph_agent_raises_Exception (registry : ToolRegistry) (model : JSON)
    (system_prompt : option string) (e : PyExn) :
  create_langgraph_agent registry model system_prompt = Raise e ->
  is_Exception e = true.
Proof.
  unfold create_langgraph_agent.
  destruct (negb LANGGRAPH_AVAILABLE); [by intros [= <-]|].
  destruct model as [| | |model| |]; try by intros [= <-].
  destruct (_create_llm model) as [llm|e'] eqn:Hllm; [done|].
  intros [= <-]. revert Hllm. unfold _create_llm.
  destruct (default ("ollama", model) (split_colon model)) as [provider model_name].
  repeat first
    [ match goal with
      | |- context [if ?b then _ else _] => destruct b
      | |- context [match getenv ?k with _ => _ end] => destruct (getenv k)
      end
    | by intros [= <-]
    | done ].
Qed.

(** Getting the agent changes nothing but, possibly, the agent singleton. *)
Lemma agent_for_state (model persona_config : JSON) (s s0 : UnifiedMCPServer)
    (r : PyResult XcodeLangGraphAgent) :
  agent_for model persona_config s = (r, s0) ->
  s0 = s \/ exists a, s0 = set_langgraph_agent (Some a) s.
Proof.
  unfold agent_for, _get_langgraph_agent, try_except, bind, get, lift, ret, raise, modify.
  destruct (truthy persona_config).
  - destruct (persona_prompt persona_config); [|intros [= _ <-]; by left].
    destruct (create_langgraph_agent _ _ _); intros [= _ <-]; by left.
  - destruct (_langgraph_agent s); [intros [= _ <-]; by left|].
    destruct (langgraph_enabled s); [|intros [= _ <-]; by left].
    destruct (create_langgraph_agent (registry s) model None) as [a|e];
      [intros [= _ <-]; right; eauto|].
    destruct (is_Exception e); intros [= _ <-]; by left.
Qed.

(** A [langgraph_agent] call of the stdio server whose run raises an
    [Exception], for whatever reason: the handler of [except Exception]
    answers with -32000 and the exception's text. *)
Lemma langgraph_agent_call_raises (arguments : Args) (prompt : JSON)
    (request_id : option JSON) (s s0 : UnifiedMCPServer) (a : XcodeLangGraphAgent)
    (e : PyExn) (h : list Invocation) :
  langgraph_enabled s = true ->
  event_loop_running s = false ->
  dict_get "prompt" arguments = Some prompt ->
  truthy prompt = true ->
  agent_for (default (JStr "ollama:qwen3-coder:30b") (dict_get "model" arguments))
    (default JNull (dict_get "persona" arguments)) s = (Return a, s0) ->
  run_sync a prompt (history s) = (Raise e, h) ->
  is_Exception e = true ->
  handle_tools_call
    {| params_name := Some "langgraph_agent"; params_arguments := Some arguments |}
    request_id s =
  (Return tt,
   set_stdout
     (stdout s ++
      [error_response request_id (-32000) ("Tool execution failed: " +:+ exn_str e)])
     (set_history h s0)).
Proof.
  intros Henabled Hloop Hprompt Htruthy Hagent Hrun He.
  rewrite handle_tools_call_langgraph by done. rewrite Henabled.
  unfold _handle_langgraph_tool, try_except.
  rewrite String.eqb_refl, Hprompt.
  cbn [default from_option id]. rewrite Htruthy. cbn [negb].
  unfold bind at 1. rewrite Hagent.
  unfold bind at 1, agent_run_sync, asyncio_run.
  destruct (agent_for_state _ _ _ _ _ Hagent) as [->|[a' ->]];
    cbn [history stdout event_loop_running set_langgraph_agent];
    by rewrite Hloop, Hrun, He.
Qed.

(** C2 (as the code has it): when the reasoning function fails with an
    [Exception], at its first turn or after any number of Act steps, the run
    stops there with the exception, without another tool call; the
    dispatcher of the stdio server answers the [langgraph_agent] call with
    error -32000 and the exception's text, and the messages and tool results
    gathered up to then are not part of the answer. *)
Theorem reasoning_failure_drops_state (a : XcodeLangGraphAgent) (arguments : Args)
    (prompt : JSON) (request_id : option JSON) (s s0 : UnifiedMCPServer) (k : nat)
    (state : AgentState) (h : list Invocation) (e : PyExn) :
  langgraph_enabled s = true ->
  event_loop_running s = false ->
  dict_get "prompt" arguments = Some prompt ->
  truthy prompt = true ->
  valid_message_content prompt = true ->
  agent_for (default (JStr "ollama:qwen3-coder:30b") (dict_get "model" arguments))
    (default JNull (dict_get "persona" arguments)) s = (Return a, s0) ->
  graph_steps k a node_agent
    {| messages := [HumanMessage prompt]; tool_results := [];
       current_task := prompt; context := [] |} (history s)
  = Goto node_agent state h ->
  llm_with_tools a (messages state) = Raise e ->
  is_Exception e = true ->
  (k < recursion_limit)%nat ->
  run_sync a prompt (history s) = (Raise e, h) /\
  handle_tools_call
    {| params_name := Some "langgraph_agent"; params_arguments := Some arguments |}
    request_id s =
  (Return tt,
   set_stdout
     (stdout s ++
      [error_response request_id (-32000) ("Tool execution failed: " +:+ exn_str e)])
     (set_history h s0)).
Proof.
  intros Henabled Hloop Hprompt Htruthy Hvalid Hagent Hreach Hfail He Hlt.
  pose proof (reasoning_failure_stops_run a prompt k state (history s) h e
                Hreach Hfail Hlt Hvalid) as Hrun.
  split; [exact Hrun|].
  by apply (langgraph_agent_call_raises arguments prompt _ s s0 a).
Qed.

(** C8: every run is over after [recursion_limit] node executions, the
    bound of the LangGraph runtime under which [run] invokes the graph.
    Whatever the reasoning function, by then the graph has reached [END],
    or a node has raised, or, the bound being exceeded, the run is cut off
    with [GraphRecursionError], an [Exception]: no agent state comes back,
    and the dispatcher of the stdio server answers the [langgraph_agent]
    call with error -32000 and the text of that exception.  With a reasoning
    function that requests a tool call on every turn, and tools that raise
    [Exception]s only, this last case is the one that occurs. *)
Theorem run_is_cut_off_at_the_recursion_limit (a : XcodeLangGraphAgent)
    (arguments : Args) (prompt : JSON) (request_id : option JSON)
    (s s0 : UnifiedMCPServer) :
  langgraph_enabled s = true ->
  event_loop_running s = false ->
  dict_get "prompt" arguments = Some prompt ->
  truthy prompt = true ->
  valid_message_content prompt = true ->
  agent_for (default (JStr "ollama:qwen3-coder:30b") (dict_get "model" arguments))
    (default JNull (dict_get "persona" arguments)) s = (Return a, s0) ->
  match graph_steps recursion_limit a node_agent
          {| messages := [HumanMessage prompt]; tool_results := [];
             current_task := prompt; context := [] |} (history s) with
  | Finished state h => run_sync a prompt (history s) = (Return state, h)
  | Raised e h => run_sync a prompt (history s) = (Raise e, h)
  | Goto _ _ h =>
      run_sync a prompt (history s) = (Raise GraphRecursionError, h) /\
      is_Exception GraphRecursionError = true /\
      handle_tools_call
        {| params_name := Some "langgraph_agent"; params_arguments := Some arguments |}
        request_id s =
      (Return tt,
       set_stdout
         (stdout s ++
          [error_response request_id (-32000)
             ("Tool execution failed: " +:+ recursion_limit_message)])
         (set_history h s0))
  end /\
  (keeps_calling a ->
   tools_raise_Exceptions_only (agent_tools a) ->
   exists node state h,
     graph_steps recursion_limit a node_agent
       {| messages := [HumanMessage prompt]; tool_results := [];
          current_task := prompt; context := [] |} (history s)
     = Goto node state h).
Proof.
  intros Henabled Hloop Hprompt Htruthy Hvalid Hagent. split.
  - pose proof (run_sync_outcome a prompt (history s) Hvalid) as Hrun.
    destruct (graph_steps recursion_limit a node_agent _ (history s))
      as [node state h|state h|e h]; [|done|done].
    split; [done|]. split; [done|].
    by apply (langgraph_agent_call_raises arguments prompt _ s s0 a _ _
                Henabled Hloop Hprompt Htruthy Hagent Hrun).
  - intros Hcalls Hsafe. by apply keeps_calling_never_ends.
Qed.

End Dispatcher.

Section DispatcherInstances.
#[local] Existing Instance Demo.platform.

(** The tools of the demo agent raise [Exception]s only. *)
Lemma demo_tools_raise_Exceptions_only :
  tools_raise_Exceptions_only (_create_tools Demo.registry).
Proof.
  split.
  - intros tool_args e. cbn [tool_input_kwargs Demo.platform]. unfold Demo.wrapper_kwargs.
    by destruct (dict_get "kwargs" tool_args).
  - assert (Htools : _create_tools Demo.registry =
              [ make_tool "list_projects" (Demo.impl_returning (JList [])) "Runs list_projects";
                make_tool "check_xcode_cli"
                  (Demo.impl_returning (JDict [("installed", JBool true)]))
                  "Runs check_xcode_cli";
                make_tool "build_project" (Demo.impl_raising "xcodebuild failed")
                  "Runs build_project";
                make_tool "boot_simulator" Demo.boot_enhanced "Runs boot_simulator" ]).
    { vm_compute. reflexivity. }
    rewrite Htools.
    repeat apply Forall_cons_2; [| | | |apply Forall_nil_2];
      intros history kwargs e; cbn; by intros [= <-].
Qed.

(** C2 fails as stated: the model asks for a call of [tool_wrapper], the
    tool runs [list_projects], and the model fails on its next turn.  At
    that point the state of the run holds three messages and one tool
    result.  The run ends with the exception, and the answer to the caller
    is an error object with a code and a message: the messages and the tool
    result gathered so far are gone. *)
Lemma failed_reasoning_returns_no_state :
  (exists state,
     graph_steps 2 (Demo.agent "fails_later") node_agent
       (Demo.initial_state "list my projects") []
     = Goto node_agent state [("list_projects", [])] /\
     messages state =
       [ HumanMessage (JStr "list my projects");
         AIMessage (JStr "") [Demo.call "tool_wrapper" "c1"] [];
         ToolMessage "[]" "c1" ] /\
     tool_results state = [ToolSucceeded "tool_wrapper" "[]"]) /\
  run_sync (Demo.agent "fails_later") (JStr "list my projects") []
  = (Raise (Demo.ConnectionError "connection refused"), [("list_projects", [])]) /\
  stdout (handle_tools_call
            (Demo.tools_call "langgraph_agent"
               [("prompt", JStr "list my projects");
                ("model", JStr "ollama:fails_later")])
            (Some (JInt 1)) (Demo.server true)).2
  = [error_response (Some (JInt 1)) (-32000)
       "Tool execution failed: connection refused"].
Proof.
  split; [|split; vm_compute; reflexivity].
  eexists. split; [vm_compute; reflexivity|]. split; reflexivity.
Qed.

Lemma reasoning_failure_drops_state_witness :
  handle_tools_call
    (Demo.tools_call "langgraph_agent"
       [("prompt", JStr "list my projects"); ("model", JStr "ollama:fails_later")])
    (Some (JInt 1)) (Demo.server true)
  = (Return tt,
     set_stdout
       [error_response (Some (JInt 1)) (-32000)
          "Tool execution failed: connection refused"]
       (set_history [("list_projects", [])]
          (set_langgraph_agent (Some (Demo.agent "fails_later")) (Demo.server true)))).
Proof.
  refine (proj2 (reasoning_failure_drops_state (Demo.agent "fails_later")
                   [("prompt", JStr "list my projects");
                    ("model", JStr "ollama:fails_later")]
                   (JStr "list my projects") (Some (JInt 1))
                   (Demo.server true)
                   (set_langgraph_agent (Some (Demo.agent "fails_later"))
                      (Demo.server true))
                   2 _ [("list_projects", [])]
                   (Demo.ConnectionError "connection refused")
                   _ _ _ _ _ _ _ _ _ _));
    try reflexivity.
  all: cbv [recursion_limit Demo.platform]; lia.
Defined.

(** C8 on the demo server: the model asks for a call of [tool_wrapper] on
    every turn.  After the 25 node executions the runtime allows, thirteen
    turns of the model and twelve runs of [list_projects], the call ends with
    the runtime's exception, reported as -32000. *)
Lemma run_is_cut_off_at_the_recursion_limit_witness :
  keeps_calling (Demo.agent "looping") /\
  handle_tools_call
    (Demo.tools_call "langgraph_agent"
       [("prompt", JStr "list my projects"); ("model", JStr "ollama:looping")])
    (Some (JInt 1)) (Demo.server true)
  = (Return tt,
     set_stdout
       [error_response (Some (JInt 1)) (-32000)
          "Tool execution failed: Recursion limit of 25 reached without hitting a stop condition."]
       (set_history (replicate 12 ("list_projects", []))
          (set_langgraph_agent (Some (Demo.agent "looping")) (Demo.server true)))).
Proof.
  assert (Hcalls : keeps_calling (Demo.agent "looping")).
  { intros msgs. by repeat eexists. }
  split; [exact Hcalls|].
  assert (Hagent :
    agent_for
      (default (JStr "ollama:qwen3-coder:30b")
         (dict_get "model"
            [("prompt", JStr "list my projects"); ("model", JStr "ollama:looping")]))
      (default JNull
         (dict_get "persona"
            [("prompt", JStr "list my projects"); ("model", JStr "ollama:looping")]))
      (Demo.server true)
    = (Return (Demo.agent "looping"),
       set_langgraph_agent (Some (Demo.agent "looping")) (Demo.server true))).
  { vm_compute. reflexivity. }
  destruct (run_is_cut_off_at_the_recursion_limit (Demo.agent "looping")
              [("prompt", JStr "list my projects"); ("model", JStr "ollama:looping")]
              (JStr "list my projects") (Some (JInt 1)) (Demo.server true)
              (set_langgraph_agent (Some (Demo.agent "looping")) (Demo.server true))
              eq_refl eq_refl eq_refl eq_refl eq_refl Hagent)
    as [Hcut Hloops].
  destruct (Hloops Hcalls demo_tools_raise_Exceptions_only) as (node & state & h & Hgo).
  rewrite Hgo in Hcut. destruct Hcut as (_ & _ & Hcall).
  assert (Hh : h = replicate 12 ("list_projects", [])).
  { vm_compute in Hgo. by injection Hgo as _ _ <-. }
  unfold Demo.tools_call. rewrite Hcall, Hh. reflexivity.
Defined.

(** C4 on the demo server: [build_project] raises, the call is answered
    with -32000 and the cache stays empty. *)
Lemma failure_is_reported_and_not_cached_witness :
  exists s',
    handle_tools_call (Demo.tools_call "build_project" [("scheme", JStr "MyApp")])
      (Some (JInt 5)) (Demo.server false) = (Return tt, s') /\
    stdout s' = [error_response (Some (JInt 5)) (-32000) "xcodebuild failed"] /\
    _response_cache s' = ∅.
Proof.
  apply (failure_is_reported_and_not_cached "build_project"
           [("scheme", JStr "MyApp")] [("scheme", JStr "MyApp")] (Some (JInt 5))
           (Demo.server false) "xcodebuild failed"
           [("build_project", [("scheme", JStr "MyApp")])]).
  - discriminate.
  - reflexivity.
  - reflexivity.
  - reflexivity.
  - vm_compute. reflexivity.
Defined.

(** C5 on the demo registry: [does_not_exist] is in no module and not in the
    catalog. *)
Lemma unbound_tool_fails_witness :
  execute_tool Demo.registry "does_not_exist" [("path", JStr "/tmp")] []
  = (Return (Failure "Tool 'does_not_exist' not implemented"), []) /\
  exists s',
    handle_tools_call (Demo.tools_call "does_not_exist" []) (Some (JInt 5))
      (Demo.server false) = (Return tt, s') /\
    stdout s' = [error_response (Some (JInt 5)) (-32000)
                   "Tool 'does_not_exist' not implemented"] /\
    history s' = [] /\
    _response_cache s' = ∅.
Proof.
  assert (Hunbound : get_tool_implementation Demo.registry "does_not_exist" = None).
  { vm_compute. reflexivity. }
  split.
  - exact (proj1 (unbound_tool_fails Demo.registry "does_not_exist" Hunbound) _ _).
  - apply (proj2 (unbound_tool_fails Demo.registry "does_not_exist" Hunbound)
             (Demo.server false) [] [] (Some (JInt 5))).
    + reflexivity.
    + discriminate.
    + reflexivity.
    + reflexivity.
    + reflexivity.
Defined.

(** C5 fails as stated: [langgraph_missing] has no bound implementation and
    is not in the catalog, yet a [tools/call] naming it is answered with
    -32001 when orchestration is off and with -32601 when it is on, because
    the [langgraph_] prefix routes it away from the registry; and a call
    with an empty name is answered with -32602. *)
Lemma unbound_name_answered_with_other_codes :
  get_tool_implementation Demo.registry "langgraph_missing" = None /\
  dict_mem "langgraph_missing" (tools Demo.registry) = false /\
  stdout (handle_tools_call (Demo.tools_call "langgraph_missing" [])
            (Some (JInt 7)) (Demo.server false)).2
  = [error_response (Some (JInt 7)) (-32001)
       "LangGraph not available. Install with: pip install langgraph langchain"] /\
  stdout (handle_tools_call (Demo.tools_call "langgraph_missing" [])
            (Some (JInt 7)) (Demo.server true)).2
  = [error_response (Some (JInt 7)) (-32601)
       "Unknown LangGraph tool: langgraph_missing"] /\
  stdout (handle_tools_call (Demo.tools_call "" []) (Some (JInt 7))
            (Demo.server false)).2
  = [error_response (Some (JInt 7)) (-32602) "Invalid params: tool name required"].
Proof. repeat split; vm_compute; reflexivity. Qed.

(** An argument named like a parameter of [execute_tool] makes the call
    itself raise: the request is answered by the loop of [run] with -32603,
    also for a tool that is not implemented. *)
Lemma clashing_argument_name_raises :
  (handle_tools_call (Demo.tools_call "does_not_exist" [("tool_name", JStr "x")])
     (Some (JInt 7)) (Demo.server false)).1
  = Raise (TypeError
             "ToolRegistry.execute_tool() got multiple values for argument 'tool_name'") /\
  stdout (run [ Parsed (Demo.request "initialize" None 1);
                Parsed (Demo.request "tools/call"
                          (Some (Demo.tools_call "does_not_exist"
                                   [("tool_name", JStr "x")])) 2) ]
            (Demo.server false)).2
  = [ result_response (Some (JInt 1))
        (JDict
           [ ("protocolVersion", JStr "2024-11-05");
             ("capabilities", JDict [("tools", JDict [("listChanged", JBool false)])]);
             ("serverInfo",
              JDict
                [ ("name", JStr "xcode-mcp-unified");
                  ("version", JStr "2.0.0");
                  ("features",
                   JDict
                     [ ("direct_tools", JInt 5);
                       ("langgraph_enabled", JBool false);
                       ("subagentic_tools", JInt 0) ]) ]) ]);
      error_response None (-32603)
        "Internal error: ToolRegistry.execute_tool() got multiple values for argument 'tool_name'" ].
Proof. split; vm_compute; reflexivity. Qed.


(** The other branch of C3, on a server whose clock advances 400 seconds
    per reading: the entry has expired when the second call looks it up, and
    [check_xcode_cli] runs a second time. *)
Lemma repeated_call_after_expiry_runs_again :
  history
    (run [ Parsed (Demo.request "initialize" None 0);
           Parsed (Demo.request "tools/call"
                     (Some (Demo.tools_call "check_xcode_cli" [])) 1);
           Parsed (Demo.request "tools/call"
                     (Some (Demo.tools_call "check_xcode_cli" [])) 2) ]
       (Demo.server_ticking 400 false)).2
  = [("check_xcode_cli", []); ("check_xcode_cli", [])] /\
  history
    (run [ Parsed (Demo.request "initialize" None 0);
           Parsed (Demo.request "tools/call"
                     (Some (Demo.tools_call "check_xcode_cli" [])) 1);
           Parsed (Demo.request "tools/call"
                     (Some (Demo.tools_call "check_xcode_cli" [])) 2) ]
       (Demo.server_ticking 1 false)).2
  = [("check_xcode_cli", [])].
Proof. split; vm_compute; reflexivity. Qed.

(** The test is the one the code makes, in binary64: with the result stored
    under the reading 0.2, the reading 300.2 gives the age 300.0 and the entry
    has expired, so the implementation runs again; the reading 300.1 finds
    the entry alive. *)
Lemma entry_expires_by_the_rounded_age :
  cache_entry_is_fresh 300.2 0.2 = false /\
  cache_entry_is_fresh 300.1 0.2 = true /\
  history
    (run [ Parsed (Demo.request "initialize" None 0);
           Parsed (Demo.request "tools/call"
                     (Some (Demo.tools_call "check_xcode_cli" [])) 1);
           Parsed (Demo.request "tools/call"
                     (Some (Demo.tools_call "check_xcode_cli" [])) 2) ]
       (Demo.server_reading [0.2%float; 300.2%float] false)).2
  = [("check_xcode_cli", []); ("check_xcode_cli", [])] /\
  history
    (run [ Parsed (Demo.request "initialize" None 0);
           Parsed (Demo.request "tools/call"
                     (Some (Demo.tools_call "check_xcode_cli" [])) 1);
           Parsed (Demo.request "tools/call"
                     (Some (Demo.tools_call "check_xcode_cli" [])) 2) ]
       (Demo.server_reading [0.2%float; 300.1%float] false)).2
  = [("check_xcode_cli", [])].
Proof. repeat split; vm_compute; reflexivity. Qed.

(** C6 on the demo server: [tools/list] before [initialize] is refused with
    -32002 and leaves the session uninitialized; the session is initialized
    after [initialize] and stays so. *)
Lemma session_lifecycle_witness :
  handle_request (Demo.request "tools/list" None 1) (Demo.server false)
  = (Return tt,
     set_stdout [error_response (Some (JInt 1)) (-32002) "Server not initialized"]
       (Demo.server false)) /\
  initialized (handle_request (Demo.request "initialize" None 2) (Demo.server false)).2
  = true.
Proof.
  split.
  - apply (proj1 (session_lifecycle (Demo.request "tools/list" None 1)
                    (Demo.server false))); [reflexivity|by left].
  - apply (proj1 (proj2 (proj2 (session_lifecycle (Demo.request "initialize" None 2)
                                  (Demo.server false))))).
    reflexivity.
Defined.

End DispatcherInstances.

(** * Further properties of the registry, the agent and the dispatcher *)

(** ** Dictionaries in insertion order *)

Lemma dict_get_set_eq {V} (k : string) (v : V) (d : Dict V) :
  dict_get k (dict_set k v d) = Some v.
Proof.
  induction d as [|[k' v'] d IH]; simpl.
  - by rewrite String.eqb_refl.
  - destruct (String.eqb k k') eqn:E; simpl.
    + by rewrite String.eqb_refl.
    + by rewrite E.
Qed.

Lemma dict_get_set_ne {V} (k k' : string) (v : V) (d : Dict V) :
  k <> k' -> dict_get k (dict_set k' v d) = dict_get k d.
Proof.
  intros Hne. induction d as [|[k'' v''] d IH]; simpl.
  - apply String.eqb_neq in Hne. by rewrite Hne.
  - destruct (String.eqb k' k'') eqn:E; simpl.
    + apply String.eqb_eq in E. subst k''.
      apply String.eqb_neq in Hne. by rewrite Hne.
    + by rewrite IH.
Qed.

Lemma dict_set_keys {V} (k : string) (v : V) (d : Dict V) (k' : string) :
  k' ∈ (dict_set k v d).*1 <-> k' = k \/ k' ∈ d.*1.
Proof.
  induction d as [|[k'' v''] d IH]; simpl.
  - rewrite elem_of_cons, elem_of_nil. tauto.
  - destruct (String.eqb k k'') eqn:E; simpl.
    + apply String.eqb_eq in E. subst k''. rewrite !elem_of_cons. tauto.
    + rewrite !elem_of_cons, IH. tauto.
Qed.

Lemma dict_set_NoDup {V} (k : string) (v : V) (d : Dict V) :
  NoDup d.*1 -> NoDup (dict_set k v d).*1.
Proof.
  induction d as [|[k' v'] d IH]; simpl; intros Hd.
  - apply NoDup_singleton.
  - apply NoDup_cons in Hd as [Hk' Hd].
    destruct (String.eqb k k') eqn:E; simpl.
    + apply String.eqb_eq in E. subst k'. by apply NoDup_cons.
    + apply NoDup_cons. split; [|by apply IH].
      rewrite dict_set_keys. intros [->|Hin]; [|done].
      by rewrite String.eqb_refl in E.
Qed.

Lemma dict_set_Forall {V} (P : string * V -> Prop) (k : string) (v : V) (d : Dict V) :
  P (k, v) -> Forall P d -> Forall P (dict_set k v d).
Proof.
  intros Hkv. induction d as [|[k' v'] d IH]; simpl; intros Hd.
  - by apply Forall_singleton.
  - apply Forall_cons in Hd as [Hk' Hd].
    destruct (String.eqb k k'); apply Forall_cons; auto.
Qed.

Lemma dict_get_elem_of {V} (k : string) (v : V) (d : Dict V) :
  dict_get k d = Some v -> (k, v) ∈ d.
Proof.
  induction d as [|[k' v'] d IH]; simpl; [done|].
  destruct (String.eqb k k') eqn:E.
  - apply String.eqb_eq in E. intros [= ->]. subst. left.
  - intros Hd. right. by apply IH.
Qed.

Lemma dict_mem_keys {V} (k : string) (d : Dict V) :
  dict_mem k d = true <-> k ∈ d.*1.
Proof.
  unfold dict_mem. induction d as [|[k' v'] d IH]; simpl.
  - rewrite elem_of_nil. split; [discriminate|done].
  - rewrite elem_of_cons. destruct (String.eqb k k') eqn:E.
    + apply String.eqb_eq in E. tauto.
    + apply String.eqb_neq in E. rewrite IH. tauto.
Qed.

(** ** The catalog as the registry loads it *)

(** The loading loop, one definition further. *)
Lemma load_tool_definitions_snoc (schema_tools : list ToolDef) (tool_def : ToolDef) :
  _load_tool_definitions (schema_tools ++ [tool_def]) =
    match td_name tool_def with
    | Some tool_name =>
        if String.eqb tool_name "" then _load_tool_definitions schema_tools
        else dict_set tool_name tool_def (_load_tool_definitions schema_tools)
    | None => _load_tool_definitions schema_tools
    end.
Proof. unfold _load_tool_definitions. by rewrite foldl_app. Qed.

Lemma load_tool_definitions_lookup (schema_tools : list ToolDef) (tool_name : string) :
  tool_name <> "" ->
  dict_get tool_name (_load_tool_definitions schema_tools) =
    last (filter (fun tool_def => td_name tool_def = Some tool_name) schema_tools).
Proof.
  intros Hname.
  induction schema_tools as [|d ds IH] using rev_ind; [done|].
  rewrite load_tool_definitions_snoc, filter_app, filter_cons, filter_nil.
  destruct (decide (td_name d = Some tool_name)) as [Hd|Hd].
  - rewrite Hd. apply String.eqb_neq in Hname. rewrite Hname.
    by rewrite dict_get_set_eq, last_snoc.
  - rewrite app_nil_r, <- IH.
    destruct (td_name d) as [n|]; [|done].
    destruct (String.eqb n "") eqn:E; [done|].
    apply dict_get_set_ne. congruence.
Qed.

Lemma load_tool_definitions_no_empty_name (schema_tools : list ToolDef) :
  dict_get "" (_load_tool_definitions schema_tools) = None.
Proof.
  induction schema_tools as [|d ds IH] using rev_ind; [done|].
  rewrite load_tool_definitions_snoc.
  destruct (td_name d) as [n|]; [|done].
  destruct (String.eqb n "") eqn:E; [done|].
  rewrite dict_get_set_ne; [done|]. apply String.eqb_neq in E. congruence.
Qed.

(** X1: the schema the registry gives for a name is the LAST definition of
    the catalog file that carries the name; the empty name and a name no
    definition carries have none. *)
Theorem catalog_keeps_last_definition (schema_tools : list ToolDef)
    (pkg : xcode_tools.package) (tool_name : string) :
  get_tool_schema (ToolRegistry_init schema_tools pkg) tool_name =
    if String.eqb tool_name "" then None
    else last (filter (fun tool_def => td_name tool_def = Some tool_name) schema_tools).
Proof.
  unfold get_tool_schema, ToolRegistry_init. cbn [tools].
  destruct (String.eqb tool_name "") eqn:E.
  - apply String.eqb_eq in E. subst. apply load_tool_definitions_no_empty_name.
  - apply String.eqb_neq in E. by apply load_tool_definitions_lookup.
Qed.

(** Every entry of the loaded catalog sits under the name it carries, which
    is not empty, and no name is entered twice. *)
Lemma load_tool_definitions_invariant (schema_tools : list ToolDef) :
  NoDup (_load_tool_definitions schema_tools).*1 /\
  Forall (fun kd => td_name kd.2 = Some kd.1 /\ kd.1 <> "")
    (_load_tool_definitions schema_tools).
Proof.
  induction schema_tools as [|d ds [Hnd Hall]] using rev_ind.
  { split; [apply NoDup_nil_2|apply Forall_nil_2]. }
  rewrite load_tool_definitions_snoc.
  destruct (td_name d) as [n|] eqn:Hn; [|done].
  destruct (String.eqb n "") eqn:E; [done|]. split.
  - by apply dict_set_NoDup.
  - apply dict_set_Forall; [|done]. simpl. split; [done|].
    by apply String.eqb_neq.
Qed.

Lemma dict_set_length {V} (k : string) (v : V) (d : Dict V) :
  (length (dict_set k v d) <= S (length d))%nat.
Proof.
  induction d as [|[k' v'] d IH]; simpl; [lia|].
  destruct (String.eqb k k'); simpl; lia.
Qed.

Lemma load_tool_definitions_length (schema_tools : list ToolDef) :
  (length (_load_tool_definitions schema_tools) <= length schema_tools)%nat.
Proof.
  induction schema_tools as [|d ds IH] using rev_ind; [done|].
  rewrite load_tool_definitions_snoc, length_app. simpl.
  destruct (td_name d) as [n|]; [|lia].
  destruct (String.eqb n ""); [lia|].
  pose proof (dict_set_length n d (_load_tool_definitions ds)). lia.
Qed.

Lemma catalog_entry_names (tools : Dict ToolDef) :
  Forall (fun kd => td_name kd.2 = Some kd.1 /\ kd.1 <> "") tools ->
  td_name <$> tools.*2 = Some <$> tools.*1.
Proof.
  induction 1 as [|[k d] l [Hk _] _ IH]; [done|].
  rewrite !fmap_cons. cbn [fst snd] in *. by rewrite Hk, IH.
Qed.

(** X2: the tools a freshly built registry lists all carry a name, none of
    them the empty one, and no two of them carry the same name, whatever the
    catalog file repeats or leaves unnamed. *)
Theorem listed_tools_have_distinct_names (schema_tools : list ToolDef)
    (pkg : xcode_tools.package) :
  let listed := list_tools (ToolRegistry_init schema_tools pkg) in
  NoDup (td_name <$> listed) /\
  Forall (fun tool_def => exists tool_name,
            td_name tool_def = Some tool_name /\ tool_name <> "") listed /\
  (length listed <= length schema_tools)%nat.
Proof.
  unfold list_tools, ToolRegistry_init. cbn [tools].
  destruct (load_tool_definitions_invariant schema_tools) as [Hnd Hall].
  split; [|split].
  - rewrite (catalog_entry_names _ Hall). by apply (NoDup_fmap_2 _).
  - apply Forall_fmap. eapply Forall_impl; [exact Hall|].
    intros [k d] [Hk Hne]. simpl in *. eauto.
  - rewrite length_fmap. apply load_tool_definitions_length.
Qed.

(** X3: what gets bound.  A freshly built registry has an implementation
    for a name exactly when the name is in the catalog, does not start with
    an underscore, and some implementation module exports it as a callable;
    a module attribute that is not callable never counts. *)
Theorem bound_names_are_exported_catalog_names (schema_tools : list ToolDef)
    (pkg : xcode_tools.package) (tool_name : string) :
  is_Some (get_tool_implementation (ToolRegistry_init schema_tools pkg) tool_name) <->
  public_tool_name (_load_tool_definitions schema_tools) tool_name = true /\
  exists module f, module ∈ tool_modules pkg /\ module !! tool_name = Some (Callable f).
Proof.
  unfold get_tool_implementation, ToolRegistry_init, _load_implementations.
  cbn [implementations].
  rewrite bind_modules_lookup, lookup_empty.
  assert (Hgen : forall modules : list PyModule,
            is_Some (first_match_binding (_load_tool_definitions schema_tools)
                       modules tool_name) <->
            public_tool_name (_load_tool_definitions schema_tools) tool_name = true /\
            exists module f, module ∈ modules /\ module !! tool_name = Some (Callable f)).
  { induction modules as [|m ms IH]; simpl.
    - split; [by intros [x Hx]|]. intros (_ & m & f & Hin & _).
      by apply elem_of_nil in Hin.
    - destruct (m !! tool_name) as [[f|]|] eqn:Hm.
      + destruct (public_tool_name _ tool_name) eqn:Hp.
        * split; [|by eauto]. intros _. split; [done|].
          exists m, f. split; [left|done].
        * rewrite IH. split; intros [Hx _]; discriminate.
      + rewrite IH. split; intros (Hp & m' & f & Hin & Hf); split; try done.
        * exists m', f. split; [by right|done].
        * exists m', f. split; [|done].
          apply elem_of_cons in Hin as [->|Hin]; [congruence|done].
      + rewrite IH. split; intros (Hp & m' & f & Hin & Hf); split; try done.
        * exists m', f. split; [by right|done].
        * exists m', f. split; [|done].
          apply elem_of_cons in Hin as [->|Hin]; [congruence|done]. }
  destruct (first_match_binding _ (reverse _) _) eqn:E.
  - split; [|by eauto]. intros _.
    destruct (proj1 (Hgen (reverse (tool_modules pkg)))) as (Hp & m & f & Hin & Hf).
    { by rewrite E. }
    split; [done|]. exists m, f. split; [|done]. by apply elem_of_reverse.
  - split; [by intros [x Hx]|]. intros (Hp & m & f & Hin & Hf).
    assert (Hs : is_Some (first_match_binding (_load_tool_definitions schema_tools)
                            (reverse (tool_modules pkg)) tool_name)).
    { apply Hgen. split; [done|]. exists m, f. split; [|done].
      by apply elem_of_reverse. }
    rewrite E in Hs. by destruct Hs.
Qed.

(** X4: manual registration and execution.  After
    [register_implementation(name, func)] a call of [name] runs [func], on
    any name, in the catalog or not, an earlier binding being replaced.
    The outcome is [func]'s result, or a Failure with the text of the
    exception [func] raised when that is an [Exception]; an exception that
    is none ([KeyboardInterrupt], [SystemExit]) is not caught and leaves
    [execute_tool].  Calls of every other name go as before. *)
Theorem registered_implementation_is_the_one_executed (reg : ToolRegistry)
    (tool_name : string) (func : Impl) (kwargs : Args) (history : list Invocation) :
  execute_tool (register_implementation reg tool_name func) tool_name kwargs history =
    (match func history kwargs with
     | Return result => Return (Success result)
     | Raise e => if is_Exception e then Return (Failure (exn_str e)) else Raise e
     end, history ++ [(tool_name, kwargs)]) /\
  list_tools (register_implementation reg tool_name func) = list_tools reg /\
  forall other, other <> tool_name ->
    execute_tool (register_implementation reg tool_name func) other kwargs history =
    execute_tool reg other kwargs history.
Proof.
  unfold execute_tool, register_implementation, get_tool_implementation.
  cbn [implementations]. split; [|split].
  - rewrite lookup_insert_eq. by destruct (func history kwargs).
  - done.
  - intros other Hne. by rewrite lookup_insert_ne.
Qed.

(** ** The agent's tools *)

Section AgentTools.
Context `{Platform}.

Lemma dunder_names_omap (F : string -> option Tool) (names : list string) :
  (forall n tool, F n = Some tool -> Tool__name__ tool = n) ->
  Tool__name__ <$> omap F names = filter (fun n => is_Some (F n)) names.
Proof.
  intros HF. induction names as [|n ns IH]; [done|].
  rewrite filter_cons. cbn [omap list_omap].
  destruct (F n) as [tool|] eqn:Hn.
  - rewrite decide_True by eauto. rewrite fmap_cons, (HF _ _ Hn).
    f_equal. apply IH.
  - rewrite decide_False by (by intros [x Hx]). apply IH.
Qed.

Lemma create_tools_dunder_names (registry : ToolRegistry) :
  Tool__name__ <$> _create_tools registry =
    filter (fun tool_name => wrappable registry tool_name = true) key_tools.
Proof.
  unfold _create_tools. rewrite dunder_names_omap.
  - apply list_filter_iff. intros n. unfold wrappable, dict_mem.
    destruct (dict_get n (tools registry)) as [tool_def|]; simpl.
    + destruct (get_tool_implementation registry n) as [f|] eqn:Hf; simpl.
      * split; eauto.
      * split; [by intros [x Hx]|done].
    + split; [by intros [x Hx]|done].
  - intros n tool.
    destruct (dict_get n (tools registry)) as [tool_def|]; [|done].
    destruct (get_tool_implementation registry n) as [f|]; [|done].
    by intros [= <-].
Qed.

(** The implementation a requested call reaches in an agent made by
    [_create_tools]: that of the first wrapped key tool, for a call of
    [tool_wrapper]; none for a call under any other name. *)
Lemma invocation_of_created (registry : ToolRegistry) (tool_call : ToolCall)
    (inv : Invocation) :
  invocation_of (_create_tools registry) tool_call = Some inv ->
  names_tool_wrapper tool_call = true /\
  Some inv.1 = head (filter (fun tool_name => wrappable registry tool_name = true)
                       key_tools).
Proof.
  unfold invocation_of, names_tool_wrapper. rewrite find_created_tool.
  destruct (String.eqb (tc_name tool_call) "tool_wrapper"); [|done].
  rewrite <- create_tools_dunder_names.
  destruct (_create_tools registry) as [|tool l]; [done|]. cbn [head fmap list_fmap].
  destruct (tool_input_kwargs (tc_args tool_call)); [|done].
  by intros [= <-].
Qed.

(** X5: which tools the agent gets.  [_create_tools] wraps exactly the key
    tools that are in the catalog and bound, in the order of the key list,
    each once, and each wrapper runs the implementation the registry has
    under that name.  But the [name] of every one of these tools is
    [tool_wrapper] and their [description] is the docstring of
    [tool_wrapper]: the names and descriptions of the catalog are set as
    [__name__] and [__doc__] only.  So the tools node finds the first of
    the tools when it is asked for [tool_wrapper], and none under any other
    name, the names of the key tools included. *)
Theorem wrapped_tools_are_the_bound_key_tools (registry : ToolRegistry) :
  Tool__name__ <$> _create_tools registry =
    filter (fun tool_name => wrappable registry tool_name = true) key_tools /\
  NoDup (Tool__name__ <$> _create_tools registry) /\
  Forall (fun tool =>
            get_tool_implementation registry (Tool__name__ tool) = Some (Tool_func tool) /\
            Tool_name tool = "tool_wrapper" /\
            Tool_description tool = "Tool wrapper for MCP tool execution.")
    (_create_tools registry) /\
  forall tool_name,
    find (fun tool => String.eqb (Tool_name tool) tool_name) (_create_tools registry) =
      if String.eqb tool_name "tool_wrapper" then head (_create_tools registry)
      else None.
Proof.
  split; [apply create_tools_dunder_names|]. split; [|split].
  - rewrite create_tools_dunder_names. apply NoDup_filter. unfold key_tools.
    apply (bool_decide_unpack _). by vm_compute.
  - apply Forall_forall. intros tool Hin.
    by apply create_tools_made in Hin as (? & ? & _ & _ & ?).
  - apply find_created_tool.
Qed.

End AgentTools.

(** ** What a run of the agent does *)

Section AgentRuns.
Context `{Platform}.

Lemma find_tool_wrapped (agent_tools : list Tool) (tool_call : ToolCall) :
  names_wrapped_tool agent_tools tool_call =
    match find (fun tool => String.eqb (Tool_name tool) (tc_name tool_call)) agent_tools with
    | Some _ => true
    | None => false
    end.
Proof.
  unfold names_wrapped_tool.
  destruct (find _ agent_tools) as [tool|] eqn:Hfind.
  - apply find_some in Hfind as [Hin E]. apply String.eqb_eq in E.
    apply bool_decide_eq_true_2. rewrite <- E.
    apply list_elem_of_fmap_2. by apply list_elem_of_In.
  - apply bool_decide_eq_false_2. intros Hin.
    apply list_elem_of_fmap in Hin as (tool & Hname & Hin).
    apply list_elem_of_In in Hin.
    pose proof (find_none _ _ Hfind _ Hin) as E. simpl in E.
    rewrite <- Hname, String.eqb_refl in E. discriminate.
Qed.

(** One requested call: nothing at all when no tool answers to the name;
    otherwise the implementation call of [invocation_of], if any, and then
    either one result record, with a result message when, and only when,
    the tool returned, or an exception that is no [Exception]. *)
Lemma process_tool_call_step (agent_tools : list Tool) (s : ActState)
    (history : list Invocation) (tool_call : ToolCall) :
  exists res,
    process_tool_call agent_tools s history tool_call =
      (res, history ++ option_list (invocation_of agent_tools tool_call)) /\
    match res with
    | Return s' =>
        if names_wrapped_tool agent_tools tool_call then
          exists r,
            act_tool_results s' = act_tool_results s ++ [r] /\
            result_tool r = tc_name tool_call /\
            exists content tool_call_id,
              act_messages s' =
                act_messages s ++
                (if tool_result_success r then [ToolMessage content tool_call_id] else [])
        else s' = s
    | Raise e => is_Exception e = false
    end.
Proof.
  rewrite find_tool_wrapped. unfold process_tool_call, invocation_of. cbv zeta.
  destruct (find _ agent_tools) as [tool|].
  2:{ exists (Return s). by rewrite app_nil_r. }
  unfold tool_invoke.
  destruct (tool_input_kwargs (tc_args tool_call)) as [kwargs|e].
  - destruct (Tool_func tool history kwargs) as [result|e].
    + eexists. split; [reflexivity|]. cbn [act_tool_results act_messages].
      eexists. split; [reflexivity|]. split; [done|]. simpl. eauto.
    + destruct (is_Exception e) eqn:He.
      * eexists. split; [reflexivity|]. cbn [act_tool_results act_messages].
        eexists. split; [reflexivity|]. split; [done|]. simpl.
        exists "", "". by rewrite app_nil_r.
      * eexists. split; [reflexivity|]. done.
  - cbn [option_list]. rewrite app_nil_r. destruct (is_Exception e) eqn:He.
    + eexists. split; [reflexivity|]. cbn [act_tool_results act_messages].
      eexists. split; [reflexivity|]. split; [done|]. simpl.
      exists "", "". by rewrite app_nil_r.
    + eexists. split; [reflexivity|]. done.
Qed.

(** The loop of [_tools_node] over the requested calls. *)
Lemma process_tool_calls_account (agent_tools : list Tool) (calls : list ToolCall)
    (s : ActState) (history : list Invocation) :
  let made := filter (fun tool_call => names_wrapped_tool agent_tools tool_call = true)
                calls in
  exists res processed,
    processed `prefix_of` calls /\
    process_tool_calls agent_tools s history calls =
      (res, history ++ omap (invocation_of agent_tools) processed) /\
    match res with
    | Return s' =>
        processed = calls /\
        exists new_messages new_results,
          act_messages s' = act_messages s ++ new_messages /\
          act_tool_results s' = act_tool_results s ++ new_results /\
          result_tool <$> new_results = tc_name <$> made /\
          length new_messages =
            length (filter (fun r => tool_result_success r = true) new_results)
    | Raise e => is_Exception e = false
    end.
Proof.
  cbv zeta. revert s history. induction calls as [|c cs IH]; intros s history.
  - exists (Return s), []. split; [done|]. simpl. rewrite app_nil_r.
    split; [done|]. split; [done|]. exists [], []. by rewrite !app_nil_r.
  - cbn [process_tool_calls].
    destruct (process_tool_call_step agent_tools s history c) as (res1 & -> & Hstep).
    destruct res1 as [s1|e].
    2:{ exists (Raise e), [c]. split; [by apply prefix_cons, prefix_nil|].
        split; [|done]. cbn [omap list_omap].
        by destruct (invocation_of agent_tools c). }
    destruct (IH s1 (history ++ option_list (invocation_of agent_tools c)))
      as (res & processed & Hpre & -> & Hres).
    exists res, (c :: processed). split; [by apply prefix_cons|]. split.
    { f_equal. rewrite <- app_assoc. f_equal. cbn [omap list_omap].
      by destruct (invocation_of agent_tools c). }
    destruct res as [s'|e]; [|done].
    destruct Hres as (-> & ms & rs & Hm & Hr & Hnames & Hlen). split; [done|].
    rewrite filter_cons.
    destruct (names_wrapped_tool agent_tools c) eqn:Hw.
    + destruct Hstep as (r & Hr1 & Hr2 & content & id & Hm1).
      rewrite decide_True by done.
      exists ((if tool_result_success r then [ToolMessage content id] else []) ++ ms),
             (r :: rs).
      rewrite Hm, Hm1, Hr, Hr1, <- !app_assoc.
      split; [done|]. split; [done|].
      split; [by rewrite !fmap_cons, Hr2, Hnames|].
      rewrite filter_cons, length_app.
      destruct (tool_result_success r) eqn:Hs.
      * rewrite decide_True by done. simpl. by rewrite Hlen.
      * rewrite decide_False by (by intros ?). simpl. by rewrite Hlen.
    + rewrite decide_False by (by intros ?). subst s1. by exists ms, rs.
Qed.

(** X6: the bookkeeping of the tools node.  The node goes through the
    requested calls in order.  A call that no tool answers to is passed
    over.  For a call that a tool answers to, the node runs the
    implementation behind the FIRST tool that goes by the requested name,
    with the keyword arguments that tool takes from its input, which need
    not be the requested arguments; it then appends one result record, and
    a result message when the record reports success.  The node returns when
    it has gone through all the calls, everything the state held before
    being kept in front; it stops before that only when a tool raises what
    is no [Exception], and then it raises. *)
Theorem tools_node_accounts_for_every_wrapped_call (a : XcodeLangGraphAgent)
    (state : AgentState) (history : list Invocation) (last_message : Message) :
  last (messages state) = Some last_message ->
  let requested := requested_tool_calls last_message in
  let made := filter (fun tool_call => names_wrapped_tool (agent_tools a) tool_call = true)
                requested in
  exists res processed,
    processed `prefix_of` requested /\
    _tools_node a state history =
      (res, history ++ omap (invocation_of (agent_tools a)) processed) /\
    match res with
    | Return state' =>
        processed = requested /\
        exists new_messages new_results,
          state' = {| messages := messages state ++ new_messages;
                      tool_results := tool_results state ++ new_results;
                      current_task := current_task state;
                      context := context state |} /\
          result_tool <$> new_results = tc_name <$> made /\
          length new_messages =
            length (filter (fun r => tool_result_success r = true) new_results)
    | Raise e => is_Exception e = false
    end.
Proof.
  intros Hlast. cbv zeta. unfold _tools_node. rewrite Hlast.
  destruct (process_tool_calls_account (agent_tools a)
              (requested_tool_calls last_message)
              {| act_messages := messages state;
                 act_tool_results := tool_results state |} history)
    as (res & processed & Hpre & -> & Hres).
  cbv zeta in *. cbn [act_messages act_tool_results] in *.
  destruct res as [s'|e].
  - destruct Hres as (-> & ms & rs & Hm & Hr & Hnames & Hlen).
    eexists (Return _), _. split; [done|]. split; [reflexivity|].
    split; [done|]. exists ms, rs. by rewrite Hm, Hr.
  - exists (Raise e), processed. done.
Qed.

(** *** States and call histories along the graph *)

Lemma extends_state_refl (state : AgentState) : extends_state state state.
Proof. by repeat split. Qed.

Lemma extends_state_trans (s1 s2 s3 : AgentState) :
  extends_state s1 s2 -> extends_state s2 s3 -> extends_state s1 s3.
Proof.
  intros (Hm1 & Hr1 & Ht1 & Hc1) (Hm2 & Hr2 & Ht2 & Hc2).
  repeat split; [by etransitivity|by etransitivity|congruence|congruence].
Qed.

Lemma agent_node_extends (a : XcodeLangGraphAgent) (state state' : AgentState) :
  _agent_node a state = Return state' ->
  exists answer,
    llm_with_tools a (messages state) = Return answer /\
    messages state' = messages state ++ [answer] /\
    tool_results state' = tool_results state /\
    extends_state state state'.
Proof.
  unfold _agent_node. destruct (llm_with_tools a (messages state)) as [answer|e];
    [|done].
  intros [= <-]. exists answer. repeat split; simpl; try done.
  by apply prefix_app_r.
Qed.

Lemma tools_node_extends (a : XcodeLangGraphAgent) (state : AgentState)
    (history : list Invocation) :
  exists calls,
    (_tools_node a state history).2 = history ++ calls /\
    Forall (led_to a) calls /\
    forall state', (_tools_node a state history).1 = Return state' ->
      extends_state state state'.
Proof.
  unfold _tools_node. destruct (last (messages state)) as [m|] eqn:Hlast.
  - destruct (process_tool_calls_account (agent_tools a) (requested_tool_calls m)
                {| act_messages := messages state;
                   act_tool_results := tool_results state |} history)
      as (res & processed & _ & -> & Hres).
    cbv zeta in *. cbn [act_messages act_tool_results] in *.
    exists (omap (invocation_of (agent_tools a)) processed).
    split; [by destruct res|]. split.
    + apply Forall_forall. intros inv Hin.
      apply list_elem_of_omap in Hin as (tc & _ & Htc). by exists tc.
    + destruct res as [s'|e]; [|done].
      destruct Hres as (_ & ms & rs & Hm & Hr & _).
      intros state' [= <-]. repeat split; simpl; rewrite ?Hm, ?Hr; by apply prefix_app_r.
  - exists []. simpl.
    rewrite app_nil_r. split; [done|]. split; [apply Forall_nil_2|done].
Qed.

(** Along the graph the call history only grows, by calls the requested
    tool calls lead to, and a run that reaches [END] does so right after an
    answer of the reasoning function that asks for nothing more. *)
Lemma graph_steps_trace (a : XcodeLangGraphAgent) (n : nat) (node : Node)
    (state : AgentState) (history : list Invocation) :
  (exists calls,
     step_history (graph_steps n a node state history) = history ++ calls /\
     Forall (led_to a) calls) /\
  forall state' history',
    graph_steps n a node state history = Finished state' history' ->
    exists before answer,
      extends_state state before /\
      llm_with_tools a (messages before) = Return answer /\
      messages state' = messages before ++ [answer] /\
      tool_results state' = tool_results before /\
      current_task state' = current_task state /\
      context state' = context state /\
      _should_continue state' = route_end.
Proof.
  revert node state history.
  induction n as [|n IH]; intros node state history.
  { simpl. split; [|done]. exists []. by rewrite app_nil_r. }
  cbn [graph_steps]. destruct node; unfold graph_step.
  - destruct (_agent_node a state) as [state1|e] eqn:Hagent.
    + apply agent_node_extends in Hagent
        as (answer & Hanswer & Hmsgs & Hres & Hext).
      destruct (_should_continue state1) eqn:Hroute.
      * destruct (IH node_tools state1 history) as [Hhist Hfin].
        split; [done|]. intros state' history' Hrun.
        destruct (Hfin _ _ Hrun) as (before & ans & Hb & Hans & Hm & Hr & Ht & Hc & He).
        exists before, ans.
        split; [by eapply extends_state_trans|].
        destruct Hext as (_ & _ & Ht1 & Hc1).
        split; [done|]. split; [done|]. split; [done|].
        split; [congruence|]. split; [congruence|done].
      * split.
        { exists []. simpl. by rewrite app_nil_r. }
        intros state' history' [= <- <-].
        exists state, answer.
        split; [apply extends_state_refl|].
        destruct Hext as (_ & _ & Ht1 & Hc1).
        split; [done|]. split; [done|]. split; [done|]. by split.
    + split; [|done]. exists []. simpl. by rewrite app_nil_r.
  - destruct (tools_node_extends a state history) as (calls & Hh & Hcalls & Hext).
    destruct (_tools_node a state history) as [[state1|e] history1] eqn:Htools;
      simpl in Hh; subst history1.
    + destruct (IH node_agent state1 (history ++ calls)) as [Hhist Hfin].
      split.
      * destruct Hhist as (calls' & -> & Hcalls').
        exists (calls ++ calls'). rewrite app_assoc. split; [done|].
        by apply Forall_app.
      * intros state' history' Hrun.
        destruct (Hfin _ _ Hrun) as (before & ans & Hb & Hans & Hm & Hr & Ht & Hc & He).
        exists before, ans.
        specialize (Hext state1 eq_refl).
        split; [by eapply extends_state_trans|].
        destruct Hext as (_ & _ & Ht1 & Hc1).
        split; [done|]. split; [done|]. split; [done|].
        split; [congruence|]. split; [congruence|done].
    + split; [|done]. exists calls. done.
Qed.

Lemma should_continue_end (state : AgentState) (answer : Message) :
  last (messages state) = Some answer ->
  _should_continue state = route_end ->
  requested_tool_calls answer = [].
Proof.
  unfold _should_continue. intros ->.
  by destruct answer as [c|c [|tc tcs] [|fc fcs]|c i].
Qed.

(** A run that returns has messages to show. *)
Lemma returned_run_has_messages (a : XcodeLangGraphAgent) (prompt : JSON)
    (history history' : list Invocation) (state : AgentState) :
  run_sync a prompt history = (Return state, history') -> messages state <> [].
Proof.
  unfold run_sync, graph_invoke.
  destruct (valid_message_content prompt); [|done].
  destruct (graph_steps recursion_limit a node_agent _ history)
    as [node st h|st h|e h] eqn:Hrun; [done| |done].
  intros [= -> ->].
  apply graph_steps_trace in Hrun as (before & answer & _ & _ & Hm & _).
  rewrite Hm. by destruct (messages before).
Qed.

(** X7: what a returned run looks like.  When [run_sync] returns a state,
    its messages start with the prompt as a human message and end with the
    answer the reasoning function gave on all the messages before it, an
    answer that requests no tool call; the task is the prompt and the
    context is empty. *)
Theorem returned_run_ends_with_final_answer (a : XcodeLangGraphAgent) (prompt : JSON)
    (history history' : list Invocation) (state : AgentState) :
  run_sync a prompt history = (Return state, history') ->
  exists earlier answer,
    messages state = HumanMessage prompt :: earlier ++ [answer] /\
    llm_with_tools a (HumanMessage prompt :: earlier) = Return answer /\
    requested_tool_calls answer = [] /\
    current_task state = prompt /\
    context state = [].
Proof.
  unfold run_sync, graph_invoke.
  destruct (valid_message_content prompt); [|done].
  destruct (graph_steps recursion_limit a node_agent _ history)
    as [node st h|st h|e h] eqn:Hrun; [done| |done].
  intros [= -> ->].
  apply graph_steps_trace in Hrun
    as (before & answer & (Hpre & _) & Hans & Hm & _ & Ht & Hc & Hend).
  simpl in *. destruct Hpre as [earlier Hearlier]. simpl in Hearlier.
  exists earlier, answer. rewrite Hearlier in *.
  split; [by rewrite Hm|]. split; [done|]. split; [|done].
  apply (should_continue_end state); [|done].
  by rewrite Hm, last_snoc.
Qed.

(** X8: which implementation a run can reach.  A run of an agent made by
    [create_langgraph_agent], however it ends and whatever tool names the
    reasoning function asks for, only ever adds calls of ONE implementation:
    that of the first key tool, in the order of the key list, that is in the
    catalog and bound.  The other wrapped tools are never run; the calls
    made before the run stay in front. *)
Theorem run_reaches_only_the_first_wrapped_tool (registry : ToolRegistry) (model : JSON)
    (system_prompt : option string) (a : XcodeLangGraphAgent) (prompt : JSON)
    (history : list Invocation) :
  create_langgraph_agent registry model system_prompt = Return a ->
  exists calls,
    (run_sync a prompt history).2 = history ++ calls /\
    Forall (fun inv =>
              Some inv.1 = head (filter (fun tool_name => wrappable registry tool_name = true)
                                   key_tools))
      calls.
Proof.
  intros Hcreate.
  assert (Htools : agent_tools a = _create_tools registry).
  { unfold create_langgraph_agent in Hcreate.
    destruct (negb LANGGRAPH_AVAILABLE); [done|].
    destruct model; try done. destruct (_create_llm s); [|done].
    by injection Hcreate as <-. }
  assert (Hrun : exists calls,
            (run_sync a prompt history).2 = history ++ calls /\
            Forall (led_to a) calls).
  { unfold run_sync, graph_invoke.
    destruct (valid_message_content prompt).
    - destruct (graph_steps_trace a recursion_limit node_agent
                  {| messages := [HumanMessage prompt]; tool_results := [];
                     current_task := prompt; context := [] |} history)
        as [(calls & Hh & Hcalls) _].
      exists calls. split; [|done]. rewrite <- Hh.
      by destruct (graph_steps _ _ _ _ _).
    - exists []. simpl. by rewrite app_nil_r. }
  destruct Hrun as (calls & Hh & Hcalls). exists calls. split; [done|].
  eapply Forall_impl; [exact Hcalls|]. intros inv [tool_call Hinv].
  rewrite Htools in Hinv. by apply invocation_of_created in Hinv as [_ ?].
Qed.

(** X9: what the model gets to see of a tool's output.  The wrapper
    [_create_tools] puts around an implementation renders, of a dictionary
    the implementation returns, the ["result"] entry only: when the
    dictionary has no such entry, as with the dictionaries of
    [list_projects], the result record and the result message of a call of
    [tool_wrapper] carry the rendering of an empty dictionary, whatever the
    implementation returned. *)
Theorem output_outside_result_entry_is_dropped (registry : ToolRegistry)
    (s : ActState) (history : list Invocation) (tool_call : ToolCall) (tool : Tool)
    (kwargs : Args) (d : Dict JSON) :
  head (_create_tools registry) = Some tool ->
  tc_name tool_call = "tool_wrapper" ->
  tool_input_kwargs (tc_args tool_call) = Return kwargs ->
  Tool_func tool history kwargs = Return (JDict d) ->
  dict_get "result" d = None ->
  exists tool_call_id,
    process_tool_call (_create_tools registry) s history tool_call =
      (Return
         {| act_messages :=
              act_messages s ++ [ToolMessage (json_dumps_indent (JDict [])) tool_call_id];
            act_tool_results :=
              act_tool_results s ++
              [ToolSucceeded "tool_wrapper" (json_dumps_indent (JDict []))] |},
       history ++ [(Tool__name__ tool, kwargs)]).
Proof.
  intros Hhead Hname Hkwargs Hfunc Hnone.
  unfold process_tool_call. cbv zeta.
  rewrite find_created_tool, Hname, Hhead. cbn [String.eqb Ascii.eqb Bool.eqb].
  unfold tool_invoke. rewrite Hkwargs, Hfunc, Hnone. cbn [default from_option id].
  eexists. reflexivity.
Qed.

(** A run depends on the agent through its chat client and its tools
    only. *)
Lemma graph_steps_same_client_and_tools (a1 a2 : XcodeLangGraphAgent) (n : nat)
    (node : Node) (state : AgentState) (history : list Invocation) :
  agent_llm a1 = agent_llm a2 ->
  agent_tools a1 = agent_tools a2 ->
  graph_steps n a1 node state history = graph_steps n a2 node state history.
Proof.
  intros Hllm Htools. revert node state history.
  induction n as [|n IH]; intros node state history; [done|].
  cbn [graph_steps].
  assert (Hstep : graph_step a1 node state history = graph_step a2 node state history).
  { unfold graph_step, _agent_node, _tools_node, llm_with_tools.
    by rewrite Hllm, Htools. }
  rewrite Hstep. destruct (graph_step a2 node state history); auto.
Qed.

Lemma run_sync_same_client_and_tools (a1 a2 : XcodeLangGraphAgent) (prompt : JSON)
    (history : list Invocation) :
  agent_llm a1 = agent_llm a2 ->
  agent_tools a1 = agent_tools a2 ->
  run_sync a1 prompt history = run_sync a2 prompt history.
Proof.
  intros Hllm Htools. unfold run_sync, graph_invoke.
  by rewrite (graph_steps_same_client_and_tools a1 a2).
Qed.

Lemma split_colon_join (provider name : string) :
  split_colon provider = None ->
  split_colon (provider +:+ ":" +:+ name) = Some (provider, name).
Proof.
  induction provider as [|c provider IH]; simpl; [done|].
  destruct (Ascii.eqb c ":"); [done|].
  destruct (split_colon provider) as [[x y]|] eqn:E; [done|].
  intros _. by rewrite IH.
Qed.

(** X10: how a model identifier is read.  The provider is what stands
    before the FIRST colon, so a model name may itself contain colons
    (["ollama:qwen3-coder:30b"] names the model ["qwen3-coder:30b"]); an
    identifier without any colon is an Ollama model; a provider other than
    the three known ones is refused with a [ValueError] that names it. *)
Theorem model_identifier_splits_at_first_colon (provider name : string) :
  split_colon provider = None ->
  _create_llm provider = Return (ChatOllama provider) /\
  _create_llm ("ollama:" +:+ name) = Return (ChatOllama name) /\
  (provider ∉ ["ollama"; "openai"; "deepseek"] ->
   _create_llm (provider +:+ ":" +:+ name) =
     Raise (ValueError ("Unknown provider: " +:+ provider))).
Proof.
  intros Hfree. unfold _create_llm. split; [|split].
  - rewrite Hfree. cbn [default from_option id]. done.
  - change ("ollama:" +:+ name) with ("ollama" +:+ ":" +:+ name).
    by rewrite (split_colon_join "ollama" name eq_refl).
  - intros Hother. rewrite (split_colon_join provider name Hfree).
    cbn [default from_option id].
    assert (Hne : forall known, known ∈ ["ollama"; "openai"; "deepseek"] ->
                    String.eqb provider known = false).
    { intros known Hin. apply String.eqb_neq. intros ->. by apply Hother. }
    rewrite (Hne "ollama"), (Hne "openai"), (Hne "deepseek"); [done| | |];
      repeat first [left | right].
Qed.

End AgentRuns.

Section AgentRunsInstances.
#[local] Existing Instance Demo.platform.

(** X6 on the demo agent, with the implementation of [list_projects] that
    fails its second run.  Of the four calls the model asks for,
    [archive_project] and [build_project] are passed over, although
    [build_project] is a wrapped tool; each of the two calls of
    [tool_wrapper] runs [list_projects], the first tool, and the second run
    raises. *)
Lemma tools_node_accounts_for_every_wrapped_call_witness :
  (let requested :=
     requested_tool_calls
       (AIMessage (JStr "")
          [ Demo.call "archive_project" "c0"; Demo.call "tool_wrapper" "c1";
            Demo.call "build_project" "c2"; Demo.call "tool_wrapper" "c3" ] []) in
   let made :=
     filter (fun tool_call =>
               names_wrapped_tool
                 (agent_tools (Demo.agent_on Demo.flaky_registry "three_wrapper_calls"))
                 tool_call = true) requested in
   exists res processed,
     processed `prefix_of` requested /\
     _tools_node (Demo.agent_on Demo.flaky_registry "three_wrapper_calls")
       {| messages :=
            [ HumanMessage (JStr "ship it");
              AIMessage (JStr "")
                [ Demo.call "archive_project" "c0"; Demo.call "tool_wrapper" "c1";
                  Demo.call "build_project" "c2"; Demo.call "tool_wrapper" "c3" ] [] ];
          tool_results := []; current_task := JStr "ship it"; context := [] |} []
     = (res,
        [] ++ omap (invocation_of
                      (agent_tools
                         (Demo.agent_on Demo.flaky_registry "three_wrapper_calls")))
                processed) /\
     match res with
     | Return state' =>
         processed = requested /\
         exists new_messages new_results,
           state' =
             {| messages :=
                  messages
                    {| messages :=
                         [ HumanMessage (JStr "ship it");
                           AIMessage (JStr "")
                             [ Demo.call "archive_project" "c0";
                               Demo.call "tool_wrapper" "c1";
                               Demo.call "build_project" "c2";
                               Demo.call "tool_wrapper" "c3" ] [] ];
                       tool_results := []; current_task := JStr "ship it";
                       context := [] |} ++ new_messages;
                tool_results := [] ++ new_results;
                current_task := JStr "ship it"; context := [] |} /\
           result_tool <$> new_results = tc_name <$> made /\
           length new_messages =
             length (filter (fun r => tool_result_success r = true) new_results)
     | Raise e => is_Exception e = false
     end) /\
  _tools_node (Demo.agent_on Demo.flaky_registry "three_wrapper_calls")
    {| messages :=
         [ HumanMessage (JStr "ship it");
           AIMessage (JStr "")
             [ Demo.call "archive_project" "c0"; Demo.call "tool_wrapper" "c1";
               Demo.call "build_project" "c2"; Demo.call "tool_wrapper" "c3" ] [] ];
       tool_results := []; current_task := JStr "ship it"; context := [] |} []
  = (Return
       {| messages :=
            [ HumanMessage (JStr "ship it");
              AIMessage (JStr "")
                [ Demo.call "archive_project" "c0"; Demo.call "tool_wrapper" "c1";
                  Demo.call "build_project" "c2"; Demo.call "tool_wrapper" "c3" ] [];
              ToolMessage "[]" "c1" ];
          tool_results :=
            [ ToolSucceeded "tool_wrapper" "[]";
              ToolFailed "tool_wrapper" "[Errno 13] Permission denied" ];
          current_task := JStr "ship it"; context := [] |},
     [("list_projects", []); ("list_projects", [])]).
Proof.
  split; [|vm_compute; reflexivity].
  exact (tools_node_accounts_for_every_wrapped_call
           (Demo.agent_on Demo.flaky_registry "three_wrapper_calls")
           {| messages :=
                [ HumanMessage (JStr "ship it");
                  AIMessage (JStr "")
                    [ Demo.call "archive_project" "c0"; Demo.call "tool_wrapper" "c1";
                      Demo.call "build_project" "c2"; Demo.call "tool_wrapper" "c3" ] [] ];
              tool_results := []; current_task := JStr "ship it"; context := [] |} []
           (AIMessage (JStr "")
              [ Demo.call "archive_project" "c0"; Demo.call "tool_wrapper" "c1";
                Demo.call "build_project" "c2"; Demo.call "tool_wrapper" "c3" ] [])
           eq_refl).
Defined.

(** X7 on the demo agent: the model asks for three calls of
    [tool_wrapper], the second of which fails, and then answers. *)
Lemma returned_run_ends_with_final_answer_witness :
  exists earlier answer,
    messages
      {| messages :=
           [ HumanMessage (JStr "list my projects");
             AIMessage (JStr "")
               [ Demo.call "tool_wrapper" "c1"; Demo.call "tool_wrapper" "c2";
                 Demo.call "tool_wrapper" "c3" ] [];
             ToolMessage "[]" "c1"; ToolMessage "[]" "c3";
             AIMessage (JStr "done") [] [] ];
         tool_results :=
           [ ToolSucceeded "tool_wrapper" "[]";
             ToolFailed "tool_wrapper" "[Errno 13] Permission denied";
             ToolSucceeded "tool_wrapper" "[]" ];
         current_task := JStr "list my projects"; context := [] |}
    = HumanMessage (JStr "list my projects") :: earlier ++ [answer] /\
    llm_with_tools (Demo.agent_on Demo.flaky_registry "three_wrapper_calls")
      (HumanMessage (JStr "list my projects") :: earlier) = Return answer /\
    requested_tool_calls answer = [] /\
    JStr "list my projects" = JStr "list my projects" /\
    @nil (string * JSON) = [].
Proof.
  assert (Hrun : run_sync (Demo.agent_on Demo.flaky_registry "three_wrapper_calls")
                   (JStr "list my projects") []
                 = (Return
                      {| messages :=
                           [ HumanMessage (JStr "list my projects");
                             AIMessage (JStr "")
                               [ Demo.call "tool_wrapper" "c1";
                                 Demo.call "tool_wrapper" "c2";
                                 Demo.call "tool_wrapper" "c3" ] [];
                             ToolMessage "[]" "c1"; ToolMessage "[]" "c3";
                             AIMessage (JStr "done") [] [] ];
                         tool_results :=
                           [ ToolSucceeded "tool_wrapper" "[]";
                             ToolFailed "tool_wrapper" "[Errno 13] Permission denied";
                             ToolSucceeded "tool_wrapper" "[]" ];
                         current_task := JStr "list my projects"; context := [] |},
                    [("list_projects", []); ("list_projects", []);
                     ("list_projects", [])])).
  { vm_compute. reflexivity. }
  exact (returned_run_ends_with_final_answer _ _ _ _ _ Hrun).
Defined.

(** X8 on the demo agent: three calls are made, all of [list_projects]. *)
Lemma run_reaches_only_the_first_wrapped_tool_witness :
  (exists calls,
     (run_sync (Demo.agent "three_wrapper_calls") (JStr "build my app") []).2
     = [] ++ calls /\
     Forall (fun inv =>
               Some inv.1 =
                 head (filter (fun tool_name => wrappable Demo.registry tool_name = true)
                         key_tools))
       calls) /\
  (run_sync (Demo.agent "three_wrapper_calls") (JStr "build my app") []).2
  = [("list_projects", []); ("list_projects", []); ("list_projects", [])].
Proof.
  assert (Hcreate : create_langgraph_agent Demo.registry
                      (JStr "ollama:three_wrapper_calls") None
                    = Return (Demo.agent "three_wrapper_calls")).
  { vm_compute. reflexivity. }
  split; [|vm_compute; reflexivity].
  exact (run_reaches_only_the_first_wrapped_tool Demo.registry
           (JStr "ollama:three_wrapper_calls")
           None (Demo.agent "three_wrapper_calls") (JStr "build my app") [] Hcreate).
Defined.

(** X9 on a registry whose [list_projects] returns what the real one
    returns where there is no project: the model is shown [{}]. *)
Lemma output_outside_result_entry_is_dropped_witness :
  exists tool_call_id,
    process_tool_call (_create_tools Demo.listing_registry)
      {| act_messages := []; act_tool_results := [] |} []
      (Demo.call "tool_wrapper" "c3")
    = (Return {| act_messages := [] ++ [ToolMessage "{}" tool_call_id];
                 act_tool_results := [] ++ [ToolSucceeded "tool_wrapper" "{}"] |},
       [] ++ [("list_projects", [])]).
Proof.
  exact (output_outside_result_entry_is_dropped Demo.listing_registry
           {| act_messages := []; act_tool_results := [] |} []
           (Demo.call "tool_wrapper" "c3")
           (make_tool "list_projects" Demo.impl_listing "Runs list_projects")
           [] [("projects", JList []); ("workspaces", JList []); ("count", JInt 0)]
           eq_refl eq_refl eq_refl eq_refl eq_refl).
Defined.

(** X10 on a provider the code does not know. *)
Lemma model_identifier_splits_at_first_colon_witness :
  _create_llm "mistral" = Return (ChatOllama "mistral") /\
  _create_llm ("ollama:" +:+ "qwen3-coder:30b") = Return (ChatOllama "qwen3-coder:30b") /\
  ("mistral" ∉ ["ollama"; "openai"; "deepseek"] ->
   _create_llm ("mistral" +:+ ":" +:+ "qwen3-coder:30b") =
     Raise (ValueError ("Unknown provider: " +:+ "mistral"))).
Proof.
  exact (model_identifier_splits_at_first_colon "mistral" "qwen3-coder:30b" eq_refl).
Defined.

End AgentRunsInstances.

(** ** What the handlers write *)

Section Emission.
Context `{Platform}.

Lemma set_stdout_stdout (s : UnifiedMCPServer) : set_stdout (stdout s) s = s.
Proof. by destruct s. Qed.

(** What [emits] says of a run from a state as it is. *)
Lemma emits_run {A} (Q : PyResult A -> list Response -> Prop) (m : M A)
    (s : UnifiedMCPServer) :
  emits Q m ->
  exists res s0 new,
    (forall out, m (set_stdout out s) = (res, set_stdout (out ++ new) s0)) /\
    m s = (res, set_stdout (stdout s ++ new) s0) /\ Q res new.
Proof.
  intros Hm. destruct (Hm s) as (res & s0 & new & Hrun & HQ).
  exists res, s0, new. split; [done|]. split; [|done].
  rewrite <- (Hrun (stdout s)). by rewrite set_stdout_stdout.
Qed.

Lemma emits_weaken {A} (Q Q' : PyResult A -> list Response -> Prop) (m : M A) :
  (forall res new, Q res new -> Q' res new) -> emits Q m -> emits Q' m.
Proof.
  intros HQ Hm s. destruct (Hm s) as (res & s0 & new & Hrun & Hres).
  exists res, s0, new. auto.
Qed.

Lemma calm_quiet {A} (m : M A) : calm m -> quiet m.
Proof. apply emits_weaken. by intros res new [-> _]. Qed.

Lemma calm_ret {A} (a : A) : calm (ret a).
Proof.
  intros s. exists (Return a), s, []. split; [|by eauto].
  intros out. by rewrite app_nil_r.
Qed.

Lemma quiet_raise {A} (e : PyExn) : quiet (@raise A e).
Proof.
  intros s. exists (Raise e), s, []. split; [|done].
  intros out. by rewrite app_nil_r.
Qed.

Lemma quiet_lift {A} (r : PyResult A) : quiet (lift r).
Proof.
  intros s. exists r, s, []. split; [|done].
  intros out. by rewrite app_nil_r.
Qed.

Lemma calm_get {A} (f : UnifiedMCPServer -> A) :
  (forall out s, f (set_stdout out s) = f s) -> calm (get f).
Proof.
  intros Hf s. exists (Return (f s)), s, []. split; [|by eauto].
  intros out. unfold get. by rewrite Hf, app_nil_r.
Qed.

Lemma calm_modify (g : UnifiedMCPServer -> UnifiedMCPServer) :
  (forall out s, g (set_stdout out s) = set_stdout out (g s)) -> calm (modify g).
Proof.
  intros Hg s. exists (Return tt), (g s), []. split; [|by eauto].
  intros out. unfold modify. by rewrite Hg, app_nil_r.
Qed.

Lemma calm_time_time : calm time_time.
Proof.
  intros s. exists (Return (clock s (ticks s))), (set_ticks (S (ticks s)) s), [].
  split; [|by eauto]. intros out. by rewrite app_nil_r.
Qed.

Lemma quiet_call_execute_tool (tool_name : string) (arguments : Args) :
  quiet (call_execute_tool tool_name arguments).
Proof.
  unfold call_execute_tool. destruct (bind_kwargs arguments) as [kwargs|e].
  - intros s.
    exists (execute_tool (registry s) tool_name kwargs (history s)).1,
           (set_history (execute_tool (registry s) tool_name kwargs (history s)).2 s), [].
    split; [|done]. intros out. rewrite app_nil_r. cbn [registry history set_stdout].
    by destruct (execute_tool _ _ _ _).
  - apply quiet_raise.
Qed.

Lemma quiet_agent_run_sync (a : XcodeLangGraphAgent) (prompt : JSON) :
  quiet (agent_run_sync a prompt).
Proof.
  intros s. unfold agent_run_sync, asyncio_run.
  destruct (event_loop_running s) eqn:Hloop.
  - eexists _, s, []. split; [|done]. intros out. rewrite app_nil_r.
    cbn [event_loop_running set_stdout]. by rewrite Hloop.
  - exists (run_sync a prompt (history s)).1,
           (set_history (run_sync a prompt (history s)).2 s), [].
    split; [|done]. intros out. rewrite app_nil_r.
    cbn [event_loop_running history set_stdout]. rewrite Hloop.
    by destruct (run_sync _ _ _).
Qed.

Lemma emits_send_response {Q : PyResult unit -> list Response -> Prop}
    (id : option JSON) (result : JSON) (error : option RpcError) :
  Q (Return tt)
    [ {| response_id := id;
         payload := match error with
                    | Some e => ErrorOf e
                    | None => ResultOf result
                    end |} ] ->
  emits Q (send_response id result error).
Proof.
  intros HQ s. eexists (Return tt), s, _. split; [|exact HQ].
  intros out. reflexivity.
Qed.

Lemma emits_raise {A} (Q : PyResult A -> list Response -> Prop) (e : PyExn) :
  Q (Raise e) [] -> emits Q (raise e).
Proof.
  intros HQ s. exists (Raise e), s, []. split; [|done].
  intros out. by rewrite app_nil_r.
Qed.

Lemma emits_bind_calm {A B} (Q : PyResult B -> list Response -> Prop)
    (m : M A) (k : A -> M B) :
  calm m -> (forall a, emits Q (k a)) -> emits Q (bind m k).
Proof.
  intros Hm Hk s. destruct (Hm s) as (res & s0 & new & Hrun & -> & a & ->).
  destruct (Hk a s0) as (res' & s1 & new' & Hrun' & HQ).
  exists res', s1, new'. split; [|done].
  intros out. unfold bind. rewrite Hrun, app_nil_r. apply Hrun'.
Qed.

Lemma emits_bind_quiet {A B} (Q : PyResult B -> list Response -> Prop)
    (m : M A) (k : A -> M B) :
  quiet m -> (forall e, Q (Raise e) []) -> (forall a, emits Q (k a)) ->
  emits Q (bind m k).
Proof.
  intros Hm Hraise Hk s. destruct (Hm s) as (res & s0 & new & Hrun & ->).
  destruct res as [a|e].
  - destruct (Hk a s0) as (res' & s1 & new' & Hrun' & HQ).
    exists res', s1, new'. split; [|done].
    intros out. unfold bind. rewrite Hrun, app_nil_r. apply Hrun'.
  - exists (Raise e), s0, []. split; [|apply Hraise].
    intros out. unfold bind. by rewrite Hrun.
Qed.

(** [try ... except Exception]: what the body writes before it raises is
    nothing; an [Exception] is left to the handler, anything else goes
    through. *)
Lemma emits_try_except {A} (Qb Q : PyResult A -> list Response -> Prop)
    (body : M A) (handler : PyExn -> M A) :
  emits Qb body ->
  (forall a new, Qb (Return a) new -> Q (Return a) new) ->
  (forall e new, Qb (Raise e) new -> new = []) ->
  (forall e, is_Exception e = true -> emits Q (handler e)) ->
  (forall e, is_Exception e = false -> Q (Raise e) []) ->
  emits Q (try_except body handler).
Proof.
  intros Hb Hret Hraise Hh Hthrough s.
  destruct (Hb s) as (res & s0 & new & Hrun & HQ).
  destruct res as [a|e].
  - exists (Return a), s0, new. split; [|by apply Hret].
    intros out. unfold try_except. by rewrite Hrun.
  - apply Hraise in HQ. subst new.
    destruct (is_Exception e) eqn:He.
    + destruct (Hh e He s0) as (res' & s1 & new' & Hrun' & HQ').
      exists res', s1, new'. split; [|done].
      intros out. unfold try_except. rewrite Hrun, He, app_nil_r. apply Hrun'.
    + exists (Raise e), s0, []. split; [|by apply Hthrough].
      intros out. unfold try_except. by rewrite Hrun, He.
Qed.

Lemma calm_bind {A B} (m : M A) (k : A -> M B) :
  calm m -> (forall a, calm (k a)) -> calm (bind m k).
Proof. apply emits_bind_calm. Qed.

Lemma quiet_bind {A B} (m : M A) (k : A -> M B) :
  quiet m -> (forall a, quiet (k a)) -> quiet (bind m k).
Proof. intros Hm Hk. by apply emits_bind_quiet. Qed.

Lemma calm_mapM {A B} (g : A -> M B) (xs : list A) :
  (forall x, calm (g x)) -> calm (mapM g xs).
Proof.
  intros Hg. induction xs as [|x xs IH]; simpl.
  - apply calm_ret.
  - apply calm_bind; [apply Hg|]. intros y.
    apply calm_bind; [apply IH|]. intros ys. apply calm_ret.
Qed.

(** Steps through a computation that writes nothing and does not raise. *)
Ltac hush_calm :=
  repeat first
    [ match goal with
      | |- calm _ => fail 1
      | |- emits _ _ => fail 1
      | |- forall _, _ => intro
      end
    | match goal with |- calm (let _ := _ in _) => cbv zeta end
    | apply calm_ret | apply calm_time_time
    | apply calm_get; reflexivity
    | apply calm_modify; reflexivity
    | apply calm_mapM
    | match goal with
      | |- calm (match ?x with _ => _ end) => destruct x
      end
    | apply calm_bind ].

(** Steps through a computation that writes nothing. *)
Ltac hush :=
  repeat first
    [ match goal with
      | |- quiet _ => fail 1
      | |- emits _ _ => fail 1
      | |- forall _, _ => intro
      end
    | match goal with |- quiet (let _ := _ in _) => cbv zeta end
    | apply quiet_raise | apply quiet_lift
    | apply quiet_call_execute_tool | apply quiet_agent_run_sync
    | apply calm_quiet; solve [hush_calm]
    | match goal with
      | |- quiet (match ?x with _ => _ end) => destruct x
      end
    | apply quiet_bind ].

Lemma calm_get_tool_schema_enhanced (tool_def : ToolDef) :
  calm (_get_tool_schema_enhanced tool_def).
Proof. unfold _get_tool_schema_enhanced. hush_calm. Qed.

Lemma calm_get_langgraph_agent (model : JSON) : calm (_get_langgraph_agent model).
Proof.
  unfold _get_langgraph_agent.
  apply calm_bind; [hush_calm|]. intros available.
  apply calm_bind; [hush_calm|]. intros [a|]; [hush_calm|].
  destruct available; [|hush_calm].
  intros s. unfold try_except, bind, get, lift, modify, ret.
  cbn [registry set_stdout].
  destruct (create_langgraph_agent (registry s) model None) as [a|e] eqn:Hcreate.
  - exists (Return (Some a)), (set_langgraph_agent (Some a) s), [].
    split; [|by eauto]. intros out. by rewrite app_nil_r.
  - rewrite (create_langgraph_agent_raises_Exception _ _ _ _ Hcreate).
    exists (Return None), s, []. split; [|by eauto]. intros out. by rewrite app_nil_r.
Qed.

Lemma quiet_agent_for (model persona_config : JSON) :
  quiet (agent_for model persona_config).
Proof.
  unfold agent_for.
  apply quiet_bind.
  - destruct (truthy persona_config); [hush|].
    apply calm_quiet, calm_get_langgraph_agent.
  - intros [a|]; hush.
Qed.

(** Steps through a handler down to the response it sends. *)
Ltac speak :=
  repeat first
    [ match goal with
      | |- emits _ _ => fail 1
      | |- forall _, _ => intro
      end
    | match goal with |- emits _ (let _ := _ in _) => cbv zeta end
    | apply emits_send_response; solve [ simpl; eauto ]
    | apply emits_raise; solve [ simpl; eauto ]
    | match goal with
      | |- emits _ (match ?x with _ => _ end) => destruct x
      end
    | apply emits_bind_calm;
        [ solve [ hush_calm | apply calm_mapM; intros; apply calm_get_tool_schema_enhanced
                | apply calm_get_langgraph_agent ] | ]
    | apply emits_bind_quiet;
        [ solve [ hush | apply quiet_agent_for ] | done | ] ].

Lemma handle_initialize_replies (request_id : option JSON) :
  emits (sure_reply request_id) (handle_initialize request_id).
Proof. unfold handle_initialize, send_result, sure_reply. speak. Qed.

Lemma handle_tools_list_replies (request_id : option JSON) :
  emits (sure_reply request_id) (handle_tools_list request_id).
Proof. unfold handle_tools_list, send_result, sure_reply. speak. Qed.

Lemma handle_langgraph_tool_replies (tool_name : string) (arguments : Args)
    (request_id : option JSON) :
  emits (reply_or_interrupt request_id)
    (_handle_langgraph_tool tool_name arguments request_id).
Proof.
  unfold _handle_langgraph_tool.
  apply (emits_try_except (one_reply request_id)).
  - unfold send_result, send_error, one_reply. speak.
  - by intros [] new Hnew.
  - by intros e new Hnew.
  - intros e _. unfold send_error, reply_or_interrupt. speak.
  - by intros e He.
Qed.

Lemma one_reply_of_interrupt (request_id : option JSON) (m : M unit) :
  emits (reply_or_interrupt request_id) m -> emits (one_reply request_id) m.
Proof. apply emits_weaken. intros [[]|e] new; [done|]. by intros [_ ->]. Qed.

Lemma handle_tools_call_replies (params : Params) (request_id : option JSON) :
  emits (one_reply request_id) (handle_tools_call params request_id).
Proof.
  unfold handle_tools_call, execute_and_respond, send_result, send_error, one_reply.
  speak.
  all: try apply one_reply_of_interrupt, handle_langgraph_tool_replies.
Qed.

Lemma handle_request_replies (request : Request) :
  is_method (req_method request) "notifications/initialized" = false ->
  emits (one_reply (req_id request)) (handle_request request).
Proof.
  intros Hnot. unfold handle_request. cbv zeta. rewrite Hnot.
  assert (Hsure : forall m, emits (sure_reply (req_id request)) m ->
                            emits (one_reply (req_id request)) m).
  { intros m. apply emits_weaken. by intros res new [-> Hr]. }
  destruct (is_method _ "initialize"); [apply Hsure, handle_initialize_replies|].
  destruct (is_method _ "tools/list").
  { unfold send_error, one_reply. speak.
    all: try apply Hsure, handle_tools_list_replies. }
  destruct (is_method _ "tools/call").
  { unfold send_error, one_reply. speak.
    all: try apply handle_tools_call_replies. }
  unfold send_error, one_reply. speak.
Qed.

(** An orchestration call under one of the three names the handler knows
    is answered with a result, or with error -32000, unless what it runs
    raises what is no [Exception]. *)
Lemma known_orchestration_call_outcome (tool_name : string) (arguments : Args)
    (request_id : option JSON) :
  tool_name ∈ ["langgraph_agent"; "langgraph_workflow"; "langgraph_status"] ->
  emits (fun res new =>
           match res with
           | Return _ =>
               exists r, new = [r] /\
                 ((exists result, payload r = ResultOf result) \/
                  (exists text, payload r = ErrorOf {| code := -32000; message := text |}))
           | Raise e => is_Exception e = false /\ new = []
           end)
    (_handle_langgraph_tool tool_name arguments request_id).
Proof.
  intros Hknown. unfold _handle_langgraph_tool.
  apply (emits_try_except
           (fun res new =>
              match res with
              | Return _ => exists r, new = [r] /\ exists result, payload r = ResultOf result
              | Raise _ => new = []
              end)).
  - repeat (apply elem_of_cons in Hknown as [->|Hknown]);
      [| | |by apply elem_of_nil in Hknown].
    all: rewrite ?String.eqb_refl; cbv iota.
    + unfold send_result. speak.
    + change (String.eqb "langgraph_workflow" "langgraph_agent") with false.
      cbv iota. unfold send_result. speak.
    + change (String.eqb "langgraph_status" "langgraph_agent") with false.
      change (String.eqb "langgraph_status" "langgraph_workflow") with false.
      cbv iota. unfold send_result. speak.
  - intros [] new (r & -> & Hr). eauto.
  - by intros e new Hnew.
  - intros e _. unfold send_error. apply emits_send_response.
    eexists. split; [reflexivity|]. right. by eexists.
  - by intros e He.
Qed.

(** X11: what [tools/list] advertises for orchestration is what can be
    called.  An orchestration call is answered with the -32601 of an
    unknown tool exactly when its name is not among the names of the three
    orchestration schemas the listing adds.  And whatever the name and the
    arguments, the call is answered, once, and raises no [Exception]: the
    one way for it to end without an answer is that the agent it runs
    raises what [except Exception] does not catch, and then nothing has been
    written. *)
Theorem advertised_orchestration_tools_are_the_dispatched_ones (tool_name : string)
    (arguments : Args) (request_id : option JSON) (s : UnifiedMCPServer) :
  match _handle_langgraph_tool tool_name arguments request_id s with
  | (Return _, s') =>
      exists r,
        stdout s' = stdout s ++ [r] /\
        (r = error_response request_id (-32601) ("Unknown LangGraph tool: " +:+ tool_name)
         <-> JStr tool_name ∉ advertised_names langgraph_tool_schemas)
  | (Raise e, s') =>
      is_Exception e = false /\ stdout s' = stdout s /\
      JStr tool_name ∈ advertised_names langgraph_tool_schemas
  end.
Proof.
  change (advertised_names langgraph_tool_schemas)
    with [JStr "langgraph_agent"; JStr "langgraph_workflow"; JStr "langgraph_status"].
  destruct (decide (tool_name ∈ ["langgraph_agent"; "langgraph_workflow";
                                 "langgraph_status"])) as [Hknown|Hunknown].
  - assert (Hadvertised : JStr tool_name ∈ [JStr "langgraph_agent";
                                            JStr "langgraph_workflow";
                                            JStr "langgraph_status"]).
    { repeat (apply elem_of_cons in Hknown as [->|Hknown];
              [repeat first [left|right]|]).
      by apply elem_of_nil in Hknown. }
    destruct (emits_run _ _ s
                (known_orchestration_call_outcome tool_name arguments request_id Hknown))
      as (res & s0 & new & _ & -> & Hres).
    destruct res as [[]|e].
    + destruct Hres as (r & -> & Hr). exists r. split; [reflexivity|].
      split; [|done].
      intros ->. destruct Hr as [[result Hr]|[text Hr]]; discriminate Hr.
    + destruct Hres as [He ->]. split; [done|]. split; [|done].
      cbn [stdout set_stdout]. by rewrite app_nil_r.
  - assert (Hne : forall known,
              known ∈ ["langgraph_agent"; "langgraph_workflow"; "langgraph_status"] ->
              String.eqb tool_name known = false).
    { intros known Hin. apply String.eqb_neq. intros ->. by apply Hunknown. }
    unfold _handle_langgraph_tool, try_except.
    rewrite (Hne "langgraph_agent"), (Hne "langgraph_workflow"),
      (Hne "langgraph_status") by (repeat first [left | right]).
    eexists. split; [reflexivity|].
    split; [|done]. intros _ Hin. apply Hunknown.
    repeat (apply elem_of_cons in Hin as [[= ->]|Hin]; [repeat first [left|right]|]).
    by apply elem_of_nil in Hin.
Qed.

End Emission.

(** ** The session as a whole *)

Section Session.
Context `{Platform}.

(** Only a [tools/call] can raise. *)
Lemma handle_request_returns (request : Request) (s : UnifiedMCPServer) :
  is_method (req_method request) "tools/call" = false ->
  exists s', handle_request request s = (Return tt, s').
Proof.
  intros Hcall. unfold handle_request. cbv zeta. rewrite Hcall.
  destruct (is_method (req_method request) "initialize").
  { destruct (emits_run _ _ s (handle_initialize_replies (req_id request)))
      as (res & s0 & new & _ & -> & -> & _). by eexists. }
  destruct (is_method (req_method request) "tools/list").
  { unfold bind at 1, get.
    destruct (negb (initialized s)); [by eexists|].
    destruct (emits_run _ _ s (handle_tools_list_replies (req_id request)))
      as (res & s0 & new & _ & -> & -> & _). by eexists. }
  destruct (is_method (req_method request) "notifications/initialized");
    by eexists.
Qed.

Lemma run_line_emits (line : Line) :
  emits (fun res new =>
           match res with
           | Return _ => length new = if expects_response line then 1%nat else 0%nat
           | Raise e => is_Exception e = false /\ new = []
           end)
    (run_line line).
Proof.
  destruct line as [|why|request]; simpl.
  - eapply emits_weaken; [|apply (calm_ret tt)].
    by intros res new (-> & a & ->).
  - unfold send_error. by apply emits_send_response.
  - destruct (is_method (req_method request) "notifications/initialized") eqn:Hnot; simpl.
    + assert (Hreq : handle_request request = ret tt).
      { unfold handle_request. cbv zeta. rewrite Hnot.
        destruct (req_method request) as [m|]; [|done]. simpl in Hnot.
        apply String.eqb_eq in Hnot. by subst m. }
      rewrite Hreq. intros s. exists (Return tt), s, []. split; [|done].
      intros out. by rewrite app_nil_r.
    + apply (emits_try_except (one_reply (req_id request))).
      * by apply handle_request_replies.
      * by intros [] new (r & -> & _).
      * by intros e new Hnew.
      * intros e _. unfold send_error. by apply emits_send_response.
      * by intros e He.
Qed.

(** A line on which the loop stops is a [tools/call] whose handler raised
    what is no [Exception]. *)
Lemma run_line_raises (line : Line) (s s' : UnifiedMCPServer) (e : PyExn) :
  run_line line s = (Raise e, s') ->
  exists request,
    line = Parsed request /\
    is_method (req_method request) "tools/call" = true /\
    (handle_request request s).1 = Raise e.
Proof.
  destruct line as [|why|request]; [done|done|].
  unfold run_line, try_except. intros Hrun. exists request. split; [done|].
  destruct (is_method (req_method request) "tools/call") eqn:Hcall.
  - split; [done|].
    destruct (handle_request request s) as [[[]|e0] s0]; [done|].
    destruct (is_Exception e0); [done|]. by injection Hrun as -> _.
  - destruct (handle_request_returns request s Hcall) as [s0 Hreturns].
    by rewrite Hreturns in Hrun.
Qed.

(** The loop of [run]: the lines it answers, in order, up to the end of the
    input or up to the line on which it stops. *)
Lemma run_loop_account (lines : list Line) (s : UnifiedMCPServer) :
  exists answered new,
    stdout (run_loop lines s).2 = stdout s ++ new /\
    length new = length (filter (fun line => expects_response line = true) answered) /\
    match (run_loop lines s).1 with
    | Return _ => answered = lines
    | Raise e =>
        is_Exception e = false /\
        exists request rest s0,
          lines = answered ++ Parsed request :: rest /\
          is_method (req_method request) "tools/call" = true /\
          (handle_request request s0).1 = Raise e
    end.
Proof.
  revert s. induction lines as [|line lines IH]; intros s.
  - exists [], []. by rewrite app_nil_r.
  - destruct (emits_run _ (run_line line) s (run_line_emits line))
      as (res & s0 & new & _ & Hrun & Hres).
    cbn [run_loop]. unfold bind. rewrite Hrun. destruct res as [[]|e].
    + destruct (IH (set_stdout (stdout s ++ new) s0))
        as (answered & new' & Hout & Hlen & Hrest).
      exists (line :: answered), (new ++ new'). split; [|split].
      * by rewrite Hout, app_assoc.
      * rewrite filter_cons, length_app, Hres, Hlen.
        by destruct (expects_response line).
      * destruct (run_loop lines _).1 as [[]|e]; [by rewrite Hrest|].
        destruct Hrest as (He & request & rest & s1 & -> & Hcall & Hraise).
        split; [done|]. by exists request, rest, s1.
    + destruct Hres as [He ->]. exists [], []. split; [done|]. split; [done|].
      cbn [fst]. split; [done|].
      destruct (run_line_raises _ _ _ _ Hrun) as (request & -> & Hcall & Hraise).
      by exists request, lines, s.
Qed.

(** A session in which the user interrupts [boot_simulator]: the
    [initialize] line is answered, the interrupted call and the
    [tools/list] line after it are not, and [run] returns. *)
Example interrupted_call_ends_the_session :
  let s := UnifiedMCPServer_init Demo.interrupted_registry false (fun _ => 0%float) in
  let lines := [ Parsed (Demo.request "initialize" None 1);
                 Parsed (Demo.request "tools/call"
                           (Some (Demo.tools_call "boot_simulator" [])) 2);
                 Parsed (Demo.request "tools/list" None 3) ] in
  (run lines s).1 = Return tt /\
  length (stdout (run lines s).2) = 1 /\
  history (run lines s).2 = [("boot_simulator", [])].
Proof. vm_compute. done. Qed.

(** X12: one response per request, as far as the loop gets.  [run] goes
    through the lines of a session in order and writes exactly one response
    for each line that is not blank and is not the
    [notifications/initialized] notification, and none for those; what was
    written before stays in front.  It gets to the end of the input and
    returns, whatever [Exception] the handlers and the tools raise, unless a
    [tools/call] raises what is no [Exception]: that line and the lines
    after it get no response, and [run] returns if the exception is a
    [KeyboardInterrupt] and raises it otherwise. *)
Theorem every_request_line_gets_one_response (lines : list Line)
    (s : UnifiedMCPServer) :
  exists answered new,
    stdout (run lines s).2 = stdout s ++ new /\
    length new = length (filter (fun line => expects_response line = true) answered) /\
    ((answered = lines /\ (run lines s).1 = Return tt) \/
     exists request rest s0 e,
       lines = answered ++ Parsed request :: rest /\
       is_method (req_method request) "tools/call" = true /\
       (handle_request request s0).1 = Raise e /\
       is_Exception e = false /\
       (run lines s).1 = match exn_base e with
                         | KeyboardInterrupt => Return tt
                         | _ => Raise e
                         end).
Proof.
  destruct (run_loop_account lines s) as (answered & new & Hout & Hlen & Hres).
  exists answered, new. unfold run.
  destruct (run_loop lines s) as [[[]|e] s'] eqn:Hloop; cbn [fst snd] in *.
  - split; [done|]. split; [done|]. by left.
  - destruct Hres as (He & request & rest & s0 & -> & Hcall & Hraise).
    unfold is_Exception in He.
    split; [by destruct (exn_base e)|]. split; [done|]. right.
    exists request, rest, s0, e. split; [done|]. split; [done|]. split; [done|].
    split; [done|]. by destruct (exn_base e).
Qed.

End Session.

(** ** Listing the tools *)

Section Listing.
Context `{Platform}.

(** X13: the schema cache knows a tool by its name only.  Once a schema
    has been rendered for a definition, a request for ANOTHER definition
    that carries the same name, made while the code's test
    [now - cached_time < 300], in the floating-point arithmetic of the code,
    finds the entry younger than five minutes, is answered with the schema
    of the first one: the parameters of the second definition are not
    looked at. *)
Theorem schema_cache_is_keyed_by_name_only (first second : ToolDef)
    (s : UnifiedMCPServer) :
  td_name second = td_name first ->
  _tool_cache s !! ("schema_" +:+ default "None" (td_name first)) = None ->
  cache_entry_is_fresh (clock s (S (ticks s))) (clock s (ticks s)) = true ->
  exists s',
    (do schema1 <- _get_tool_schema_enhanced first ;
     do schema2 <- _get_tool_schema_enhanced second ;
     ret (schema1, schema2)) s
    = (Return (render_tool_schema first, render_tool_schema first), s') /\
    _tool_cache s' =
      <["schema_" +:+ default "None" (td_name first) :=
          (clock s (ticks s), render_tool_schema first)]> (_tool_cache s).
Proof.
  intros Hname Hfresh Hyoung.
  unfold _get_tool_schema_enhanced. cbv zeta. rewrite Hname.
  unfold bind at 1. unfold bind at 1. unfold get at 1. rewrite Hfresh.
  unfold bind at 1. unfold time_time at 1.
  unfold bind at 1. unfold modify at 1. unfold ret at 1.
  unfold bind at 1. unfold bind at 1. unfold get at 1.
  cbn [_tool_cache set_tool_cache set_ticks ticks clock].
  rewrite lookup_insert_eq.
  unfold bind at 1. unfold time_time at 1.
  cbn [_tool_cache set_tool_cache set_ticks ticks clock].
  rewrite Hyoung. eexists. split; [reflexivity|]. reflexivity.
Qed.

Lemma mapM_calm_length {A B} (g : A -> M B) (xs : list A) :
  (forall x, calm (g x)) ->
  emits (fun res new => new = [] /\ exists ys, res = Return ys /\ length ys = length xs)
    (mapM g xs).
Proof.
  intros Hg. induction xs as [|x xs IH]; simpl.
  - intros s. exists (Return []), s, []. split; [|by eauto].
    intros out. by rewrite app_nil_r.
  - apply emits_bind_calm; [apply Hg|]. intros y.
    intros s. destruct (IH s) as (res & s0 & new & Hrun & -> & ys & -> & Hlen).
    exists (Return (y :: ys)), s0, []. split.
    + intros out. unfold bind. by rewrite Hrun.
    + split; [done|]. exists (y :: ys). simpl. by rewrite Hlen.
Qed.

Lemma preserves_get_tool_schema_enhanced {A} (f : UnifiedMCPServer -> A)
    (tool_def : ToolDef) :
  stable f -> preserves f (_get_tool_schema_enhanced tool_def).
Proof.
  intros Hf. unfold _get_tool_schema_enhanced. cbv zeta.
  apply preserves_bind; [apply preserves_get|]. intros cache.
  assert (Hrender : forall k,
            preserves f
              (do now <- time_time ;
               modify (fun s => set_tool_cache
                                  (<[k := (now, render_tool_schema tool_def)]>
                                     (_tool_cache s)) s) ;;
               ret (render_tool_schema tool_def))).
  { intros k. apply preserves_bind; [by apply preserves_time_time|]. intros now.
    apply preserves_bind; [|intros; apply preserves_ret].
    apply preserves_modify. intros s. apply (stable_tool_cache f Hf). }
  destruct (cache !! _) as [[cached_time cached_schema]|]; [|apply Hrender].
  apply preserves_bind; [by apply preserves_time_time|]. intros now.
  destruct (cache_entry_is_fresh _ _); [apply preserves_ret|apply Hrender].
Qed.

(** X14: the listing keeps the promise of the handshake.  The answer to
    [initialize] announces a number of direct tools and a number of
    subagentic tools; the answer to a [tools/list] that follows lists as many
    tools as the two numbers add up to, whatever the schema cache holds. *)
Theorem listing_has_the_announced_number_of_tools (id_initialize id_list : option JSON)
    (s : UnifiedMCPServer) :
  exists announced listed direct subagentic s1 s2,
    handle_initialize id_initialize s = (Return tt, s1) /\
    stdout s1 = stdout s ++ [result_response id_initialize announced] /\
    json_path ["serverInfo"; "features"; "direct_tools"] announced
      = Some (JInt direct) /\
    json_path ["serverInfo"; "features"; "subagentic_tools"] announced
      = Some (JInt subagentic) /\
    handle_tools_list id_list s1 = (Return tt, s2) /\
    stdout s2 =
      stdout s1 ++ [result_response id_list (JDict [("tools", JList listed)])] /\
    Z.of_nat (length listed) = (direct + subagentic)%Z.
Proof.
  pose (s1 := (handle_initialize id_initialize s).2).
  assert (Hreg : registry s1 = registry s) by reflexivity.
  assert (Hen : langgraph_enabled s1 = langgraph_enabled s) by reflexivity.
  destruct (emits_run _ (mapM _get_tool_schema_enhanced (list_tools (registry s1))) s1
              (mapM_calm_length _ _ calm_get_tool_schema_enhanced))
    as (res & s0 & new & _ & Hrun & -> & schemas & -> & Hlen).
  assert (Hen0 : langgraph_enabled (set_stdout (stdout s1 ++ []) s0)
                 = langgraph_enabled s1).
  { pose proof (preserves_mapM langgraph_enabled _get_tool_schema_enhanced
                  (list_tools (registry s1))
                  (fun d => preserves_get_tool_schema_enhanced langgraph_enabled d
                              ltac:(by split)) s1) as Hp.
    by rewrite Hrun in Hp. }
  eexists _, (schemas ++ if langgraph_enabled s then langgraph_tool_schemas else []),
    _, _, s1, _.
  split; [reflexivity|]. split; [reflexivity|].
  split; [reflexivity|]. split; [reflexivity|].
  split; [|split].
  - unfold handle_tools_list. unfold bind at 1. unfold get at 1.
    unfold bind at 1. rewrite Hrun.
    unfold bind at 1. unfold get at 1. rewrite Hen0, Hen. reflexivity.
  - cbn [stdout set_stdout]. by rewrite app_nil_r.
  - rewrite length_app, Hlen. unfold list_tools. rewrite length_fmap, Hreg.
    cbn [registry langgraph_enabled set_initialized].
    destruct (langgraph_enabled s); cbn [length langgraph_tool_schemas]; lia.
Qed.

End Listing.

Section ListingInstances.
#[local] Existing Instance Demo.platform.

(** X13 on the demo server, whose clock reads 0 and then 1: the second
    definition of [build_project] has a parameter, the schema served for it
    has none. *)
Lemma schema_cache_is_keyed_by_name_only_witness :
  exists s',
    (do schema1 <- _get_tool_schema_enhanced (Demo.tool "build_project") ;
     do schema2 <-
       _get_tool_schema_enhanced
         {| td_name := Some "build_project"; td_description := None;
            td_parameters :=
              [ {| param_name := "scheme"; param_type := None;
                   param_description := None; param_required := None |} ] |} ;
     ret (schema1, schema2)) (Demo.server false)
    = (Return (render_tool_schema (Demo.tool "build_project"),
               render_tool_schema (Demo.tool "build_project")), s') /\
    _tool_cache s' =
      <["schema_" +:+ default "None" (td_name (Demo.tool "build_project")) :=
          (clock (Demo.server false) (ticks (Demo.server false)),
           render_tool_schema (Demo.tool "build_project"))]>
        (_tool_cache (Demo.server false)).
Proof.
  apply (schema_cache_is_keyed_by_name_only (Demo.tool "build_project")
           {| td_name := Some "build_project"; td_description := None;
              td_parameters :=
                [ {| param_name := "scheme"; param_type := None;
                     param_description := None; param_required := None |} ] |}
           (Demo.server false)); reflexivity.
Defined.

End ListingInstances.

(** ** The two caches over a session *)

Section Caches.
Context `{Platform}.

Lemma keeps_cache_entries_refl (s : UnifiedMCPServer) : keeps_cache_entries s s.
Proof. by split. Qed.

Lemma keeps_cache_entries_trans (s1 s2 s3 : UnifiedMCPServer) :
  keeps_cache_entries s1 s2 -> keeps_cache_entries s2 s3 -> keeps_cache_entries s1 s3.
Proof. intros [? ?] [? ?]. split; by etransitivity. Qed.

Lemma advances_ret {A} (a : A) : advances keeps_cache_entries (ret a).
Proof. intros s. apply keeps_cache_entries_refl. Qed.

Lemma advances_raise {A} (e : PyExn) : advances keeps_cache_entries (@raise A e).
Proof. intros s. apply keeps_cache_entries_refl. Qed.

Lemma advances_get {A} (f : UnifiedMCPServer -> A) :
  advances keeps_cache_entries (get f).
Proof. intros s. apply keeps_cache_entries_refl. Qed.

Lemma advances_lift {A} (r : PyResult A) : advances keeps_cache_entries (lift r).
Proof. intros s. apply keeps_cache_entries_refl. Qed.

Lemma advances_modify (g : UnifiedMCPServer -> UnifiedMCPServer) :
  (forall s, keeps_cache_entries s (g s)) -> advances keeps_cache_entries (modify g).
Proof. intros Hg s. apply Hg. Qed.

Lemma advances_bind {A B} (m : M A) (k : A -> M B) :
  advances keeps_cache_entries m ->
  (forall a, advances keeps_cache_entries (k a)) ->
  advances keeps_cache_entries (bind m k).
Proof.
  intros Hm Hk s. unfold bind. specialize (Hm s).
  destruct (m s) as [[a|e] s']; simpl in *; [|done].
  eapply keeps_cache_entries_trans; [exact Hm|apply Hk].
Qed.

Lemma advances_try_except {A} (body : M A) (handler : PyExn -> M A) :
  advances keeps_cache_entries body ->
  (forall e, advances keeps_cache_entries (handler e)) ->
  advances keeps_cache_entries (try_except body handler).
Proof.
  intros Hm Hk s. unfold try_except. specialize (Hm s).
  destruct (body s) as [[a|e] s']; simpl in *; [done|].
  destruct (is_Exception e); [|done].
  eapply keeps_cache_entries_trans; [exact Hm|apply Hk].
Qed.

Lemma advances_time_time : advances keeps_cache_entries time_time.
Proof. intros s. by split. Qed.

Lemma advances_send_response id result error :
  advances keeps_cache_entries (send_response id result error).
Proof. intros s. by split. Qed.

Lemma advances_call_execute_tool tool_name arguments :
  advances keeps_cache_entries (call_execute_tool tool_name arguments).
Proof.
  intros s. unfold call_execute_tool.
  destruct (bind_kwargs arguments); [|by split].
  destruct (execute_tool _ _ _ _). by split.
Qed.

Lemma advances_agent_run_sync a prompt :
  advances keeps_cache_entries (agent_run_sync a prompt).
Proof.
  intros s. unfold agent_run_sync, asyncio_run.
  destruct (event_loop_running s); [by split|].
  destruct (run_sync _ _ _). by split.
Qed.

Lemma advances_mapM {A B} (g : A -> M B) (xs : list A) :
  (forall x, advances keeps_cache_entries (g x)) ->
  advances keeps_cache_entries (mapM g xs).
Proof.
  intros Hg. induction xs as [|x xs IH]; simpl.
  - apply advances_ret.
  - apply advances_bind; [apply Hg|]. intros y.
    apply advances_bind; [apply IH|]. intros ys. apply advances_ret.
Qed.

(** An assignment leaves both caches alone or enters a key into one. *)
Ltac cache_setter :=
  intros; split; cbn [_response_cache _tool_cache set_response_cache set_tool_cache
                      set_initialized set_langgraph_agent];
  first [ reflexivity | apply dom_insert_subseteq ].

Ltac advance :=
  repeat first
    [ match goal with
      | |- advances _ _ => fail 1
      | |- forall _, _ => intro
      end
    | match goal with |- advances _ (let _ := _ in _) => cbv zeta end
    | apply advances_mapM
    | apply advances_time_time | apply advances_send_response
    | apply advances_call_execute_tool | apply advances_agent_run_sync
    | match goal with
      | |- advances _ (match ?x with _ => _ end) => destruct x
      end
    | apply advances_ret | apply advances_raise | apply advances_get
    | apply advances_lift
    | apply advances_modify; cache_setter
    | apply advances_bind | apply advances_try_except ].

Lemma advances_handle_request (request : Request) :
  advances keeps_cache_entries (handle_request request).
Proof.
  unfold handle_request, handle_initialize, handle_tools_list, handle_tools_call,
    _get_tool_schema_enhanced, _handle_langgraph_tool, execute_and_respond,
    agent_for, _get_langgraph_agent, send_result, send_error.
  advance.
Qed.

Lemma advances_run_line (line : Line) :
  advances keeps_cache_entries (run_line line).
Proof.
  destruct line; simpl; [apply advances_ret|apply advances_send_response|].
  apply advances_try_except; [apply advances_handle_request|].
  intros e. apply advances_send_response.
Qed.

(** X15: nothing is ever evicted.  No request of a session removes a key
    from the response cache or from the schema cache: an entry past its five
    minutes is skipped and overwritten when the same call is made again, and
    stays where it is otherwise.  The set of cached keys only grows. *)
Theorem cache_entries_are_never_evicted (lines : list Line) (s : UnifiedMCPServer) :
  dom (_response_cache s) ⊆ dom (_response_cache (run lines s).2) /\
  dom (_tool_cache s) ⊆ dom (_tool_cache (run lines s).2).
Proof.
  change (keeps_cache_entries s (run lines s).2).
  assert (Hloop : advances keeps_cache_entries (run_loop lines)).
  { induction lines as [|line lines IH]; simpl; [apply advances_ret|].
    apply advances_bind; [apply advances_run_line|]. intros _. apply IH. }
  unfold run. specialize (Hloop s).
  destruct (run_loop lines s) as [[[]|e] s']; [done|]. by destruct (exn_base e).
Qed.

(** X16: a direct call runs the tool it names, once at most.  A
    [tools/call] for a name without the [langgraph_] prefix leaves the
    sequence of implementation calls as it was (the answer came from the
    cache, the name is empty or unbound, or the arguments did not bind) or
    appends the one call of the named tool with the arguments given; it
    never calls another implementation. *)
Theorem direct_call_runs_only_the_named_tool (params : Params)
    (request_id : option JSON) (s : UnifiedMCPServer) :
  String.prefix "langgraph_" (default "" (params_name params)) = false ->
  let history' := history (handle_tools_call params request_id s).2 in
  history' = history s \/
  history' = history s ++ [(default "" (params_name params),
                            default [] (params_arguments params))].
Proof.
  intros Hprefix. cbv zeta.
  destruct (String.eqb (default "" (params_name params)) "") eqn:Hname.
  { unfold handle_tools_call. cbv zeta. rewrite Hname. by left. }
  apply String.eqb_neq in Hname.
  destruct params as [[tool_name|] arguments]; [|done].
  cbn [params_name params_arguments default from_option id] in *.
  assert (Hexec : forall arguments key s0,
            history s0 = history s ->
            let h := history (execute_and_respond tool_name arguments key
                                request_id s0).2 in
            h = history s \/ h = history s ++ [(tool_name, arguments)]).
  { intros args key s0 Hs0. cbv zeta.
    unfold execute_and_respond, call_execute_tool, bind.
    destruct (bind_kwargs args) as [kwargs|e] eqn:Hbind; [|by left].
    apply bind_kwargs_returns in Hbind. subst kwargs.
    unfold execute_tool.
    destruct (get_tool_implementation (registry s0) tool_name) as [impl|].
    - rewrite Hs0. destruct (impl (history s) args) as [result|e]; [by right|].
      destruct (is_Exception e); by right.
    - by left. }
  assert (Hcall : forall arguments,
            let h := history (handle_tools_call
                                {| params_name := Some tool_name;
                                   params_arguments := Some arguments |}
                                request_id s).2 in
            h = history s \/ h = history s ++ [(tool_name, arguments)]).
  { intros args. cbv zeta. rewrite handle_tools_call_ordinary by done.
    destruct (_response_cache s !! _) as [[cached_time cached_result]|];
      [|by apply Hexec].
    destruct (cache_entry_is_fresh _ _); [by left|by apply Hexec]. }
  destruct arguments as [arguments|]; [apply Hcall|].
  apply (Hcall []).
Qed.

End Caches.

(** ** Orchestration calls *)

Section OrchestrationCalls.
Context `{Platform}.

Lemma agent_for_singleton (model persona_config : JSON) (a : XcodeLangGraphAgent)
    (s : UnifiedMCPServer) :
  _langgraph_agent s = Some a ->
  truthy persona_config = false ->
  agent_for model persona_config s = (Return a, s).
Proof.
  intros Hagent Hpersona.
  unfold agent_for, _get_langgraph_agent, bind, get, ret.
  by rewrite Hpersona, Hagent.
Qed.

(** X17: the first agent stays.  Once the process has its agent, a
    [langgraph_agent] call without a persona runs on that agent whatever
    [model] the call asks for: the call with a [model] argument, any at all,
    is answered exactly as the call without it, from the same state to the
    same state. *)
Theorem later_model_override_is_ignored (a : XcodeLangGraphAgent) (arguments : Args)
    (model : JSON) (request_id : option JSON) (s : UnifiedMCPServer) :
  _langgraph_agent s = Some a ->
  truthy (default JNull (dict_get "persona" arguments)) = false ->
  _handle_langgraph_tool "langgraph_agent" (dict_set "model" model arguments)
    request_id s =
  _handle_langgraph_tool "langgraph_agent" arguments request_id s.
Proof.
  intros Hagent Hpersona. unfold _handle_langgraph_tool, try_except.
  rewrite String.eqb_refl.
  rewrite (dict_get_set_ne "prompt" "model") by done.
  rewrite (dict_get_set_ne "persona" "model") by done.
  destruct (negb (truthy (default JNull (dict_get "prompt" arguments))));
    [reflexivity|].
  unfold bind. by rewrite !(agent_for_singleton _ _ a s Hagent Hpersona).
Qed.

Lemma agent_for_persona (model persona_config : JSON) (system_prompt : string)
    (s : UnifiedMCPServer) :
  truthy persona_config = true ->
  persona_prompt persona_config = Return system_prompt ->
  agent_for model persona_config s =
    match create_langgraph_agent (registry s) model (Some system_prompt) with
    | Return a => (Return a, s)
    | Raise e => (Raise e, s)
    end.
Proof.
  intros Htruthy Hprompt.
  unfold agent_for, bind, get, ret, lift. rewrite Htruthy, Hprompt.
  by destruct (create_langgraph_agent _ _ _).
Qed.

(** Two agents made for the same model differ in the stored system prompt
    only. *)
Lemma create_langgraph_agent_system_prompt (registry : ToolRegistry) (model : JSON)
    (sp1 sp2 : option string) :
  match create_langgraph_agent registry model sp1,
        create_langgraph_agent registry model sp2 with
  | Return a1, Return a2 => agent_llm a1 = agent_llm a2 /\ agent_tools a1 = agent_tools a2
  | Raise e1, Raise e2 => e1 = e2
  | _, _ => False
  end.
Proof.
  unfold create_langgraph_agent.
  destruct (negb LANGGRAPH_AVAILABLE); [done|].
  destruct model; try done. by destruct (_create_llm s).
Qed.

(** X18: a persona does not reach the model.  The system prompt built from
    a persona is stored in the agent and never sent: the nodes hand the
    reasoning function the messages of the state only.  So two orchestration
    calls that differ in their persona alone are answered alike, from the
    same state to the same state. *)
Theorem persona_does_not_change_the_answer (tool_name : string) (arguments : Args)
    (persona1 persona2 : JSON) (system_prompt1 system_prompt2 : string)
    (request_id : option JSON) (s : UnifiedMCPServer) :
  truthy persona1 = true ->
  truthy persona2 = true ->
  persona_prompt persona1 = Return system_prompt1 ->
  persona_prompt persona2 = Return system_prompt2 ->
  _handle_langgraph_tool tool_name (dict_set "persona" persona1 arguments)
    request_id s =
  _handle_langgraph_tool tool_name (dict_set "persona" persona2 arguments)
    request_id s.
Proof.
  intros Ht1 Ht2 Hp1 Hp2. unfold _handle_langgraph_tool, try_except.
  rewrite !(dict_get_set_ne "prompt" "persona") by done.
  rewrite !(dict_get_set_ne "model" "persona") by done.
  rewrite !(dict_get_set_ne "workflow" "persona") by done.
  rewrite !(dict_get_set_ne "context" "persona") by done.
  rewrite !dict_get_set_eq. cbn [default from_option id].
  assert (Hrun : forall model prompt (k : AgentState -> M unit),
            (do agent <- agent_for model persona1 ;
             do result <- agent_run_sync agent prompt ; k result) s =
            (do agent <- agent_for model persona2 ;
             do result <- agent_run_sync agent prompt ; k result) s).
  { intros model prompt k. unfold bind at 1 3.
    rewrite (agent_for_persona model persona1 system_prompt1 s Ht1 Hp1).
    rewrite (agent_for_persona model persona2 system_prompt2 s Ht2 Hp2).
    pose proof (create_langgraph_agent_system_prompt (registry s) model
                  (Some system_prompt1) (Some system_prompt2)) as Hsame.
    destruct (create_langgraph_agent (registry s) model (Some system_prompt1))
      as [a1|e1], (create_langgraph_agent (registry s) model (Some system_prompt2))
      as [a2|e2]; try done.
    - destruct Hsame as [Hllm Htools]. unfold bind, agent_run_sync, asyncio_run.
      by rewrite (run_sync_same_client_and_tools a1 a2 prompt (history s) Hllm Htools).
    - by subst e2. }
  destruct (String.eqb tool_name "langgraph_agent").
  { destruct (negb (truthy _)); [done|]. by rewrite Hrun. }
  destruct (String.eqb tool_name "langgraph_workflow"); [|done].
  destruct (negb (truthy _)); [done|]. by rewrite Hrun.
Qed.

(** X19: a workflow call never gets its result.  The answer to
    [langgraph_workflow] is built by [json.dumps] over the final state of
    the run, which holds message objects; so whenever the run returns, the
    dump raises, and like every other failure of the call it is answered
    with error -32000.  No [langgraph_workflow] call is answered with a
    result: the handler returns with that error written, or, when the agent
    it runs raises what [except Exception] does not catch, raises with
    nothing written. *)
Theorem workflow_call_is_never_answered_with_a_result (arguments : Args)
    (request_id : option JSON) (s : UnifiedMCPServer) :
  match _handle_langgraph_tool "langgraph_workflow" arguments request_id s with
  | (Return _, s') =>
      exists text,
        stdout s' =
          stdout s ++
          [error_response request_id (-32000) ("Tool execution failed: " +:+ text)]
  | (Raise e, s') => is_Exception e = false /\ stdout s' = stdout s
  end.
Proof.
  unfold _handle_langgraph_tool.
  change (String.eqb "langgraph_workflow" "langgraph_agent") with false.
  rewrite String.eqb_refl. cbv iota.
  set (body := if negb (truthy (default JNull (dict_get "workflow" arguments)))
               then _ else _).
  assert (Hbody : emits (fun res new => new = [] /\ exists e, res = Raise e) body).
  { subst body. destruct (negb (truthy _)).
    { apply emits_raise. eauto. }
    apply emits_bind_quiet; [apply quiet_agent_for|by eauto|]. intros a.
    intros s0. unfold bind at 1.
    destruct (emits_run _ _ s0 (quiet_agent_run_sync a
                (JStr ("Execute this Xcode development workflow:
" +:+ py_str (default JNull (dict_get "workflow" arguments)) +:+ "

Context: " +:+ json_dumps_compact (default (JDict []) (dict_get "context" arguments)) +:+ "

Break this down into steps and execute them using the available tools. Provide clear progress updates."))))
      as (res & s1 & new & Hany & Hrun & ->).
    destruct res as [state|e].
    2:{ exists (Raise e), s1, []. split; [|by eauto].
        intros out. unfold bind. by rewrite Hany. }
    assert (Hmsgs : messages state <> []).
    { unfold agent_run_sync, asyncio_run in Hrun.
      destruct (event_loop_running s0); [done|].
      destruct (run_sync a _ (history s0)) as [r h] eqn:Hsync.
      injection Hrun as -> _. by apply returned_run_has_messages in Hsync. }
    destruct (messages state) as [|m ms] eqn:Hstate; [done|].
    eexists (Raise _), s1, []. split; [|by eauto].
    intros out. unfold bind. rewrite Hany. unfold lift, dump_workflow_answer.
    rewrite Hstate. reflexivity. }
  destruct (emits_run _ _ s Hbody) as (res & s0 & new & _ & Hrun & -> & e & ->).
  unfold try_except. rewrite Hrun. destruct (is_Exception e) eqn:He.
  - unfold send_error, send_response, modify. cbn [stdout set_stdout].
    rewrite app_nil_r. by eexists.
  - split; [done|]. cbn [stdout set_stdout]. by rewrite app_nil_r.
Qed.

End OrchestrationCalls.

(** ** The network adapters against the stdio loop *)

Section Network.
Context `{Platform}.

Lemma set_stdout_set_stdout (out out' : list Response) (s : UnifiedMCPServer) :
  set_stdout out (set_stdout out' s) = set_stdout out s.
Proof. reflexivity. Qed.

Lemma set_event_loop_running_same (s : UnifiedMCPServer) :
  set_event_loop_running (event_loop_running s) s = s.
Proof. by destruct s. Qed.

(** *** Code that does not ask for the event loop *)

Lemma oblivious_ret {A} (a : A) : oblivious (ret a).
Proof. by intros b s. Qed.

Lemma oblivious_raise {A} (e : PyExn) : oblivious (@raise A e).
Proof. by intros b s. Qed.

Lemma oblivious_lift {A} (r : PyResult A) : oblivious (lift r).
Proof. by intros b s. Qed.

Lemma oblivious_get {A} (f : UnifiedMCPServer -> A) :
  (forall b s, f (set_event_loop_running b s) = f s) -> oblivious (get f).
Proof. intros Hf b s. unfold get. by rewrite Hf. Qed.

Lemma oblivious_modify (g : UnifiedMCPServer -> UnifiedMCPServer) :
  (forall b s, g (set_event_loop_running b s) = set_event_loop_running b (g s)) ->
  oblivious (modify g).
Proof. intros Hg b s. unfold modify. by rewrite Hg. Qed.

Lemma oblivious_bind {A B} (m : M A) (k : A -> M B) :
  oblivious m -> (forall a, oblivious (k a)) -> oblivious (bind m k).
Proof.
  intros Hm Hk b s. unfold bind. rewrite (Hm b s).
  destruct (m s) as [[a|e] s']; cbn [fst snd]; [apply Hk|done].
Qed.

Lemma oblivious_try_except {A} (body : M A) (handler : PyExn -> M A) :
  oblivious body -> (forall e, oblivious (handler e)) ->
  oblivious (try_except body handler).
Proof.
  intros Hm Hk b s. unfold try_except. rewrite (Hm b s).
  destruct (body s) as [[a|e] s']; cbn [fst snd]; [done|].
  destruct (is_Exception e); [apply Hk|done].
Qed.

Lemma oblivious_time_time : oblivious time_time.
Proof. by intros b s. Qed.

Lemma oblivious_send_response id result error :
  oblivious (send_response id result error).
Proof. by intros b s. Qed.

Lemma oblivious_call_execute_tool tool_name arguments :
  oblivious (call_execute_tool tool_name arguments).
Proof.
  unfold call_execute_tool. destruct (bind_kwargs arguments); [|apply oblivious_raise].
  intros b s. cbn [registry history set_event_loop_running].
  by destruct (execute_tool _ _ _ _).
Qed.

Lemma oblivious_mapM {A B} (g : A -> M B) (xs : list A) :
  (forall x, oblivious (g x)) -> oblivious (mapM g xs).
Proof.
  intros Hg. induction xs as [|x xs IH]; simpl.
  - apply oblivious_ret.
  - apply oblivious_bind; [apply Hg|]. intros y.
    apply oblivious_bind; [apply IH|]. intros ys. apply oblivious_ret.
Qed.

(** Steps through a handler that never comes to [asyncio.run]. *)
Ltac unaware :=
  repeat first
    [ match goal with
      | |- oblivious _ => fail 1
      | |- forall _, _ => intro
      end
    | match goal with |- oblivious (let _ := _ in _) => cbv zeta end
    | apply oblivious_mapM
    | apply oblivious_time_time | apply oblivious_send_response
    | apply oblivious_call_execute_tool
    | match goal with
      | |- oblivious (match ?x with _ => _ end) => destruct x
      end
    | apply oblivious_ret | apply oblivious_raise
    | apply oblivious_get; reflexivity
    | apply oblivious_lift
    | apply oblivious_modify; reflexivity
    | apply oblivious_bind | apply oblivious_try_except ].

Lemma oblivious_handle_initialize (request_id : option JSON) :
  oblivious (handle_initialize request_id).
Proof. unfold handle_initialize, send_result. unaware. Qed.

Lemma oblivious_handle_tools_list (request_id : option JSON) :
  oblivious (handle_tools_list request_id).
Proof.
  unfold handle_tools_list, _get_tool_schema_enhanced, send_result. unaware.
Qed.

(** A [tools/call] that is no call of [langgraph_agent] or
    [langgraph_workflow] never comes to [asyncio.run]. *)
Lemma oblivious_handle_tools_call (params : Params) (request_id : option JSON) :
  String.eqb (default "" (params_name params)) "langgraph_agent" = false ->
  String.eqb (default "" (params_name params)) "langgraph_workflow" = false ->
  oblivious (handle_tools_call params request_id).
Proof.
  intros Hagent Hworkflow.
  unfold handle_tools_call, _handle_langgraph_tool, execute_and_respond,
    _get_langgraph_agent, send_result, send_error.
  cbv zeta. rewrite Hagent, Hworkflow. unaware.
Qed.

Lemma oblivious_with_capture {A} (handler : M A) :
  oblivious handler -> oblivious (with_capture handler).
Proof.
  intros Hh b s. unfold with_capture.
  change (set_stdout [] (set_event_loop_running b s))
    with (set_event_loop_running b (set_stdout [] s)).
  rewrite (Hh b (set_stdout [] s)).
  by destruct (handler (set_stdout [] s)) as [[a|e] s'].
Qed.

Lemma oblivious_captured {B} (request_id : option JSON) (handler : M unit)
    (wrap : Response -> B) :
  oblivious handler ->
  oblivious (do response <- captured_or_processed request_id handler ;
             ret (wrap response)).
Proof.
  intros Hh. unfold captured_or_processed.
  apply oblivious_bind; [|intros; apply oblivious_ret].
  apply oblivious_bind; [by apply oblivious_with_capture|].
  intros; apply oblivious_ret.
Qed.

(** Such code does in a coroutine of the network server what it does in
    the stdio loop. *)
Lemma in_event_loop_oblivious {A} (body : M A) (s : UnifiedMCPServer) :
  oblivious body -> in_event_loop body s = body s.
Proof.
  intros Hb. unfold in_event_loop. rewrite (Hb true s).
  pose proof (Hb (event_loop_running s) s) as Hsame.
  rewrite set_event_loop_running_same in Hsame.
  destruct (body s) as [res s'] eqn:Hbody. cbn [fst snd] in *.
  injection Hsame as Hs'. f_equal.
  transitivity (set_event_loop_running (event_loop_running s) s'); [reflexivity|].
  by symmetry.
Qed.

(** A handler under the stdio loop and under the capture of the network
    server: the response written is the response captured, an [Exception]
    is reported with the same text, and what is no [Exception] leaves
    both. *)
Lemma captured_is_written (request_id : option JSON) (handler : M unit)
    (s : UnifiedMCPServer) :
  emits (one_reply request_id) handler ->
  match try_except handler
          (fun e => send_error None (-32603) ("Internal error: " +:+ exn_str e)) s with
  | (Return _, s1) =>
      exists r,
        stdout s1 = stdout s ++ [r] /\
        match with_capture handler s with
        | (Return (_, captured), s2) =>
            captured = Some r /\ response_id r = request_id /\
            s2 = set_stdout (stdout s) s1
        | (Raise e, s2) =>
            is_Exception e = true /\
            r = error_response None (-32603) ("Internal error: " +:+ exn_str e) /\
            s2 = set_stdout (stdout s) s1
        end
  | (Raise e, s1) =>
      is_Exception e = false /\ stdout s1 = stdout s /\
      with_capture handler s = (Raise e, set_stdout (stdout s) s1)
  end.
Proof.
  intros Hh. destruct (emits_run _ handler s Hh) as (res & s0 & new & Hany & Hrun & HQ).
  unfold try_except, with_capture. rewrite Hrun, (Hany []).
  destruct res as [[]|e]; simpl in HQ.
  - destruct HQ as (r & -> & Hid). exists r. split; [reflexivity|]. done.
  - subst new. destruct (is_Exception e) eqn:He.
    + eexists. split; [simpl; by rewrite app_nil_r|]. done.
    + split; [done|]. split; [simpl; by rewrite app_nil_r|]. done.
Qed.

Lemma one_reply_of_sure (request_id : option JSON) (m : M unit) :
  emits (sure_reply request_id) m -> emits (one_reply request_id) m.
Proof. apply emits_weaken. by intros res new [-> Hr]. Qed.

(** X20: the WebSocket handler sends what the stdio loop writes, for every
    request that does not run the agent.  For a request other than the
    [notifications/initialized] notification and other than a [tools/call]
    of [langgraph_agent] or [langgraph_workflow], [handle_message] sends
    exactly one object, the very response the loop of [run] writes for the
    same request from the same state, error responses and the -32603 of an
    [Exception] included; it raises what the loop raises; and it leaves the
    server in the same state, but for what has been written to standard
    output. *)
Theorem websocket_sends_what_stdio_writes (request : Request) (s : UnifiedMCPServer) :
  is_method (req_method request) "notifications/initialized" = false ->
  calls_the_agent request = false ->
  match run_line (Parsed request) s with
  | (Return _, s1) =>
      exists r,
        stdout s1 = stdout s ++ [r] /\
        handle_message (Parsed request) s = (Return [r], set_stdout (stdout s) s1)
  | (Raise e, s1) =>
      is_Exception e = false /\
      handle_message (Parsed request) s = (Raise e, set_stdout (stdout s) s1)
  end.
Proof.
  intros Hnot Hagent. unfold calls_the_agent in Hagent. cbv zeta in Hagent.
  unfold handle_message. rewrite in_event_loop_oblivious.
  2:{ apply oblivious_try_except; [|intros; apply oblivious_ret]. cbv zeta.
      destruct (is_method (req_method request) "initialize").
      { apply oblivious_captured, oblivious_handle_initialize. }
      destruct (is_method (req_method request) "tools/list").
      { apply oblivious_bind; [apply oblivious_get; reflexivity|]. intros ready.
        destruct (negb ready); [apply oblivious_ret|].
        apply oblivious_captured, oblivious_handle_tools_list. }
      destruct (is_method (req_method request) "tools/call").
      { apply oblivious_bind; [apply oblivious_get; reflexivity|]. intros ready.
        destruct (negb ready); [apply oblivious_ret|].
        cbn [andb] in Hagent. apply orb_false_iff in Hagent as [Ha Hw].
        by apply oblivious_captured, oblivious_handle_tools_call. }
      rewrite Hnot. apply oblivious_ret. }
  unfold run_line, handle_request. cbv zeta. rewrite Hnot.
  assert (Hhandler : forall handler,
            emits (one_reply (req_id request)) handler ->
            match try_except handler
                    (fun e => send_error None (-32603)
                                ("Internal error: " +:+ exn_str e)) s with
            | (Return _, s1) =>
                exists r,
                  stdout s1 = stdout s ++ [r] /\
                  try_except
                    (do response <- captured_or_processed (req_id request) handler ;
                     ret [response])
                    (fun e => ret [error_response None (-32603)
                                     ("Internal error: " +:+ exn_str e)]) s
                  = (Return [r], set_stdout (stdout s) s1)
            | (Raise e, s1) =>
                is_Exception e = false /\
                try_except
                  (do response <- captured_or_processed (req_id request) handler ;
                   ret [response])
                  (fun e => ret [error_response None (-32603)
                                   ("Internal error: " +:+ exn_str e)]) s
                = (Raise e, set_stdout (stdout s) s1)
            end).
  { intros handler Hh.
    pose proof (captured_is_written (req_id request) handler s Hh) as Hcap.
    destruct (try_except handler _ s) as [[[]|e] s1].
    - destruct Hcap as (r & Hout & Hcap). exists r. split; [done|].
      unfold try_except, captured_or_processed, bind, ret.
      destruct (with_capture handler s) as [[[[] captured]|e] s2].
      + by destruct Hcap as (-> & _ & ->).
      + destruct Hcap as (-> & -> & ->). done.
    - destruct Hcap as (He & _ & Hcap). split; [done|].
      unfold try_except, captured_or_processed, bind, ret. by rewrite Hcap, He. }
  assert (Hguard : forall handler,
            emits (one_reply (req_id request)) handler ->
            match try_except
                    (do ready <- get initialized ;
                     if negb ready
                     then send_error (req_id request) (-32002) "Server not initialized"
                     else handler)
                    (fun e => send_error None (-32603)
                                ("Internal error: " +:+ exn_str e)) s with
            | (Return _, s1) =>
                exists r,
                  stdout s1 = stdout s ++ [r] /\
                  try_except
                    (do ready <- get initialized ;
                     if negb ready
                     then ret [error_response (req_id request) (-32002)
                                 "Server not initialized"]
                     else do response <- captured_or_processed (req_id request) handler ;
                          ret [response])
                    (fun e => ret [error_response None (-32603)
                                     ("Internal error: " +:+ exn_str e)]) s
                  = (Return [r], set_stdout (stdout s) s1)
            | (Raise e, s1) =>
                is_Exception e = false /\
                try_except
                  (do ready <- get initialized ;
                   if negb ready
                   then ret [error_response (req_id request) (-32002)
                               "Server not initialized"]
                   else do response <- captured_or_processed (req_id request) handler ;
                        ret [response])
                  (fun e => ret [error_response None (-32603)
                                   ("Internal error: " +:+ exn_str e)]) s
                = (Raise e, set_stdout (stdout s) s1)
            end).
  { intros handler Hh.
    destruct (initialized s) eqn:Hready.
    - assert (Hin : forall {B} (refused accepted : M B) (on_error : PyExn -> M B),
                try_except (do ready <- get initialized ;
                            if negb ready then refused else accepted) on_error s
                = try_except accepted on_error s).
      { intros B refused accepted on_error. unfold try_except, bind, get.
        by rewrite Hready. }
      rewrite !Hin. by apply Hhandler.
    - unfold try_except, bind, get. rewrite Hready. cbn [negb].
      eexists. split; [reflexivity|].
      by rewrite set_stdout_set_stdout, set_stdout_stdout. }
  destruct (is_method (req_method request) "initialize").
  { apply Hhandler, one_reply_of_sure, handle_initialize_replies. }
  destruct (is_method (req_method request) "tools/list").
  { apply Hguard, one_reply_of_sure, handle_tools_list_replies. }
  destruct (is_method (req_method request) "tools/call").
  { apply Hguard, handle_tools_call_replies. }
  eexists. split; [reflexivity|].
  unfold try_except, ret. simpl.
  by rewrite set_stdout_set_stdout, set_stdout_stdout.
Qed.

(** X21: the HTTP handler returns what the stdio loop writes, for every
    request that does not run the agent.  For a request other than the
    notification and other than a [tools/call] of [langgraph_agent] or
    [langgraph_workflow], the body [POST /mcp] returns has the result or the
    error of the response the loop of [run] writes for the same request from
    the same state, under the request's id; a result always comes with
    status 200; [mcp_http] raises what the loop raises; and the server is
    left in the same state, but for what has been written to standard
    output. *)
Theorem http_returns_what_stdio_writes (request : MCPRequest) (s : UnifiedMCPServer) :
  mcp_method request <> "notifications/initialized" ->
  calls_the_agent (request_of request) = false ->
  match run_line (Parsed (request_of request)) s with
  | (Return _, s1) =>
      exists r status,
        stdout s1 = stdout s ++ [r] /\
        mcp_http request s =
          (Return {| status_code := status;
                     content := {| response_id := JStr <$> mcp_id request;
                                   payload := payload r |} |},
           set_stdout (stdout s) s1) /\
        (forall result, payload r = ResultOf result -> status = 200%Z)
  | (Raise e, s1) =>
      is_Exception e = false /\
      mcp_http request s = (Raise e, set_stdout (stdout s) s1)
  end.
Proof.
  intros Hnot Hagent. apply String.eqb_neq in Hnot.
  unfold calls_the_agent, request_of in Hagent. cbv zeta in Hagent.
  cbn [req_method req_params is_method] in Hagent.
  unfold mcp_http. rewrite in_event_loop_oblivious.
  2:{ apply oblivious_try_except; [|intros; apply oblivious_ret]. cbv zeta.
      destruct (String.eqb (mcp_method request) "initialize").
      { apply oblivious_captured, oblivious_handle_initialize. }
      destruct (String.eqb (mcp_method request) "tools/list").
      { apply oblivious_bind; [apply oblivious_get; reflexivity|]. intros ready.
        destruct (negb ready); [apply oblivious_ret|].
        apply oblivious_captured, oblivious_handle_tools_list. }
      destruct (String.eqb (mcp_method request) "tools/call").
      { apply oblivious_bind; [apply oblivious_get; reflexivity|]. intros ready.
        destruct (negb ready); [apply oblivious_ret|].
        cbn [andb] in Hagent. apply orb_false_iff in Hagent as [Ha Hw].
        by apply oblivious_captured, oblivious_handle_tools_call. }
      rewrite Hnot. apply oblivious_ret. }
  unfold run_line, handle_request, request_of. cbv zeta.
  cbn [req_method req_params req_id is_method]. rewrite Hnot.
  set (request_id := JStr <$> mcp_id request).
  assert (Hhandler : forall handler,
            emits (one_reply request_id) handler ->
            match try_except handler
                    (fun e => send_error None (-32603)
                                ("Internal error: " +:+ exn_str e)) s with
            | (Return _, s1) =>
                exists r status,
                  stdout s1 = stdout s ++ [r] /\
                  try_except
                    (do response <- captured_or_processed request_id handler ;
                     ret {| status_code := 200; content := response |})
                    (fun e => ret {| status_code := 500;
                                     content := error_response request_id (-32603)
                                                  ("Internal error: " +:+ exn_str e) |}) s
                  = (Return {| status_code := status;
                               content := {| response_id := request_id;
                                             payload := payload r |} |},
                     set_stdout (stdout s) s1) /\
                  (forall result, payload r = ResultOf result -> status = 200%Z)
            | (Raise e, s1) =>
                is_Exception e = false /\
                try_except
                  (do response <- captured_or_processed request_id handler ;
                   ret {| status_code := 200; content := response |})
                  (fun e => ret {| status_code := 500;
                                   content := error_response request_id (-32603)
                                                ("Internal error: " +:+ exn_str e) |}) s
                = (Raise e, set_stdout (stdout s) s1)
            end).
  { intros handler Hh.
    pose proof (captured_is_written request_id handler s Hh) as Hcap.
    destruct (try_except handler _ s) as [[[]|e] s1].
    - destruct Hcap as (r & Hout & Hcap).
      unfold try_except, captured_or_processed, bind, ret.
      destruct (with_capture handler s) as [[[[] captured]|e] s2].
      + destruct Hcap as (-> & Hid & ->). exists r, 200%Z.
        split; [done|]. split; [|done].
        destruct r as [rid p]. simpl in *. by subst rid.
      + destruct Hcap as (-> & -> & ->). eexists _, 500%Z.
        split; [done|]. split; [done|]. by intros result.
    - destruct Hcap as (He & _ & Hcap). split; [done|].
      unfold try_except, captured_or_processed, bind, ret. by rewrite Hcap, He. }
  assert (Hguard : forall handler,
            emits (one_reply request_id) handler ->
            match try_except
                    (do ready <- get initialized ;
                     if negb ready
                     then send_error request_id (-32002) "Server not initialized"
                     else handler)
                    (fun e => send_error None (-32603)
                                ("Internal error: " +:+ exn_str e)) s with
            | (Return _, s1) =>
                exists r status,
                  stdout s1 = stdout s ++ [r] /\
                  try_except
                    (do ready <- get initialized ;
                     if negb ready
                     then ret {| status_code := 400;
                                 content := error_response request_id (-32002)
                                              "Server not initialized" |}
                     else do response <- captured_or_processed request_id handler ;
                          ret {| status_code := 200; content := response |})
                    (fun e => ret {| status_code := 500;
                                     content := error_response request_id (-32603)
                                                  ("Internal error: " +:+ exn_str e) |}) s
                  = (Return {| status_code := status;
                               content := {| response_id := request_id;
                                             payload := payload r |} |},
                     set_stdout (stdout s) s1) /\
                  (forall result, payload r = ResultOf result -> status = 200%Z)
            | (Raise e, s1) =>
                is_Exception e = false /\
                try_except
                  (do ready <- get initialized ;
                   if negb ready
                   then ret {| status_code := 400;
                               content := error_response request_id (-32002)
                                            "Server not initialized" |}
                   else do response <- captured_or_processed request_id handler ;
                        ret {| status_code := 200; content := response |})
                  (fun e => ret {| status_code := 500;
                                   content := error_response request_id (-32603)
                                                ("Internal error: " +:+ exn_str e) |}) s
                = (Raise e, set_stdout (stdout s) s1)
            end).
  { intros handler Hh.
    destruct (initialized s) eqn:Hready.
    - assert (Hin : forall {B} (refused accepted : M B) (on_error : PyExn -> M B),
                try_except (do ready <- get initialized ;
                            if negb ready then refused else accepted) on_error s
                = try_except accepted on_error s).
      { intros B refused accepted on_error. unfold try_except, bind, get.
        by rewrite Hready. }
      rewrite !Hin. by apply Hhandler.
    - unfold try_except, bind, get. rewrite Hready. cbn [negb].
      eexists _, 400%Z. split; [reflexivity|]. split; [|by intros result].
      by rewrite set_stdout_set_stdout, set_stdout_stdout. }
  destruct (String.eqb (mcp_method request) "initialize").
  { apply Hhandler, one_reply_of_sure, handle_initialize_replies. }
  destruct (String.eqb (mcp_method request) "tools/list").
  { apply Hguard, one_reply_of_sure, handle_tools_list_replies. }
  destruct (String.eqb (mcp_method request) "tools/call").
  { apply Hguard, handle_tools_call_replies. }
  eexists _, 404%Z. split; [reflexivity|].
  split; [|by intros result].
  unfold try_except, ret. simpl.
  by rewrite set_stdout_set_stdout, set_stdout_stdout.
Qed.

(** Getting the agent neither reads nor writes the output and the event
    loop. *)
Lemma agent_for_elsewhere (model persona_config : JSON) (out : list Response)
    (b : bool) (s : UnifiedMCPServer) :
  agent_for model persona_config (set_stdout out (set_event_loop_running b s))
  = ((agent_for model persona_config s).1,
     set_stdout out (set_event_loop_running b (agent_for model persona_config s).2)).
Proof.
  unfold agent_for, _get_langgraph_agent, try_except, bind, get, lift, ret, raise, modify.
  destruct s as [reg ready enabled tool_cache response_cache singleton time n written
                   h loop].
  destruct (truthy persona_config).
  - destruct (persona_prompt persona_config); [|done].
    cbn -[create_langgraph_agent]. by destruct (create_langgraph_agent _ _ _).
  - destruct singleton; [done|]. destruct enabled; [|done].
    cbn -[create_langgraph_agent].
    destruct (create_langgraph_agent reg model None) as [a|e]; [done|].
    by destruct (is_Exception e).
Qed.

(** A [langgraph_agent] call handled in a coroutine: [asyncio.run] refuses
    to start, and the handler of [except Exception] answers with -32000. *)
Lemma langgraph_agent_call_in_a_coroutine (arguments : Args) (prompt : JSON)
    (request_id : option JSON) (s s0 : UnifiedMCPServer) (a : XcodeLangGraphAgent) :
  langgraph_enabled s = true ->
  event_loop_running s = true ->
  dict_get "prompt" arguments = Some prompt ->
  truthy prompt = true ->
  agent_for (default (JStr "ollama:qwen3-coder:30b") (dict_get "model" arguments))
    (default JNull (dict_get "persona" arguments)) s = (Return a, s0) ->
  handle_tools_call
    {| params_name := Some "langgraph_agent"; params_arguments := Some arguments |}
    request_id s =
  (Return tt,
   set_stdout
     (stdout s ++
      [error_response request_id (-32000)
         "Tool execution failed: asyncio.run() cannot be called from a running event loop"])
     s0).
Proof.
  intros Henabled Hloop Hprompt Htruthy Hagent.
  rewrite handle_tools_call_langgraph by done. rewrite Henabled.
  unfold _handle_langgraph_tool, try_except.
  rewrite String.eqb_refl, Hprompt.
  cbn [default from_option id]. rewrite Htruthy. cbn [negb].
  unfold bind at 1. rewrite Hagent.
  unfold bind at 1, agent_run_sync, asyncio_run.
  destruct (agent_for_state _ _ _ _ _ Hagent) as [->|[a' ->]];
    cbn [history stdout event_loop_running set_langgraph_agent];
    by rewrite Hloop.
Qed.

(** X27: over the network the agent is never run.  A [tools/call] of
    [langgraph_agent] with a prompt, sent to an initialized server with
    LangGraph enabled whose agent can be had, is answered by the WebSocket
    handler and by [POST /mcp] (with status 200) with error -32000 and the
    text of the [RuntimeError] that [asyncio.run] raises when it is called
    from a running event loop; no tool is executed, and the server is left
    as getting the agent left it. *)
Theorem agent_call_over_the_network_is_refused (request : MCPRequest)
    (arguments : Args) (prompt : JSON) (a : XcodeLangGraphAgent)
    (s : UnifiedMCPServer) :
  mcp_method request = "tools/call" ->
  mcp_params request =
    Some {| params_name := Some "langgraph_agent"; params_arguments := Some arguments |} ->
  initialized s = true ->
  langgraph_enabled s = true ->
  dict_get "prompt" arguments = Some prompt ->
  truthy prompt = true ->
  (agent_for (default (JStr "ollama:qwen3-coder:30b") (dict_get "model" arguments))
     (default JNull (dict_get "persona" arguments)) s).1 = Return a ->
  let refusal :=
    error_response (JStr <$> mcp_id request) (-32000)
      "Tool execution failed: asyncio.run() cannot be called from a running event loop" in
  let s' :=
    (agent_for (default (JStr "ollama:qwen3-coder:30b") (dict_get "model" arguments))
       (default JNull (dict_get "persona" arguments)) s).2 in
  handle_message (Parsed (request_of request)) s = (Return [refusal], s') /\
  mcp_http request s = (Return {| status_code := 200; content := refusal |}, s') /\
  history s' = history s.
Proof.
  intros Hmethod Hparams Hready Henabled Hprompt Htruthy Hagent refusal s'.
  destruct request as [method params rid]. cbn in Hmethod, Hparams. subst method params.
  assert (Hcall : forall out,
            handle_tools_call
              {| params_name := Some "langgraph_agent";
                 params_arguments := Some arguments |}
              (JStr <$> rid) (set_stdout out (set_event_loop_running true s))
            = (Return tt,
               set_stdout (out ++ [refusal]) (set_event_loop_running true s'))).
  { intros out.
    rewrite (langgraph_agent_call_in_a_coroutine arguments prompt (JStr <$> rid)
               (set_stdout out (set_event_loop_running true s))
               (set_stdout out (set_event_loop_running true s')) a); try done.
    rewrite agent_for_elsewhere. by rewrite Hagent. }
  assert (Hstate : s' = s \/ exists a', s' = set_langgraph_agent (Some a') s).
  { apply (agent_for_state
             (default (JStr "ollama:qwen3-coder:30b") (dict_get "model" arguments))
             (default JNull (dict_get "persona" arguments)) s s' (Return a)).
    subst s'. rewrite <- Hagent. by destruct (agent_for _ _ s). }
  assert (Hback : set_event_loop_running (event_loop_running s)
                    (set_stdout (stdout s) (set_event_loop_running true s')) = s').
  { destruct Hstate as [->|[a' ->]]; by destruct s. }
  assert (Hsent : forall (B : Type) (wrap : Response -> B) (refused : M B)
                         (on_error : PyExn -> M B),
            in_event_loop
              (try_except
                 (do ready <- get initialized ;
                  if negb ready then refused
                  else
                    do response <-
                      captured_or_processed (JStr <$> rid)
                        (handle_tools_call
                           {| params_name := Some "langgraph_agent";
                              params_arguments := Some arguments |}
                           (JStr <$> rid)) ;
                    ret (wrap response))
                 on_error) s
            = (Return (wrap refusal), s')).
  { intros B wrap refused on_error.
    unfold in_event_loop, try_except, captured_or_processed, with_capture, bind, get, ret.
    change (initialized (set_event_loop_running true s)) with (initialized s).
    rewrite Hready. cbv beta iota. cbn [negb]. rewrite (Hcall []). cbv beta iota.
    change (stdout (set_event_loop_running true s)) with (stdout s).
    f_equal. exact Hback. }
  split; [|split].
  - unfold handle_message, request_of.
    cbn [req_method req_params req_id mcp_method mcp_params mcp_id default from_option].
    cbv zeta. unfold is_method, id.
    change ("tools/call" =? "initialize")%string with false.
    change ("tools/call" =? "tools/list")%string with false.
    change ("tools/call" =? "tools/call")%string with true. cbv beta iota.
    exact (Hsent _ (fun r => [r]) _ _).
  - unfold mcp_http.
    cbn [mcp_method mcp_params mcp_id default from_option].
    cbv zeta. unfold id.
    change ("tools/call" =? "initialize")%string with false.
    change ("tools/call" =? "tools/list")%string with false.
    change ("tools/call" =? "tools/call")%string with true. cbv beta iota.
    exact (Hsent _ (fun r => {| status_code := 200; content := r |}) _ _).
  - destruct Hstate as [->|[a' ->]]; done.
Qed.

End Network.

(** ** The two gates and what the service says of them *)

(** X22: the two gates agree, and [GET /] tells the truth about them.  The
    key check of [POST /mcp] and the one of the WebSocket endpoint let the
    same presented keys through; the root endpoint reports authentication
    as required exactly when some request is turned away; and then the
    configured key is the only one that passes. *)
Theorem gates_agree_and_root_tells (cfg : AuthConfig) :
  (forall presented,
     verify_api_key cfg presented = Allowed <->
     websocket_auth cfg presented = Allowed) /\
  (root_authentication cfg = "required" <->
   exists presented, verify_api_key cfg presented <> Allowed) /\
  (root_authentication cfg = "required" ->
   forall presented,
     verify_api_key cfg presented = Allowed <-> presented = Some (API_KEY cfg)).
Proof.
  unfold verify_api_key, websocket_auth, root_authentication.
  destruct (REQUIRE_AUTH cfg); simpl.
  2:{ split; [done|]. split; [|done]. split; [done|]. by intros [p Hp]. }
  destruct (String.eqb (API_KEY cfg) "") eqn:Hkey; simpl.
  { split; [done|]. split; [|done]. split; [done|]. by intros [p Hp]. }
  assert (Hcheck : forall presented,
            match presented with
            | Some key =>
                if String.eqb key ""
                then Rejected 401 "API key required"
                else if negb (String.eqb key (API_KEY cfg))
                     then Rejected 403 "Invalid API key"
                     else Allowed
            | None => Rejected 401 "API key required"
            end = Allowed <-> presented = Some (API_KEY cfg)).
  { intros [key|]; [|done].
    destruct (String.eqb key "") eqn:Hempty.
    - apply String.eqb_eq in Hempty. subst key. split; [done|].
      intros [= Heq]. rewrite <- Heq in Hkey. discriminate.
    - destruct (String.eqb key (API_KEY cfg)) eqn:Heq; simpl.
      + apply String.eqb_eq in Heq. by subst.
      + apply String.eqb_neq in Heq. split; [done|]. intros [= ->]. done. }
  split; [|split].
  - intros presented. rewrite Hcheck. destruct presented as [key|]; [|done].
    destruct (String.eqb key (API_KEY cfg)) eqn:Heq.
    + apply String.eqb_eq in Heq. by subst.
    + apply String.eqb_neq in Heq. split; [|done]. intros [= ->]. done.
  - split; [|done]. intros _. by exists None.
  - intros _. apply Hcheck.
Qed.

(** ** The listing endpoint of the HTTP server *)

Section ToolsEndpoint.
Context `{Platform}.

(** X23: what [GET /tools] lists.  The [count] it reports is the length of
    its listing and the sum of the two other numbers it reports; but, with
    LangGraph there, it advertises an orchestration tool that cannot be
    called: a [tools/call] under that name, whatever its arguments, is
    answered with the -32601 of an unknown tool. *)
Theorem tools_endpoint_counts_and_names (s : UnifiedMCPServer) :
  exists listing count direct langgraph,
    json_path ["tools"] (http_list_tools s) = Some (JList listing) /\
    json_path ["count"] (http_list_tools s) = Some (JInt count) /\
    json_path ["direct_tools"] (http_list_tools s) = Some (JInt direct) /\
    json_path ["langgraph_tools"] (http_list_tools s) = Some (JInt langgraph) /\
    count = Z.of_nat (length listing) /\
    count = (direct + langgraph)%Z /\
    (langgraph_enabled s = true ->
     exists tool_name,
       JStr tool_name ∈ advertised_names listing /\
       forall arguments request_id,
         handle_tools_call
           {| params_name := Some tool_name; params_arguments := Some arguments |}
           request_id s
         = (Return tt,
            set_stdout
              (stdout s ++
               [error_response request_id (-32601)
                  ("Unknown LangGraph tool: " +:+ tool_name)]) s)).
Proof.
  eexists _, _, _, _.
  split; [reflexivity|]. split; [reflexivity|].
  split; [reflexivity|]. split; [reflexivity|].
  split; [reflexivity|]. split.
  - rewrite length_app, length_fmap. unfold list_tools. rewrite length_fmap.
    destruct (langgraph_enabled s); cbn [length tools_endpoint_langgraph]; lia.
  - intros Henabled. exists "langgraph_query". split.
    + rewrite Henabled. unfold advertised_names. rewrite omap_app.
      apply elem_of_app. right. left.
    + intros arguments request_id.
      rewrite handle_tools_call_langgraph by done. by rewrite Henabled.
Qed.

End ToolsEndpoint.

Section SessionInstances.
#[local] Existing Instance Demo.platform.

(** X16 on the demo server. *)
Lemma direct_call_runs_only_the_named_tool_witness :
  let history' :=
    history (handle_tools_call (Demo.tools_call "list_projects" [])
               (Some (JInt 1)) (Demo.server false)).2 in
  history' = history (Demo.server false) \/
  history' = history (Demo.server false) ++ [("list_projects", [])].
Proof.
  exact (direct_call_runs_only_the_named_tool (Demo.tools_call "list_projects" [])
           (Some (JInt 1)) (Demo.server false) eq_refl).
Defined.

(** X17 on the demo server: the process has the agent of model
    [three_calls], and the call asks for [looping]. *)
Lemma later_model_override_is_ignored_witness :
  _handle_langgraph_tool "langgraph_agent"
    (dict_set "model" (JStr "ollama:looping") [("prompt", JStr "build my app")])
    (Some (JInt 2))
    (set_langgraph_agent (Some (Demo.agent "three_calls")) (Demo.server true))
  = _handle_langgraph_tool "langgraph_agent" [("prompt", JStr "build my app")]
      (Some (JInt 2))
      (set_langgraph_agent (Some (Demo.agent "three_calls")) (Demo.server true)).
Proof.
  exact (later_model_override_is_ignored (Demo.agent "three_calls")
           [("prompt", JStr "build my app")] (JStr "ollama:looping") (Some (JInt 2))
           (set_langgraph_agent (Some (Demo.agent "three_calls")) (Demo.server true))
           eq_refl eq_refl).
Defined.

(** X20 on the demo server, once initialized: [build_project] raises, and
    the WebSocket client is sent the -32000 the stdio client would read. *)
Lemma websocket_sends_what_stdio_writes_witness :
  match
    run_line
      (Parsed (Demo.request "tools/call" (Some (Demo.tools_call "build_project" [])) 7))
      (set_initialized true (Demo.server false))
  with
  | (Return _, s1) =>
      exists r,
        stdout s1 = stdout (set_initialized true (Demo.server false)) ++ [r] /\
        handle_message
          (Parsed (Demo.request "tools/call"
                     (Some (Demo.tools_call "build_project" [])) 7))
          (set_initialized true (Demo.server false))
        = (Return [r],
           set_stdout (stdout (set_initialized true (Demo.server false))) s1)
  | (Raise e, s1) =>
      is_Exception e = false /\
      handle_message
        (Parsed (Demo.request "tools/call"
                   (Some (Demo.tools_call "build_project" [])) 7))
        (set_initialized true (Demo.server false))
      = (Raise e, set_stdout (stdout (set_initialized true (Demo.server false))) s1)
  end.
Proof.
  exact (websocket_sends_what_stdio_writes
           (Demo.request "tools/call" (Some (Demo.tools_call "build_project" [])) 7)
           (set_initialized true (Demo.server false)) eq_refl eq_refl).
Defined.

(** X21 on the demo server, once initialized. *)
Lemma http_returns_what_stdio_writes_witness :
  match
    run_line
      (Parsed (request_of
                 {| mcp_method := "tools/call";
                    mcp_params := Some (Demo.tools_call "list_projects" []);
                    mcp_id := Some "7" |}))
      (set_initialized true (Demo.server false))
  with
  | (Return _, s1) =>
      exists r status,
        stdout s1 = stdout (set_initialized true (Demo.server false)) ++ [r] /\
        mcp_http
          {| mcp_method := "tools/call";
             mcp_params := Some (Demo.tools_call "list_projects" []);
             mcp_id := Some "7" |}
          (set_initialized true (Demo.server false))
        = (Return {| status_code := status;
                     content := {| response_id := JStr <$> Some "7";
                                   payload := payload r |} |},
           set_stdout (stdout (set_initialized true (Demo.server false))) s1) /\
        (forall result, payload r = ResultOf result -> status = 200%Z)
  | (Raise e, s1) =>
      is_Exception e = false /\
      mcp_http
        {| mcp_method := "tools/call";
           mcp_params := Some (Demo.tools_call "list_projects" []);
           mcp_id := Some "7" |}
        (set_initialized true (Demo.server false))
      = (Raise e, set_stdout (stdout (set_initialized true (Demo.server false))) s1)
  end.
Proof.
  assert (Hmethod : "tools/call" <> "notifications/initialized") by discriminate.
  exact (http_returns_what_stdio_writes
           {| mcp_method := "tools/call";
              mcp_params := Some (Demo.tools_call "list_projects" []);
              mcp_id := Some "7" |}
           (set_initialized true (Demo.server false)) Hmethod eq_refl).
Defined.

(** X27 on the demo server, once initialized: the WebSocket client asks
    for the agent and is sent the refusal of [asyncio.run]; the agent has
    been created, and no tool has run. *)
Lemma agent_call_over_the_network_is_refused_witness :
  handle_message
    (Parsed (request_of
               {| mcp_method := "tools/call";
                  mcp_params :=
                    Some (Demo.tools_call "langgraph_agent"
                            [("prompt", JStr "list my projects");
                             ("model", JStr "ollama:three_calls")]);
                  mcp_id := Some "9" |}))
    (set_initialized true (Demo.server true))
  = (Return
       [error_response (Some (JStr "9")) (-32000)
          "Tool execution failed: asyncio.run() cannot be called from a running event loop"],
     set_langgraph_agent (Some (Demo.agent "three_calls"))
       (set_initialized true (Demo.server true))).
Proof.
  exact (proj1 (agent_call_over_the_network_is_refused
                  {| mcp_method := "tools/call";
                     mcp_params :=
                       Some (Demo.tools_call "langgraph_agent"
                               [("prompt", JStr "list my projects");
                                ("model", JStr "ollama:three_calls")]);
                     mcp_id := Some "9" |}
                  [("prompt", JStr "list my projects");
                   ("model", JStr "ollama:three_calls")]
                  (JStr "list my projects") (Demo.agent "three_calls")
                  (set_initialized true (Demo.server true))
                  eq_refl eq_refl eq_refl eq_refl eq_refl eq_refl eq_refl)).
Defined.

End SessionInstances.

Section PersonaInstances.
#[local] Existing Instance DemoPersona.platform_with_roles.

(** X18 on a platform whose system prompt names the persona's role: the
    reviewer and the architect get the same answer. *)
Lemma persona_does_not_change_the_answer_witness :
  _handle_langgraph_tool "langgraph_agent"
    (dict_set "persona" (JDict [("role", JStr "code reviewer")])
       [("prompt", JStr "build my app"); ("model", JStr "ollama:three_calls")])
    (Some (JInt 3)) (Demo.server true)
  = _handle_langgraph_tool "langgraph_agent"
      (dict_set "persona" (JDict [("role", JStr "release architect")])
         [("prompt", JStr "build my app"); ("model", JStr "ollama:three_calls")])
      (Some (JInt 3)) (Demo.server true).
Proof.
  exact (persona_does_not_change_the_answer "langgraph_agent"
           [("prompt", JStr "build my app"); ("model", JStr "ollama:three_calls")]
           (JDict [("role", JStr "code reviewer")])
           (JDict [("role", JStr "release architect")])
           "You are a code reviewer specializing in iOS/macOS development."
           "You are a release architect specializing in iOS/macOS development."
           (Some (JInt 3)) (Demo.server true) eq_refl eq_refl eq_refl eq_refl).
Defined.

End PersonaInstances.

(** ** Two edges *)

Section Edges.
Context `{Platform}.

Lemma bind_kwargs_clash (arguments : Args) :
  "self" ∈ arguments.*1 \/ "tool_name" ∈ arguments.*1 ->
  exists clash,
    clash ∈ ["self"; "tool_name"] /\
    bind_kwargs arguments =
      Raise (TypeError ("ToolRegistry.execute_tool() got multiple values for argument '"
                        +:+ clash +:+ "'")).
Proof.
  intros Hclash. unfold bind_kwargs.
  destruct (find _ arguments) as [kv|] eqn:Hfind.
  - apply find_some in Hfind as [_ Hkv]. exists kv.1. split; [|done].
    apply orb_true_iff in Hkv as [Hkv|Hkv]; apply String.eqb_eq in Hkv; rewrite Hkv.
    + left.
    + right. left.
  - exfalso.
    assert (Hnone : forall k, k ∈ arguments.*1 ->
              String.eqb k "self" || String.eqb k "tool_name" = false).
    { intros k Hk. apply list_elem_of_fmap in Hk as (kv & -> & Hkv).
      apply list_elem_of_In in Hkv. apply (find_none _ _ Hfind _ Hkv). }
    destruct Hclash as [Hin|Hin]; apply Hnone in Hin; discriminate Hin.
Qed.

(** X24: an argument named like a parameter of [execute_tool].  A direct
    call with an argument called [self] or [tool_name] that is not served
    from the cache never reaches the registry: passing the arguments as
    keywords raises [TypeError], the loop of [run] answers with -32603 and
    the exception's text in a response that carries NO id, and no
    implementation is called and nothing is cached. *)
Theorem clashing_argument_is_answered_without_id (tool_name : string)
    (arguments : Args) (request_id : option JSON) (s : UnifiedMCPServer) :
  tool_name <> "" ->
  String.prefix "langgraph_" tool_name = false ->
  initialized s = true ->
  "self" ∈ arguments.*1 \/ "tool_name" ∈ arguments.*1 ->
  live_entry s (response_cache_key tool_name arguments) = None ->
  exists clash s',
    clash ∈ ["self"; "tool_name"] /\
    run_line
      (Parsed {| req_method := Some "tools/call";
                 req_params := Some {| params_name := Some tool_name;
                                       params_arguments := Some arguments |};
                 req_id := request_id |}) s = (Return tt, s') /\
    stdout s' =
      stdout s ++
      [error_response None (-32603)
         ("Internal error: ToolRegistry.execute_tool() got multiple values for argument '"
          +:+ clash +:+ "'")] /\
    history s' = history s /\
    _response_cache s' = _response_cache s.
Proof.
  intros Hname Hprefix Hready Hclash Hlive.
  destruct (bind_kwargs_clash arguments Hclash) as (clash & Hin & Hbind).
  exists clash. unfold run_line, try_except, handle_request. cbv zeta.
  cbn [req_method req_params req_id is_method default from_option id].
  change (String.eqb "tools/call" "initialize") with false.
  change (String.eqb "tools/call" "tools/list") with false.
  rewrite String.eqb_refl. cbv iota.
  unfold bind at 1. unfold get at 1. rewrite Hready. cbn [negb].
  rewrite handle_tools_call_ordinary by done.
  unfold live_entry in Hlive.
  destruct (_response_cache s !! response_cache_key tool_name arguments)
    as [[cached_time cached_result]|].
  - destruct (cache_entry_is_fresh (clock s (ticks s)) cached_time); [done|].
    rewrite (execute_and_respond_unbound_kwargs _ _ _ _ _ _ Hbind).
    eexists. split; [done|]. split; [reflexivity|]. done.
  - rewrite (execute_and_respond_unbound_kwargs _ _ _ _ _ _ Hbind).
    eexists. split; [done|]. split; [reflexivity|]. done.
Qed.

(** X25: function calls are never run.  When the reasoning function
    answers with function calls and no tool calls, the graph goes to the
    tools node, which looks at tool calls only: no implementation is called,
    no result is recorded, no message is added, and the reasoning function
    is consulted again on the messages that end with its own answer. *)
Theorem function_calls_are_never_run (a : XcodeLangGraphAgent) (state : AgentState)
    (history : list Invocation) (content function_call : JSON)
    (function_calls : list JSON) :
  llm_with_tools a (messages state) =
    Return (AIMessage content [] (function_call :: function_calls)) ->
  graph_steps 2 a node_agent state history =
    Goto node_agent
      {| messages :=
           messages state ++ [AIMessage content [] (function_call :: function_calls)];
         tool_results := tool_results state;
         current_task := current_task state;
         context := context state |}
      history.
Proof.
  intros Hanswer. cbn [graph_steps]. unfold graph_step at 1. unfold _agent_node.
  rewrite Hanswer. unfold _should_continue. cbn [messages].
  rewrite last_snoc. unfold graph_step, _tools_node. cbn [messages].
  by rewrite last_snoc.
Qed.

End Edges.

Section EdgesInstances.
#[local] Existing Instance Demo.platform.

(** X24 on the demo server, once initialized. *)
Lemma clashing_argument_is_answered_without_id_witness :
  exists clash s',
    clash ∈ ["self"; "tool_name"] /\
    run_line
      (Parsed {| req_method := Some "tools/call";
                 req_params := Some {| params_name := Some "list_projects";
                                       params_arguments :=
                                         Some [("tool_name", JStr "x")] |};
                 req_id := Some (JInt 9) |})
      (set_initialized true (Demo.server false)) = (Return tt, s') /\
    stdout s' =
      stdout (set_initialized true (Demo.server false)) ++
      [error_response None (-32603)
         ("Internal error: ToolRegistry.execute_tool() got multiple values for argument '"
          +:+ clash +:+ "'")] /\
    history s' = history (set_initialized true (Demo.server false)) /\
    _response_cache s' = _response_cache (set_initialized true (Demo.server false)).
Proof.
  assert (Hname : "list_projects" <> "") by discriminate.
  assert (Hclash : "self" ∈ [("tool_name", JStr "x")].*1 \/
                   "tool_name" ∈ [("tool_name", JStr "x")].*1).
  { right. left. }
  exact (clashing_argument_is_answered_without_id "list_projects"
           [("tool_name", JStr "x")] (Some (JInt 9))
           (set_initialized true (Demo.server false))
           Hname eq_refl eq_refl Hclash eq_refl).
Defined.

End EdgesInstances.

Section FunctionCallInstances.
#[local] Existing Instance DemoFunctionCalls.platform_with_function_calls.

(** X25 on a model that answers with a function call. *)
Lemma function_calls_are_never_run_witness :
  graph_steps 2 (Demo.agent "any") node_agent (Demo.initial_state "list my projects") []
  = Goto node_agent
      {| messages :=
           messages (Demo.initial_state "list my projects") ++
           [AIMessage (JStr "") []
              [JDict [("name", JStr "list_projects"); ("arguments", JStr "{}")]]];
         tool_results := tool_results (Demo.initial_state "list my projects");
         current_task := current_task (Demo.initial_state "list my projects");
         context := context (Demo.initial_state "list my projects") |}
      [].
Proof.
  exact (function_calls_are_never_run (Demo.agent "any")
           (Demo.initial_state "list my projects") [] (JStr "")
           (JDict [("name", JStr "list_projects"); ("arguments", JStr "{}")]) []
           eq_refl).
Defined.

End FunctionCallInstances.

(** ** Telling the responses apart *)

Section Correlation.
Context `{Platform}.

(** X26: which request a response answers.  The response the loop of
    [run] writes for a request carries the id of that request, with one
    exception: when the handler raised an [Exception], the -32603 response
    carries no id at all, whatever id the request had.  (When the handler
    raises what is no [Exception], the loop writes nothing and stops.) *)
Theorem response_carries_the_request_id_unless_the_handler_raised (request : Request)
    (s : UnifiedMCPServer) :
  is_method (req_method request) "notifications/initialized" = false ->
  exists s',
    match (handle_request request s).1 with
    | Return _ =>
        run_line (Parsed request) s = (Return tt, s') /\
        exists r, stdout s' = stdout s ++ [r] /\ response_id r = req_id request
    | Raise e =>
        if is_Exception e then
          run_line (Parsed request) s = (Return tt, s') /\
          stdout s' =
            stdout s ++
            [error_response None (-32603) ("Internal error: " +:+ exn_str e)]
        else
          run_line (Parsed request) s = (Raise e, s') /\ stdout s' = stdout s
    end.
Proof.
  intros Hnot.
  destruct (emits_run _ (handle_request request) s (handle_request_replies request Hnot))
    as (res & s0 & new & _ & Hrun & HQ).
  unfold run_line, try_except. rewrite Hrun. cbn [fst].
  destruct res as [[]|e]; simpl in HQ.
  - destruct HQ as (r & -> & Hid). eexists. split; [reflexivity|]. by exists r.
  - subst new. destruct (is_Exception e).
    + eexists. split; [reflexivity|]. simpl. by rewrite app_nil_r.
    + eexists. split; [reflexivity|]. simpl. by rewrite app_nil_r.
Qed.

End Correlation.

Section CorrelationInstances.
#[local] Existing Instance Demo.platform.

(** X26 on the demo server, once initialized: a call with an argument
    named [tool_name], with id 4, is answered without an id. *)
Lemma response_carries_the_request_id_unless_the_handler_raised_witness :
  (handle_request
     (Demo.request "tools/call"
        (Some (Demo.tools_call "list_projects" [("tool_name", JStr "x")])) 4)
     (set_initialized true (Demo.server false))).1
  = Raise (TypeError
             "ToolRegistry.execute_tool() got multiple values for argument 'tool_name'") /\
  exists s',
    match
      (handle_request
         (Demo.request "tools/call"
            (Some (Demo.tools_call "list_projects" [("tool_name", JStr "x")])) 4)
         (set_initialized true (Demo.server false))).1
    with
    | Return _ =>
        run_line
          (Parsed (Demo.request "tools/call"
                     (Some (Demo.tools_call "list_projects" [("tool_name", JStr "x")])) 4))
          (set_initialized true (Demo.server false)) = (Return tt, s') /\
        exists r,
          stdout s' = stdout (set_initialized true (Demo.server false)) ++ [r] /\
          response_id r =
            req_id (Demo.request "tools/call"
                      (Some (Demo.tools_call "list_projects" [("tool_name", JStr "x")]))
                      4)
    | Raise e =>
        if is_Exception e then
          run_line
            (Parsed (Demo.request "tools/call"
                       (Some (Demo.tools_call "list_projects"
                                [("tool_name", JStr "x")])) 4))
            (set_initialized true (Demo.server false)) = (Return tt, s') /\
          stdout s' =
            stdout (set_initialized true (Demo.server false)) ++
            [error_response None (-32603) ("Internal error: " +:+ exn_str e)]
        else
          run_line
            (Parsed (Demo.request "tools/call"
                       (Some (Demo.tools_call "list_projects"
                                [("tool_name", JStr "x")])) 4))
            (set_initialized true (Demo.server false)) = (Raise e, s') /\
          stdout s' = stdout (set_initialized true (Demo.server false))
    end.
Proof.
  split; [vm_compute; reflexivity|].
  exact (response_carries_the_request_id_unless_the_handler_raised
           (Demo.request "tools/call"
              (Some (Demo.tools_call "list_projects" [("tool_name", JStr "x")])) 4)
           (set_initialized true (Demo.server false)) eq_refl).
Defined.

End CorrelationInstances.
